(** * The Python package installer of Termux-All-Tools

    A shallow embedding of [python_packages.py]: [get_installed_version],
    the version check and the retry loop of [install_package], the
    collection loop of [parallel_install], the notification helpers,
    [uninstall_packages] and [main] with [check_root], [load_config] and
    [save_config], together with the parts of Python's [str] and [re] and
    of the third-party [packaging.version] module that the script calls.

    Python strings are modelled as Rocq strings, that is as sequences of
    one-byte characters (the Latin-1 range of Python's code points).
    External commands are given by a [world]; each thread leaves a trace of
    the subprocesses it started, of its sleeps and of the status lines it
    printed. Calls of [logging] and the informational banner lines are left
    out: they have no bearing on what the functions return. *)

From Stdlib Require Import String Ascii NArith ZArith List Bool Lia.
From stdpp Require Import base option list gmap pretty.
Import ListNotations.
Local Open Scope string_scope.
Local Open Scope list_scope.

(** ** Python [str] methods used by the script *)

Module PyStr.

Definition ch (a : ascii) : N := N_of_ascii a.

(** [str.isspace] on one character of the Latin-1 range. *)
Definition isspace (a : ascii) : bool :=
  let n := ch a in
  ((9 <=? n) && (n <=? 13) || (28 <=? n) && (n <=? 32)
   || (n =? 133) || (n =? 160))%N.

Definition isdigit (a : ascii) : bool :=
  let n := ch a in ((48 <=? n) && (n <=? 57))%N.

Definition islower (a : ascii) : bool :=
  let n := ch a in ((97 <=? n) && (n <=? 122))%N.

Definition isupper (a : ascii) : bool :=
  let n := ch a in ((65 <=? n) && (n <=? 90))%N.

Definition lower_char (a : ascii) : ascii :=
  if isupper a then ascii_of_N (ch a + 32) else a.

(** [s.lower()] (letters A-Z only). *)
Fixpoint lower (s : string) : string :=
  match s with
  | EmptyString => EmptyString
  | String a s' => String (lower_char a) (lower s')
  end.

Fixpoint mem (a : ascii) (chars : string) : bool :=
  match chars with
  | EmptyString => false
  | String c cs => if Ascii.eqb a c then true else mem a cs
  end.

(** [all(c in chars for c in s)] *)
Fixpoint all_in (chars : string) (s : string) : bool :=
  match s with
  | EmptyString => true
  | String a s' => mem a chars && all_in chars s'
  end.

(** [s.lstrip(chars)]: drops the longest prefix made of characters of
    the set [chars]. *)
Fixpoint lstrip (chars : string) (s : string) : string :=
  match s with
  | EmptyString => EmptyString
  | String a s' => if mem a chars then lstrip chars s' else s
  end.

Fixpoint lstrip_ws (s : string) : string :=
  match s with
  | EmptyString => EmptyString
  | String a s' => if isspace a then lstrip_ws s' else s
  end.

Fixpoint rstrip_ws (s : string) : string :=
  match s with
  | EmptyString => EmptyString
  | String a s' =>
      match rstrip_ws s' with
      | EmptyString => if isspace a then EmptyString else String a EmptyString
      | r => String a r
      end
  end.

(** [s.strip()] *)
Definition strip (s : string) : string := rstrip_ws (lstrip_ws s).

(** [s.split(sep)] for a one-character separator: never empty. *)
Fixpoint split (sep : ascii) (s : string) : list string :=
  match s with
  | EmptyString => [EmptyString]
  | String a s' =>
      if Ascii.eqb a sep then EmptyString :: split sep s'
      else match split sep s' with
           | h :: t => String a h :: t
           | [] => [String a EmptyString]
           end
  end.

(** [s.startswith(p)] *)
Definition startswith (p s : string) : bool := String.prefix p s.

(** Truth value of a string: empty strings are false. *)
Definition truthy (s : string) : bool :=
  match s with EmptyString => false | _ => true end.

(** [s.isdigit()] for the ASCII digits: false on the empty string. *)
Definition isdigits (s : string) : bool :=
  truthy s && all_in "0123456789" s.

Definition digit_val (a : ascii) : N := (ch a - 48)%N.

Fixpoint int_acc (acc : N) (s : string) : option N :=
  match s with
  | EmptyString => Some acc
  | String a s' =>
      if isdigit a then int_acc (10 * acc + digit_val a)%N s' else None
  end.

(** [sys.get_int_max_str_digits()]: the default limit of CPython (3.11,
    and the security releases of 3.7 to 3.10) on the digits of a string
    that [int] converts. *)
Definition max_str_digits : nat := 4300.

(** [int(s)] on the strings that the script and [packaging.version] pass
    to it, which are made of the digits 0 to 9 or are empty; [None] is
    [ValueError]: the string is empty, has a character that is not a
    digit, or has more than [max_str_digits] digits. *)
Definition int (s : string) : option N :=
  match s with
  | EmptyString => None
  | _ =>
      if Nat.ltb max_str_digits (String.length s) then None
      else int_acc 0%N s
  end.

(** [l[-1]] on a list that [split] produced. *)
Definition last_item (l : list string) : string := List.last l EmptyString.

Definition nl : ascii := ascii_of_N 10.

End PyStr.

(** ** Exceptions

    The exceptions that the script meets. [InvalidVersion] carries the
    string that is not a version. *)

Inductive exn : Type :=
| InvalidVersion (v : string)
| ValueError
| CalledProcessError (stderr : string)
| TimeoutExpired
| FileNotFoundError
| IndexError
| TypeError.

(** ** Python [re]: the fragment used by [packaging.version]

    Greedy quantifiers with backtracking and named groups; the first
    alternative that lets the whole pattern match wins, as in Python. *)

Module PyRe.

Inductive regex : Type :=
| Cls (p : ascii -> bool)          (* one character of a class *)
| Lit (s : string)                 (* literal text *)
| Seq (r1 r2 : regex)              (* r1 r2 *)
| Alt (r1 r2 : regex)              (* r1|r2 *)
| Opt (r : regex)                  (* r? *)
| Star (r : regex)                 (* r* *)
| Grp (name : string) (r : regex). (* (?P<name>r) *)

Definition Plus (r : regex) : regex := Seq r (Star r).

(** The groups that took part in the match, with the text they matched. *)
Definition groups : Type := list (string * string).

Fixpoint strip_prefix (p s : string) : option string :=
  match p, s with
  | EmptyString, _ => Some s
  | String a p', String b s' =>
      if Ascii.eqb a b then strip_prefix p' s' else None
  | String _ _, EmptyString => None
  end.

(** The text between the start [s] of a group and the rest [s1]. *)
Definition consumed (s s1 : string) : string :=
  String.substring 0 (String.length s - String.length s1) s.

(** What remains to be matched after a part of the pattern. *)
Definition cont : Type := string -> groups -> option groups.

(** [r*]: as many rounds of [step] as possible, each of which has to
    consume something, then the rest of the pattern. *)
Fixpoint star (step : string -> groups -> cont -> option groups) (k : cont)
    (n : nat) (s : string) (g : groups) : option groups :=
  match n with
  | O => k s g
  | S n' =>
      match step s g
              (fun s1 g1 =>
                 if Nat.ltb (String.length s1) (String.length s)
                 then star step k n' s1 g1 else None) with
      | Some g' => Some g'
      | None => k s g
      end
  end.

Fixpoint rmatch (r : regex) (s : string) (g : groups) (k : cont) {struct r}
    : option groups :=
  match r with
  | Cls p =>
      match s with
      | String a s' => if p a then k s' g else None
      | EmptyString => None
      end
  | Lit l =>
      match strip_prefix l s with
      | Some s' => k s' g
      | None => None
      end
  | Seq r1 r2 => rmatch r1 s g (fun s1 g1 => rmatch r2 s1 g1 k)
  | Alt r1 r2 =>
      match rmatch r1 s g k with
      | Some g' => Some g'
      | None => rmatch r2 s g k
      end
  | Opt r1 =>
      match rmatch r1 s g k with
      | Some g' => Some g'
      | None => k s g
      end
  | Star r1 => star (rmatch r1) k (String.length s) s g
  | Grp name r1 =>
      rmatch r1 s g (fun s1 g1 => k s1 ((name, consumed s s1) :: g1))
  end.

(** [re.fullmatch] *)
Definition fullmatch (r : regex) (s : string) : option groups :=
  rmatch r s []
    (fun rest g => match rest with EmptyString => Some g | _ => None end).

(** [match.group(name)]: [None] when the group took no part. *)
Fixpoint group (name : string) (g : groups) : option string :=
  match g with
  | [] => None
  | (n, v) :: g' => if String.eqb n name then Some v else group name g'
  end.

End PyRe.

(** ** The third-party module [packaging.version]

    The script imports [version] from the [packaging] distribution. Since
    packaging 22, [version.parse] is the [Version] constructor: it raises
    [InvalidVersion] on a string that is not a PEP 440 version, and there
    is no legacy fallback. The constructor matches the string against
    [VERSION_PATTERN] and converts the numbers with [int], whose
    [ValueError] on a number of more than 4300 digits it does not catch;
    versions compare by [_cmpkey]. *)

Module version.
Import PyStr PyRe.

Record Version : Type := mkVersion {
  epoch : N;
  release : list N;
  pre : option (string * N);
  post : option (string * N);
  dev : option (string * N);
  local : option (list (N + string))
}.

Definition sep : regex := Cls (fun a => mem a "._-").
Definition digits : regex := Plus (Cls isdigit).
Definition alnum : regex := Plus (Cls (fun a => isdigit a || islower a)).
Definition ws : regex := Star (Cls isspace).

(** [x1|x2|...] and [r1 r2 ...], for lists that are not empty. *)
Fixpoint alts (l : list string) : regex :=
  match l with
  | [] => Lit ""
  | [x] => Lit x
  | x :: l' => Alt (Lit x) (alts l')
  end.

Fixpoint seqs (l : list regex) : regex :=
  match l with
  | [] => Lit ""
  | [x] => x
  | x :: l' => Seq x (seqs l')
  end.

(** The parts of [VERSION_PATTERN]. *)
Definition epoch_group : regex := Seq (Grp "epoch" digits) (Lit "!").

Definition release_group : regex :=
  Grp "release" (Seq digits (Star (Seq (Lit ".") digits))).

Definition pre_release : regex :=
  Grp "pre"
    (seqs [ Opt sep;
            Grp "pre_l"
              (alts ["alpha"; "a"; "beta"; "b"; "preview"; "pre"; "c"; "rc"]);
            Opt sep;
            Opt (Grp "pre_n" digits) ]).

Definition post_release : regex :=
  Grp "post"
    (Alt (Seq (Lit "-") (Grp "post_n1" digits))
         (seqs [ Opt sep;
                 Grp "post_l" (alts ["post"; "rev"; "r"]);
                 Opt sep;
                 Opt (Grp "post_n2" digits) ])).

Definition dev_release : regex :=
  Grp "dev"
    (seqs [ Opt sep; Grp "dev_l" (Lit "dev"); Opt sep;
            Opt (Grp "dev_n" digits) ]).

Definition local_version : regex :=
  Seq (Lit "+") (Grp "local" (Seq alnum (Star (Seq sep alnum)))).

(** What may follow the release. *)
Definition after_release : regex :=
  seqs [ Opt pre_release; Opt post_release; Opt dev_release;
         Opt local_version; ws ].

(** [VERSION_PATTERN] between [\s*] and [\s*]; the pattern is compiled
    with [re.IGNORECASE], which [match_version] renders by matching the
    lowered string. *)
Definition VERSION_PATTERN : regex :=
  seqs [ ws; Opt (Lit "v"); Opt epoch_group; release_group; after_release ].

Definition _LETTER_NORMALIZATION (letter : string) : string :=
  if String.eqb letter "alpha" then "a"
  else if String.eqb letter "beta" then "b"
  else if String.eqb letter "c" then "rc"
  else if String.eqb letter "pre" then "rc"
  else if String.eqb letter "preview" then "rc"
  else if String.eqb letter "rev" then "post"
  else if String.eqb letter "r" then "post"
  else letter.

(** In the functions that follow, the outer [None] is the [ValueError]
    of [int]. *)

(** [int(number or 0)] *)
Definition int_or_0 (number : option string) : option N :=
  match number with
  | Some n => int n
  | None => Some 0%N
  end.

Definition _parse_letter_version (letter number : option string)
    : option (option (string * N)) :=
  match letter with
  | Some l =>
      match int_or_0 number with
      | Some n => Some (Some (_LETTER_NORMALIZATION (lower l), n))
      | None => None
      end
  | None =>
      match number with
      | Some n =>
          match int n with
          | Some n' => Some (Some ("post", n'))
          | None => None
          end
      | None => Some None
      end
  end.

(** [local] is split at [.], [_] and [-]. *)
Fixpoint split_seps (s : string) : list string :=
  match s with
  | EmptyString => [EmptyString]
  | String a s' =>
      if mem a "._-" then EmptyString :: split_seps s'
      else match split_seps s' with
           | h :: t => String a h :: t
           | [] => [String a EmptyString]
           end
  end.

Definition _parse_local_version (local : option string)
    : option (option (list (N + string))) :=
  match local with
  | Some l =>
      match mapM (fun part => if isdigits part
                              then match int part with
                                   | Some n => Some (inl n)
                                   | None => None
                                   end
                              else Some (inr (lower part)))
                 (split_seps l) with
      | Some parts => Some (Some parts)
      | None => None
      end
  | None => Some None
  end.

Definition or_else (a b : option string) : option string :=
  match a with Some x => Some x | None => b end.

(** The version read off the groups of a match; [None] is the
    [ValueError] of one of the calls of [int]. *)
Definition Version_of_match (m : groups) : option Version :=
  match int_or_0 (group "epoch" m) with
  | None => None
  | Some epoch =>
  match mapM int (split "." (default "" (group "release" m))) with
  | None => None
  | Some release =>
  match _parse_letter_version (group "pre_l" m) (group "pre_n" m) with
  | None => None
  | Some pre =>
  match _parse_letter_version (group "post_l" m)
          (or_else (group "post_n1" m) (group "post_n2" m)) with
  | None => None
  | Some post =>
  match _parse_letter_version (group "dev_l" m) (group "dev_n" m) with
  | None => None
  | Some dev =>
  match _parse_local_version (group "local" m) with
  | None => None
  | Some local => Some (mkVersion epoch release pre post dev local)
  end end end end end end.

(** [_regex.fullmatch(version)] and the parts of the match: a string that
    the pattern does not match raises [InvalidVersion], and the
    [ValueError] of [int] is not caught. *)
Definition match_version (version : string) : exn + Version :=
  match fullmatch VERSION_PATTERN (lower version) with
  | None => inl (InvalidVersion version)
  | Some m =>
      match Version_of_match m with
      | Some v => inr v
      | None => inl ValueError
      end
  end.

(** [Version(version)]. Recent releases of the module take a shortcut for
    strings of digits and dots, which is the first branch: there a
    [ValueError] of [int] becomes [InvalidVersion] when a part is empty,
    and is raised again otherwise. On the strings that the shortcut
    accepts the pattern gives the same version
    ([shortcut_agrees_with_pattern]). *)
Definition Version_init (version : string) : exn + Version :=
  if all_in ".0123456789" version then
    match mapM int (split "." version) with
    | Some rel => inr (mkVersion 0 rel None None None None)
    | None =>
        if existsb (String.eqb "") (split "." version)
        then inl (InvalidVersion version)
        else inl ValueError
    end
  else match_version version.

Definition parse (v : string) : exn + Version := Version_init v.

End version.

(** *** Ordering of versions: [_cmpkey] and Python's tuple comparison *)

Module cmpkey.
Import version.

(** Comparison of two tuples (or lists) of the same element type: the
    first differing position decides, a proper prefix is smaller. *)
Fixpoint tuple_cmp {A : Type} (cmp : A -> A -> comparison)
    (a b : list A) : comparison :=
  match a, b with
  | [], [] => Eq
  | [], _ :: _ => Lt
  | _ :: _, [] => Gt
  | x :: a', y :: b' =>
      match cmp x y with
      | Eq => tuple_cmp cmp a' b'
      | c => c
      end
  end.

Definition pair_cmp (a b : Z * string) : comparison :=
  match Z.compare a.1 b.1 with
  | Eq => String.compare a.2 b.2
  | c => c
  end.

Definition is_zero (n : N) : bool := N.eqb n 0.

Fixpoint dropwhile {A : Type} (p : A -> bool) (l : list A) : list A :=
  match l with
  | [] => []
  | x :: l' => if p x then dropwhile p l' else l
  end.

(** The release without its trailing zeros. *)
Definition trimmed (release : list N) : list N :=
  rev (dropwhile is_zero (rev release)).

Definition _PRE_RANK (letter : string) : Z :=
  if String.eqb letter "a" then 0
  else if String.eqb letter "b" then 1
  else 2.

Record key : Type := mkKey {
  k_epoch : N;
  k_release : list N;
  k_suffix : list Z;
  k_local : option (list (Z * string))
}.

Definition _cmpkey (v : Version) : key :=
  let pre_rank_n :=
    match pre v, post v, dev v with
    | None, None, Some _ => ((-1)%Z, 0%Z)
    | None, _, _ => (3%Z, 0%Z)
    | Some (l, n), _, _ => (_PRE_RANK l, Z.of_N n)
    end in
  let post_rank_n :=
    match post v with
    | None => (0%Z, 0%Z)
    | Some (_, n) => (1%Z, Z.of_N n)
    end in
  let dev_rank_n :=
    match dev v with
    | None => (1%Z, 0%Z)
    | Some (_, n) => (0%Z, Z.of_N n)
    end in
  mkKey (epoch v) (trimmed (release v))
    [pre_rank_n.1; pre_rank_n.2; post_rank_n.1; post_rank_n.2;
     dev_rank_n.1; dev_rank_n.2]
    (match local v with
     | None => None
     | Some segs =>
         Some (map (fun seg => match seg with
                               | inl n => (Z.of_N n, "")
                               | inr s => ((-1)%Z, s)
                               end) segs)
     end).

(** The key is a 3-tuple, or a 4-tuple when there is a local segment. *)
Definition key_cmp (a b : key) : comparison :=
  match N.compare (k_epoch a) (k_epoch b) with
  | Eq =>
      match tuple_cmp N.compare (k_release a) (k_release b) with
      | Eq =>
          match tuple_cmp Z.compare (k_suffix a) (k_suffix b) with
          | Eq =>
              match k_local a, k_local b with
              | None, None => Eq
              | None, Some _ => Lt
              | Some _, None => Gt
              | Some la, Some lb => tuple_cmp pair_cmp la lb
              end
          | c => c
          end
      | c => c
      end
  | c => c
  end.

(** [a >= b] on versions ([Version.__ge__]). *)
Definition ge (a b : Version) : bool :=
  match key_cmp (_cmpkey a) (_cmpkey b) with
  | Lt => false
  | _ => true
  end.

End cmpkey.

(** ** Effects: subprocesses, sleeping, printing, exceptions

    A thread runs against a [world] that says how each external command
    behaves, and leaves a trace of what it did. A computation returns,
    raises, or blocks for ever. *)

Inductive event : Type :=
| Run (argv : list string) (timeout : option nat)
| Sleep (secs : nat)
| Status (success : bool) (completed total : nat) (package message : string)
| Print (text : string).

Inductive res (A : Type) : Type :=
| Ret (a : A)
| Raise (e : exn)
| Blocks.
Arguments Ret {A} a.
Arguments Raise {A} e.
Arguments Blocks {A}.

(** What a command does once started: it exits after [secs] seconds, never
    exits, or cannot be started at all. *)
Inductive behaviour : Type :=
| Exits (code : Z) (stdout stderr : string) (secs : nat)
| Hangs
| Missing.

(** [w argv n] is the behaviour of the run of [argv] that follows [n]
    earlier runs of the same command line by the same thread. *)
Definition world : Type := list string -> nat -> behaviour.

Definition M (A : Type) : Type := list event -> res A * list event.

Definition ret {A : Type} (a : A) : M A := fun tr => (Ret a, tr).

Definition raise {A : Type} (e : exn) : M A := fun tr => (Raise e, tr).

Definition bind {A B : Type} (m : M A) (f : A -> M B) : M B :=
  fun tr =>
    match m tr with
    | (Ret a, tr') => f a tr'
    | (Raise e, tr') => (Raise e, tr')
    | (Blocks, tr') => (Blocks, tr')
    end.

Notation "x <- m ;; k" := (bind m (fun x => k))
  (at level 100, m at next level, right associativity).
Notation "m ;;; k" := (bind m (fun _ => k))
  (at level 100, right associativity).

(** [try: m except ...: h]: [h e] is [None] when no clause catches [e]. *)
Definition try_except {A : Type} (m : M A) (h : exn -> option (M A)) : M A :=
  fun tr =>
    match m tr with
    | (Raise e, tr') =>
        match h e with
        | Some handler => handler tr'
        | None => (Raise e, tr')
        end
    | r => r
    end.

Definition emit (e : event) : M unit := fun tr => (Ret tt, tr ++ [e]).

Definition lift {A : Type} (r : res A) : M A := fun tr => (r, tr).

Definition is_run_of (argv : list string) (e : event) : bool :=
  match e with
  | Run a _ => bool_decide (a = argv)
  | _ => false
  end.

Definition runs_of (argv : list string) (tr : list event) : nat :=
  length (List.filter (is_run_of argv) tr).

Record CompletedProcess : Type := mkCompleted {
  returncode : Z;
  stdout : string;
  stderr : string
}.

Module subprocess.

(** [subprocess.run(argv, check=check, timeout=timeout, stdout=PIPE,
    stderr=PIPE, text=True)] *)
Definition run (w : world) (argv : list string) (timeout : option nat)
    (check : bool) : M CompletedProcess :=
  fun tr =>
    let tr' := tr ++ [Run argv timeout] in
    match w argv (runs_of argv tr) with
    | Missing => (Raise FileNotFoundError, tr')
    | Hangs =>
        match timeout with
        | None => (Blocks, tr')
        | Some _ => (Raise TimeoutExpired, tr')
        end
    | Exits code out err secs =>
        match timeout with
        | Some t =>
            if Nat.ltb t secs then (Raise TimeoutExpired, tr')
            else if check && negb (Z.eqb code 0)
                 then (Raise (CalledProcessError err), tr')
                 else (Ret (mkCompleted code out err), tr')
        | None =>
            if check && negb (Z.eqb code 0)
            then (Raise (CalledProcessError err), tr')
            else (Ret (mkCompleted code out err), tr')
        end
    end.

End subprocess.

Module time.
Definition sleep (secs : nat) : M unit := emit (Sleep secs).
End time.

(** ** The script [python_packages.py] *)

Definition MAX_WORKERS : nat := 3.
Definition NETWORK_RETRIES : nat := 2.
Definition NETWORK_TIMEOUT : nat := 30.

(** [str(n)] *)
Definition str (n : nat) : string := pretty n.

(** The 3-tuple [(package, success, message)] that [install_package]
    returns. *)
Definition outcome : Type := string * bool * string.

(** The last line of the stripped standard error of a failed command:
    [e.stderr.strip().split('\n')[-1]]. *)
Definition last_line (stderr : string) : string :=
  PyStr.last_item (PyStr.split PyStr.nl (PyStr.strip stderr)).

Section Script.

Variable w : world.

(** [check_termux_api()] *)
Definition check_termux_api : M bool :=
  try_except
    (_ <- subprocess.run w ["termux-notification"; "--help"] None false ;;
     ret true)
    (fun _ => Some (ret false)).

(** [send_notification(title, message)] *)
Definition send_notification (title message : string) : M unit :=
  api <- check_termux_api ;;
  if api then
    try_except
      (_ <- subprocess.run w
              ["termux-notification"; "-t"; title; "-c"; message;
               "--id"; "python_installer"] (Some 5) false ;;
       ret tt)
      (fun e => match e with
                | TimeoutExpired => Some (ret tt)
                | _ => None
                end)
  else ret tt.

Definition pip_show (package : string) : list string :=
  ["python3"; "-m"; "pip"; "show"; package].

(** The [for line in result.stdout.split('\n')] loop of
    [get_installed_version]. *)
Fixpoint version_line (lines : list string) : M (option string) :=
  match lines with
  | [] => ret None
  | line :: rest =>
      if PyStr.startswith "Version:" line then
        match nth_error (PyStr.split ":" line) 1 with
        | Some field => ret (Some (PyStr.strip field))
        | None => raise IndexError
        end
      else version_line rest
  end.

(** [get_installed_version(package)] *)
Definition get_installed_version (package : string) : M (option string) :=
  try_except
    (result <- subprocess.run w (pip_show package) None false ;;
     version_line (PyStr.split PyStr.nl (stdout result)))
    (fun _ => Some (ret None)).

(** The condition of the [if] of [install_package]:
    [current_version and version.parse(current_version) >=
     version.parse(spec.lstrip('>='))]. *)
Definition already_satisfied (current_version : option string)
    (spec : string) : res bool :=
  match current_version with
  | None => Ret false
  | Some cv =>
      if PyStr.truthy cv then
        match version.parse cv with
        | inl e => Raise e
        | inr installed =>
            match version.parse (PyStr.lstrip ">=" spec) with
            | inl e => Raise e
            | inr required => Ret (cmpkey.ge installed required)
            end
        end
      else Ret false
  end.

(** The command line of one installation attempt. *)
Definition pip_install (package spec : string) : list string :=
  ["python3"; "-m"; "pip"; "install"; "--user";
   if PyStr.truthy spec then String.append package spec else package;
   "--timeout"; str NETWORK_TIMEOUT].

(** One iteration of the retry loop: [inl r] is [return r], [inr tt]
    goes on with the next attempt. *)
Definition attempt_install (package spec : string) (attempt : nat)
    : M (option outcome + unit) :=
  try_except
    (_ <- subprocess.run w (pip_install package spec)
            (Some (NETWORK_TIMEOUT * 2)) true ;;
     ret (inl (Some (package, true, "Success"))))
    (fun e =>
       match e with
       | CalledProcessError stderr =>
           let error := last_line stderr in
           Some (if Nat.eqb attempt NETWORK_RETRIES
                 then ret (inl (Some (package, false, error)))
                 else time.sleep (5 * (attempt + 1)) ;;; ret (inr tt))
       | TimeoutExpired =>
           Some (if Nat.eqb attempt NETWORK_RETRIES
                 then ret (inl (Some (package, false, "Timeout")))
                 else time.sleep (10 * (attempt + 1)) ;;; ret (inr tt))
       | _ => None
       end).

(** [for attempt in range(...)]: a loop that ends without [return]
    makes the function return [None]. *)
Fixpoint retry_loop (package spec : string) (attempts : list nat)
    : M (option outcome) :=
  match attempts with
  | [] => ret None
  | attempt :: rest =>
      r <- attempt_install package spec attempt ;;
      match r with
      | inl result => ret result
      | inr _ => retry_loop package spec rest
      end
  end.

(** [install_package(package, spec)] *)
Definition install_package (package spec : string) : M (option outcome) :=
  current_version <- get_installed_version package ;;
  satisfied <- lift (already_satisfied current_version spec) ;;
  if (satisfied : bool) then ret (Some (package, true, "Already installed"))
  else retry_loop package spec (seq 0 (NETWORK_RETRIES + 1)).

(** *** The thread pool

    Each job is one call of [install_package] in a worker thread, with a
    trace of its own. The jobs finish in some order [order] (indices into
    the list of submitted jobs); finishing stores the job's result in its
    future. At most [MAX_WORKERS] jobs run at a time; the jobs do not
    interact, so this bound has no bearing on their results. *)

Definition run_job (job : string * string) : res (option outcome) * list event :=
  install_package job.1 job.2 [].

Definition finish (jobs : list (string * string))
    (futures : gmap nat (res (option outcome))) (i : nat)
    : gmap nat (res (option outcome)) :=
  match jobs !! i with
  | Some job => <[i := (run_job job).1]> futures
  | None => futures
  end.

Definition pool (jobs : list (string * string)) (order : list nat)
    : gmap nat (res (option outcome)) :=
  foldl (finish jobs) ∅ order.

(** [future.result()]: waits for the job, then returns its value or
    raises its exception. *)
Definition future_result (futures : gmap nat (res (option outcome)))
    (i : nat) : M (option outcome) :=
  match futures !! i with
  | Some r => lift r
  | None => lift Blocks
  end.

(** The [for future in futures] loop of [parallel_install]. *)
Fixpoint collect (futures : gmap nat (res (option outcome))) (total : nat)
    (pending : list nat) (completed : nat) (failed : list string)
    : M (list string) :=
  match pending with
  | [] => ret failed
  | future :: rest =>
      r <- future_result futures future ;;
      match r with
      | None => raise TypeError
      | Some (package, success, message) =>
          let completed := completed + 1 in
          emit (Status success completed total package message) ;;;
          let failed := if success then failed else failed ++ [package] in
          (if Nat.eqb (completed mod 5) 0
           then send_notification "Installation Progress"
                  (String.append (str completed)
                     (String.append "/"
                        (String.append (str total) " packages installed")))
           else ret tt) ;;;
          collect futures total rest completed failed
      end
  end.

(** Leaving the [with ThreadPoolExecutor(...)] block waits for every
    worker. *)
Definition shutdown {A : Type} (futures : gmap nat (res (option outcome)))
    (n : nat) (body : M A) : M A :=
  fun tr =>
    let r := body tr in
    if forallb (fun i => match futures !! i with
                         | Some (Ret _) | Some (Raise _) => true
                         | _ => false
                         end) (seq 0 n)
    then r else (Blocks, r.2).

(** [parallel_install(packages)], the dictionary given as the list of
    its items in insertion order. *)
Definition parallel_install (packages : list (string * string))
    (order : list nat) : M (list string) :=
  let futures := pool packages order in
  let n := length packages in
  shutdown futures n (collect futures n (seq 0 n) 0 []).

Definition pip_uninstall (package : string) : list string :=
  ["python3"; "-m"; "pip"; "uninstall"; "-y"; package].

(** The loop of [uninstall_packages]. *)
Fixpoint uninstall_loop (packages failed : list string) : M (list string) :=
  match packages with
  | [] => ret failed
  | package :: rest =>
      failed' <- try_except
                   (_ <- subprocess.run w (pip_uninstall package) None true ;;
                    emit (Print (String.append "Uninstalled " package)) ;;;
                    ret failed)
                   (fun e => match e with
                             | CalledProcessError _ =>
                                 Some (ret (failed ++ [package]))
                             | _ => None
                             end) ;;
      uninstall_loop rest failed'
  end.

(** [uninstall_packages(packages)] *)
Definition uninstall_packages (packages : list string) : M (list string) :=
  uninstall_loop packages [].

End Script.

(** ** Vocabulary of the properties *)

(** How one [pip install] call ends under [check=True] and the timeout of
    [NETWORK_TIMEOUT * 2] seconds. *)
Inductive verdict : Type :=
| Installed
| Failed (stderr : string)
| TimedOut
| NotStarted.

Definition install_verdict (w : world) (package spec : string) (n : nat)
    : verdict :=
  match w (pip_install package spec) n with
  | Missing => NotStarted
  | Hangs => TimedOut
  | Exits code _ err secs =>
      if Nat.ltb (NETWORK_TIMEOUT * 2) secs then TimedOut
      else if Z.eqb code 0 then Installed
      else Failed err
  end.

Definition is_failure (v : verdict) : bool :=
  match v with
  | Failed _ | TimedOut => true
  | _ => false
  end.

(** The multiplier of the sleep that follows a failed attempt. *)
Definition base_delay (v : verdict) : nat :=
  match v with
  | TimedOut => 10
  | _ => 5
  end.

(** The message of the outcome when the last attempt fails. *)
Definition failure_detail (v : verdict) : string :=
  match v with
  | Failed err => last_line err
  | _ => "Timeout"
  end.

(** The seconds slept, in order. *)
Fixpoint sleeps (tr : list event) : list nat :=
  match tr with
  | [] => []
  | Sleep n :: tr' => n :: sleeps tr'
  | _ :: tr' => sleeps tr'
  end.

(** Number of [pip install] calls made for a package. *)
Definition install_calls (package spec : string) (tr : list event) : nat :=
  runs_of (pip_install package spec) tr.

(** One [pip install] call as it appears in a trace. *)
Definition install_run (package spec : string) : event :=
  Run (pip_install package spec) (Some (NETWORK_TIMEOUT * 2)).

(** The package is not skipped by the version check. *)
Definition dispatched (w : world) (package spec : string) : Prop :=
  exists current_version,
    (get_installed_version w package []).1 = Ret current_version /\
    already_satisfied current_version spec = Ret false.

Fixpoint strictly_increasing (l : list nat) : bool :=
  match l with
  | x :: ((y :: _) as l') => Nat.ltb x y && strictly_increasing l'
  | _ => true
  end.

(** Every subprocess in the trace was started with a timeout. *)
Definition all_timed (tr : list event) : bool :=
  forallb (fun e => match e with Run _ None => false | _ => true end) tr.

(** Whether the job of a request ends in a failed outcome. *)
Definition job_failed (w : world) (job : string * string) : bool :=
  match (run_job w job).1 with
  | Ret (Some (_, false, _)) => true
  | _ => false
  end.

(** The failed packages listed in the order in which their jobs finished. *)
Definition failed_in_completion_order (w : world)
    (packages : list (string * string)) (order : list nat) : list string :=
  omap (fun i => match packages !! i with
                 | Some job => if job_failed w job then Some job.1 else None
                 | None => None
                 end) order.

(** The failed packages listed in the order of the request. *)
Definition failed_in_request_order (w : world)
    (packages : list (string * string)) : list string :=
  map fst (List.filter (job_failed w) packages).

(** The packages named by the status lines of a trace, in order. *)
Fixpoint reported (tr : list event) : list string :=
  match tr with
  | [] => []
  | Status _ _ _ package _ :: tr' => package :: reported tr'
  | _ :: tr' => reported tr'
  end.

(** *** The statements of the specification that the script does not meet *)

(** A failure of the first call that is not a network failure is final:
    one call is made and the failure is returned. *)
Definition returns_after_first_failure (w : world) (package spec : string)
    : Prop :=
  let r := install_package w package spec [] in
  install_calls package spec r.2 = 1 /\
  exists detail, r.1 = Ret (Some (package, false, detail)).

(** The sleep before retry [k] is [baseDelay * k] for one [baseDelay], and
    the sleeps increase strictly. *)
Definition linear_backoff (w : world) (package spec : string) : Prop :=
  let tr := (install_package w package spec []).2 in
  (exists baseDelay,
      sleeps tr = map (fun k => baseDelay * k) (seq 1 NETWORK_RETRIES)) /\
  strictly_increasing (sleeps tr) = true.

(** *** The comparison that the specification describes

    Segments between dots, compared from the left, the shorter sequence
    filled up with zeros; two numeric segments compare as numbers, any
    other pair as strings. *)

Definition pad {A : Type} (n : nat) (zero : A) (l : list A) : list A :=
  l ++ repeat zero (n - length l).

Definition padded_cmp (a b : list N) : comparison :=
  let n := Nat.max (length a) (length b) in
  cmpkey.tuple_cmp N.compare (pad n 0%N a) (pad n 0%N b).

Definition padded_ge (a b : list N) : bool :=
  match padded_cmp a b with Lt => false | _ => true end.

Definition segment_cmp (a b : string) : comparison :=
  match PyStr.int a, PyStr.int b with
  | Some x, Some y => N.compare x y
  | _, _ => String.compare a b
  end.

Definition spec_version_ge (installed wanted : string) : bool :=
  let a := PyStr.split "." installed in
  let b := PyStr.split "." wanted in
  let n := Nat.max (length a) (length b) in
  match cmpkey.tuple_cmp segment_cmp (pad n "0" a) (pad n "0" b) with
  | Lt => false
  | _ => true
  end.

(** *** The satisfaction check that the specification describes

    A constraint is an operator, [>=], exact or "any", with a version. An
    absent version never satisfies a constraint, an unconstrained request
    is satisfied by any installed version, and the versions are compared
    as above. In the configuration a constraint is written as the
    comparator followed by the version, and as the empty string for
    "any". *)

Definition spec_version_eq (installed wanted : string) : bool :=
  let a := PyStr.split "." installed in
  let b := PyStr.split "." wanted in
  let n := Nat.max (length a) (length b) in
  match cmpkey.tuple_cmp segment_cmp (pad n "0" a) (pad n "0" b) with
  | Eq => true
  | _ => false
  end.

Inductive VersionConstraint : Type :=
| AtLeast (v : string)
| Exactly (v : string)
| Any.

Definition spec_satisfies (installed : option string)
    (constraint : VersionConstraint) : bool :=
  match installed with
  | None => false
  | Some cv =>
      match constraint with
      | Any => true
      | AtLeast v => spec_version_ge cv v
      | Exactly v => spec_version_eq cv v
      end
  end.

Definition constraint_string (constraint : VersionConstraint) : string :=
  match constraint with
  | AtLeast v => String.append ">=" v
  | Exactly v => String.append "==" v
  | Any => EmptyString
  end.

(** The string goes on with [>] or [=]. *)
Definition operator_ahead (s : string) : bool :=
  match s with
  | EmptyString => false
  | String a _ => PyStr.mem a ">="
  end.

(** A release is tight when it does not end in a zero. *)
Fixpoint tight (l : list N) : Prop :=
  match l with
  | [] => True
  | [x] => x <> 0%N
  | _ :: t => tight t
  end.

(** *** Vocabulary of the pattern of versions *)

(** Strings of digits. *)
Fixpoint all_digits (s : string) : bool :=
  match s with
  | EmptyString => true
  | String a s' => PyStr.isdigit a && all_digits s'
  end.

(** The string does not go on with a digit. *)
Definition no_digit_ahead (s : string) : bool :=
  match s with
  | EmptyString => true
  | String a _ => negb (PyStr.isdigit a)
  end.

(** The segments put together again, each with a dot in front. *)
Fixpoint dotted (segs : list string) : string :=
  match segs with
  | [] => EmptyString
  | seg :: segs' => String "." (String.append seg (dotted segs'))
  end.

(** [s1] is what remains of [s] after some prefix. *)
Definition suffix_of (s1 s : string) : Prop :=
  exists p, s = String.append p s1.

(** *** Worlds used in the examples *)

Definition pip_show_output (name v : string) : string :=
  String.append "Name: "
    (String.append name
       (String PyStr.nl
          (String.append "Version: "
             (String.append v (String PyStr.nl "Summary: a package"))))).

Definition is_show (argv : list string) : option string :=
  match argv with
  | ["python3"; "-m"; "pip"; "show"; package] => Some package
  | _ => None
  end.

Definition is_install (argv : list string) : bool :=
  match argv with
  | "python3" :: "-m" :: "pip" :: "install" :: _ => true
  | _ => false
  end.

(** Nothing is installed and every installation fails the same way: the
    index has no such distribution. *)
Definition w_no_distribution : world :=
  fun argv n =>
    if is_install argv then
      Exits 1 ""
        (String.append "ERROR: Could not find a version that satisfies the requirement"
           (String PyStr.nl "ERROR: No matching distribution found"))
        2
    else Exits 1 "" "WARNING: Package(s) not found" 1.

(** Nothing is installed; the first installation attempt runs into the
    timeout, the later ones are refused by the network. *)
Definition w_flaky_network : world :=
  fun argv n =>
    if is_install argv then
      match n with
      | 0 => Hangs
      | _ => Exits 1 "" "ConnectionRefusedError: [Errno 111] Connection refused" 3
      end
    else Exits 1 "" "WARNING: Package(s) not found" 1.

(** Every package is installed at version [v]; installations succeed. *)
Definition w_all_installed (v : string) : world :=
  fun argv n =>
    match is_show argv with
    | Some package => Exits 0 (pip_show_output package v) "" 1
    | None => Exits 0 "" "" 1
    end.

(** [pip show] never answers. *)
Definition w_show_hangs : world :=
  fun argv n =>
    match is_show argv with
    | Some _ => Hangs
    | None => Exits 0 "" "" 1
    end.

(** Two requests, one constrained and one not. *)
Definition two_requests : list (string * string) :=
  [("alpha", ">=1.0"); ("beta", "")].

(** ** The rest of the script: configuration and [main] *)

(** A Python [dict] of strings, as the list of its items in insertion
    order. *)
Definition dict : Type := list (string * string).

(** [d[k] = v]: an existing key keeps its place, a new one goes last. *)
Fixpoint dict_set (k v : string) (d : dict) : dict :=
  match d with
  | [] => [(k, v)]
  | (k', v') :: d' =>
      if String.eqb k' k then (k', v) :: d' else (k', v') :: dict_set k v d'
  end.

Definition DEFAULT_PACKAGES : dict :=
  [ ("requests", ">=2.28.0"); ("beautifulsoup4", ">=4.11.0");
    ("scapy", ">=2.5.0"); ("numpy", ">=1.22.0"); ("pandas", ">=1.5.0");
    ("matplotlib", ">=3.6.0"); ("flask", ">=2.2.0"); ("django", ">=4.1.0");
    ("pycryptodome", ">=3.15.0"); ("paramiko", ">=3.0.0");
    ("selenium", ">=4.7.0"); ("colorama", ">=0.4.0"); ("pillow", ">=9.3.0");
    ("pyautogui", ">=0.9.0"); ("pynput", ">=1.7.0"); ("pyfiglet", ">=0.8.0");
    ("termcolor", ">=2.2.0"); ("speedtest-cli", ">=2.1.0");
    ("whois", ">=0.9.0") ].

(** ['>=' in s] *)
Fixpoint contains_ge (s : string) : bool :=
  match s with
  | EmptyString => false
  | String a s' =>
      match s' with
      | String b _ =>
          if Ascii.eqb a ">" && Ascii.eqb b "=" then true else contains_ge s'
      | EmptyString => false
      end
  end.

(** [s.split('>=')] *)
Fixpoint split_ge (s : string) : list string :=
  match s with
  | EmptyString => [EmptyString]
  | String a s' =>
      match s' with
      | String b s'' =>
          if Ascii.eqb a ">" && Ascii.eqb b "="
          then EmptyString :: split_ge s''
          else match split_ge s' with
               | h :: t => String a h :: t
               | [] => [String a EmptyString]
               end
      | EmptyString => [String a EmptyString]
      end
  end.

(** The loop of [main] over the packages that the user typed:
    [for pkg_spec in custom_packages]. Unpacking [pkg_spec.split('>=')]
    into two names raises [ValueError] unless there are exactly two parts;
    [None] stands for that exception. *)
Fixpoint edit_packages (custom_packages : list string) (packages : dict)
    : option dict :=
  match custom_packages with
  | [] => Some packages
  | pkg_spec :: rest =>
      if contains_ge pkg_spec then
        match split_ge pkg_spec with
        | [package; spec] =>
            edit_packages rest
              (dict_set (PyStr.strip package)
                 (String.append ">=" (PyStr.strip spec)) packages)
        | _ => None
        end
      else edit_packages rest (dict_set (PyStr.strip pkg_spec) "" packages)
  end.

(** *** The interactive session

    Around the subprocesses of a thread, [main] reads lines from the
    terminal, reads and writes the configuration file, and may leave
    through [sys.exit]. The file is given by its contents as a dictionary
    (what [json.load] returns and [json.dump] stores), [None] when it does
    not exist. *)

Record session : Type := mkSession {
  log : list event;
  config_file : option dict;
  unread : list string
}.

(** How [main] ends when it does not return. *)
Inductive stop : Type :=
| Uncaught (e : exn)
| SystemExit (code : nat)
| EOFError
| Stuck.

Definition Main (A : Type) : Type := session -> (stop + A) * session.

Definition mret {A : Type} (a : A) : Main A := fun s => (inr a, s).

Definition mstop {A : Type} (st : stop) : Main A := fun s => (inl st, s).

Definition mbind {A B : Type} (m : Main A) (f : A -> Main B) : Main B :=
  fun s =>
    match m s with
    | (inr a, s') => f a s'
    | (inl st, s') => (inl st, s')
    end.

Notation "x <~ m ;; k" := (mbind m (fun x => k))
  (at level 100, m at next level, right associativity).
Notation "m ~;; k" := (mbind m (fun _ => k))
  (at level 100, right associativity).

(** A computation of the thread, run in the session. *)
Definition in_thread {A : Type} (m : M A) : Main A :=
  fun s =>
    match m (log s) with
    | (Ret a, tr) => (inr a, mkSession tr (config_file s) (unread s))
    | (Raise e, tr) => (inl (Uncaught e), mkSession tr (config_file s) (unread s))
    | (Blocks, tr) => (inl Stuck, mkSession tr (config_file s) (unread s))
    end.

(** [input()] *)
Definition input : Main string :=
  fun s =>
    match unread s with
    | line :: rest => (inr line, mkSession (log s) (config_file s) rest)
    | [] => (inl EOFError, s)
    end.

(** [sys.exit(code)] *)
Definition sys_exit {A : Type} (code : nat) : Main A := mstop (SystemExit code).

(** [check_root()], with the effective user id of the process. *)
Definition check_root (euid : nat) : Main unit :=
  if Nat.eqb euid 0 then sys_exit 1 else mret tt.

(** [load_config()] *)
Definition load_config : Main dict :=
  fun s =>
    match config_file s with
    | Some packages => (inr packages, s)
    | None => (inr DEFAULT_PACKAGES, s)
    end.

(** [save_config(packages)] *)
Definition save_config (packages : dict) : Main unit :=
  fun s => (inr tt, mkSession (log s) (Some packages) (unread s)).

Definition pkg_install : list string :=
  ["pkg"; "install"; "-y"; "python"; "clang"; "libffi"; "libjpeg-turbo"].

Definition pip_upgrade : list string :=
  ["python3"; "-m"; "pip"; "install"; "--upgrade"; "pip"].

(** The [try] statement of [main] that installs the system packages:
    [false] when [CalledProcessError] was caught. *)
Definition system_dependencies (w : world) : M bool :=
  try_except
    (_ <- subprocess.run w pkg_install (Some 300) true ;; ret true)
    (fun e => match e with
              | CalledProcessError _ => Some (ret false)
              | _ => None
              end).

(** The [try] statement of [main] that upgrades pip. *)
Definition upgrade_pip (w : world) : M unit :=
  try_except
    (_ <- subprocess.run w pip_upgrade (Some 120) true ;; ret tt)
    (fun e => match e with
              | CalledProcessError _ => Some (ret tt)
              | _ => None
              end).

(** The end of [main]: the batch and the closing notification. *)
Definition install_and_notify (w : world) (packages : dict) (order : list nat)
    : M unit :=
  failed_packages <- parallel_install w packages order ;;
  match failed_packages with
  | _ :: _ =>
      send_notification w "Installation Complete"
        (String.append (str (length failed_packages)) " packages failed")
  | [] =>
      send_notification w "Installation Complete"
        "All packages installed successfully!"
  end.

(** The block of [main] that asks whether to edit the package list. *)
Definition customize (packages : dict) : Main dict :=
  answer <~ input ;;
  if String.eqb (PyStr.lower answer) "y" then
    line <~ input ;;
    match edit_packages (PyStr.split "," (PyStr.strip line)) packages with
    | Some packages' => save_config packages' ~;; mret packages'
    | None => mstop (Uncaught ValueError)
    end
  else mret packages.

(** [main()]; [order] is the order in which the jobs of the batch
    finish. *)
Definition main (w : world) (euid : nat) (order : list nat) : Main unit :=
  check_root euid ~;;
  packages <~ load_config ;;
  packages <~ customize packages ;;
  ok <~ in_thread (system_dependencies w) ;;
  (if (ok : bool) then mret tt
   else in_thread (send_notification w "Installation Failed"
                     "System packages error") ~;;
        sys_exit 1) ~;;
  in_thread (upgrade_pip w) ~;;
  in_thread (install_and_notify w packages order).

(** A session that begins: nothing run yet. *)
Definition start (config : option dict) (lines : list string) : session :=
  mkSession [] config lines.


(** *** Vocabulary of the further properties *)

(** The seconds slept in all. *)
Definition total_sleep (tr : list event) : nat := list_sum (sleeps tr).

(** A number of 4301 digits. *)
Definition long_number : string :=
  string_of_list_ascii (repeat "1"%char (PyStr.max_str_digits + 1)).


(** The two command lines of [send_notification]. *)
Definition notifier_probe : list string := ["termux-notification"; "--help"].

Definition notify_command (title message : string) : list string :=
  ["termux-notification"; "-t"; title; "-c"; message; "--id"; "python_installer"].

(** The probe of the notifier always ends, and a notifier that could be
    started for the probe can be started to send. *)
Definition notifier_sound (w : world) : Prop :=
  (forall n, w notifier_probe n <> Hangs) /\
  (forall n title message k,
      w notifier_probe n <> Missing -> w (notify_command title message) k <> Missing).

Definition is_status (e : event) : bool :=
  match e with
  | Status _ _ _ _ _ => true
  | _ => false
  end.

(** The status lines of a trace. *)
Definition status_lines (tr : list event) : list event := List.filter is_status tr.

(** The status line of request number [i]: the outcome of its job, counted
    as [i + 1] of the number of requests. *)
Definition job_line (w : world) (packages : list (string * string)) (i : nat)
    : option event :=
  match packages !! i with
  | Some job =>
      match (run_job w job).1 with
      | Ret (Some (package, success, message)) =>
          Some (Status success (i + 1) (length packages) package message)
      | _ => None
      end
  | None => None
  end.

(** The packages of the status lines that show a failure. *)
Fixpoint failed_lines (tr : list event) : list string :=
  match tr with
  | [] => []
  | Status false _ _ package _ :: tr' => package :: failed_lines tr'
  | _ :: tr' => failed_lines tr'
  end.

(** The job of a request returns an outcome. *)
Definition job_returns (w : world) (job : string * string) : Prop :=
  exists o, (run_job w job).1 = Ret (Some o).

(** Five requests with a lower bound. *)
Definition five_requests : list (string * string) :=
  [("alpha", ">=1.0"); ("beta", ">=1.0"); ("gamma", ">=1.0");
   ("delta", ">=1.0"); ("epsilon", ">=1.0")].

(** The first [pip uninstall] of the package ends, with any exit code. *)
Definition uninstall_ends (w : world) (package : string) : Prop :=
  exists code out err secs,
    w (pip_uninstall package) 0 = Exits code out err secs.

(** The first [pip uninstall] of the package exits with code 0. *)
Definition uninstall_ok (w : world) (package : string) : bool :=
  match w (pip_uninstall package) 0 with
  | Exits code _ _ _ => Z.eqb code 0
  | _ => false
  end.

(** What [uninstall_packages] does for one package whose command ends. *)
Definition uninstall_events (w : world) (package : string) : list event :=
  Run (pip_uninstall package) None ::
  (if uninstall_ok w package
   then [Print (String.append "Uninstalled " package)] else []).

(** Every package is installed but [beta], and every command succeeds but
    those that name [beta]. *)
Definition w_one_absent : world :=
  fun argv n =>
    if bool_decide ("beta" ∈ argv)
    then Exits 1 "" "WARNING: Skipping beta as it is not installed." 1
    else match is_show argv with
         | Some package => Exits 0 (pip_show_output package "1.0") "" 1
         | None => Exits 0 "" "" 1
         end.

(** The keys of a dictionary, in insertion order. *)
Definition keys (d : dict) : list string := map fst d.

(** The form of a stored requirement: empty, or a lower bound. *)
Definition requirement_form (spec : string) : bool :=
  match spec with
  | EmptyString => true
  | _ => PyStr.startswith ">=" spec
  end.

(** What [load_config] returns for the contents of the configuration
    file. *)
Definition loaded (config : option dict) : dict :=
  match config with
  | Some packages => packages
  | None => DEFAULT_PACKAGES
  end.

(** No command of the trace runs [python3]. *)
Definition no_python (tr : list event) : bool :=
  forallb (fun e => match e with
                    | Run ("python3" :: _) _ => false
                    | _ => true
                    end) tr.

(** The message of the closing notification of [main]. *)
Definition closing_message (failed_packages : list string) : string :=
  match failed_packages with
  | _ :: _ => String.append (str (length failed_packages)) " packages failed"
  | [] => "All packages installed successfully!"
  end.

(** The probe of the notifier always ends. *)
Definition notifier_answers (w : world) : Prop :=
  forall n, exists code out err secs, w notifier_probe n = Exits code out err secs.

(** The mirror of the system packages does not answer: [pkg install] never
    ends; every other command succeeds. *)
Definition w_slow_mirror : world :=
  fun argv n =>
    match argv with
    | "pkg" :: _ => Hangs
    | _ => Exits 0 "" "" 1
    end.

(** Everything is installed at version 2.3.0, there is no notifier, and
    pip refuses to upgrade itself. *)
Definition w_old_pip : world :=
  fun argv n =>
    match argv with
    | "termux-notification" :: _ => Missing
    | ["python3"; "-m"; "pip"; "install"; "--upgrade"; "pip"] =>
        Exits 1 "" "ERROR: externally-managed-environment" 1
    | _ =>
        match is_show argv with
        | Some package => Exits 0 (pip_show_output package "2.3.0") "" 1
        | None => Exits 0 "" "" 1
        end
    end.

(** * Properties *)

(** ** Traces and command lines *)

Lemma runs_of_app argv tr1 tr2 :
  runs_of argv (tr1 ++ tr2) = runs_of argv tr1 + runs_of argv tr2.
Proof.
  unfold runs_of. rewrite List.filter_app, length_app. reflexivity.
Qed.

Lemma runs_of_same argv t : runs_of argv [Run argv t] = 1.
Proof.
  unfold runs_of. simpl. rewrite bool_decide_eq_true_2; reflexivity.
Qed.

Lemma runs_of_other argv argv' t :
  argv' <> argv -> runs_of argv [Run argv' t] = 0.
Proof.
  intros Hne. unfold runs_of. simpl.
  rewrite bool_decide_eq_false_2; [reflexivity | assumption].
Qed.

Lemma runs_of_sleep argv n : runs_of argv [Sleep n] = 0.
Proof. reflexivity. Qed.

Lemma show_is_not_install package package' spec :
  pip_show package <> pip_install package' spec.
Proof. unfold pip_show, pip_install. intros H. discriminate H. Qed.

(** ** [get_installed_version] *)

Lemma version_line_trace lines tr : (version_line lines tr).2 = tr.
Proof.
  induction lines as [|line rest IH]; [reflexivity|].
  cbn [version_line].
  destruct (PyStr.startswith "Version:" line); [|exact IH].
  destruct (nth_error (PyStr.split ":" line) 1); reflexivity.
Qed.

(** The version query leaves exactly one event: a [pip show] without a
    timeout. *)
Lemma get_installed_version_trace w package tr :
  (get_installed_version w package tr).2 = tr ++ [Run (pip_show package) None].
Proof.
  unfold get_installed_version, try_except, bind, subprocess.run.
  destruct (w (pip_show package) (runs_of (pip_show package) tr))
    as [code out err secs| |]; simpl; try reflexivity.
  set (tr' := tr ++ [Run (pip_show package) None]).
  pose proof (version_line_trace (PyStr.split PyStr.nl out) tr') as Htr.
  destruct (version_line (PyStr.split PyStr.nl out) tr') as [[v|e|] tr2];
    simpl in *; subst; reflexivity.
Qed.

(** The bare [except:] swallows every exception of the query. *)
Lemma get_installed_version_never_raises w package tr e :
  (get_installed_version w package tr).1 <> Raise e.
Proof.
  unfold get_installed_version, try_except, bind, subprocess.run.
  destruct (w (pip_show package) (runs_of (pip_show package) tr))
    as [code out err secs| |]; simpl; try discriminate.
  destruct (version_line (PyStr.split PyStr.nl out)
              (tr ++ [Run (pip_show package) None])) as [[v|e'|] tr2];
    simpl; discriminate.
Qed.

(** The query blocks exactly when [pip show] hangs. *)
Lemma get_installed_version_blocks w package tr :
  (get_installed_version w package tr).1 = Blocks <->
  w (pip_show package) (runs_of (pip_show package) tr) = Hangs.
Proof.
  unfold get_installed_version, try_except, bind, subprocess.run.
  destruct (w (pip_show package) (runs_of (pip_show package) tr))
    as [code out err secs| |] eqn:Hw; simpl; split; try discriminate;
    try reflexivity.
  generalize (tr ++ [Run (pip_show package) None]). intros tr'.
  induction (PyStr.split PyStr.nl out) as [|line rest IH];
    [discriminate|].
  cbn [version_line].
  destruct (PyStr.startswith "Version:" line); [|exact IH].
  destruct (nth_error (PyStr.split ":" line) 1); discriminate.
Qed.

(** ** The retry loop of [install_package] *)

(** One attempt: the command is run once, with the timeout; what follows
    depends on how it ended and on whether attempts remain. *)
Lemma attempt_install_spec w package spec attempt tr :
  attempt_install w package spec attempt tr =
  let tr' := tr ++ [install_run package spec] in
  match install_verdict w package spec (install_calls package spec tr) with
  | Installed => (Ret (inl (Some (package, true, "Success"))), tr')
  | NotStarted => (Raise FileNotFoundError, tr')
  | v =>
      if Nat.eqb attempt NETWORK_RETRIES
      then (Ret (inl (Some (package, false, failure_detail v))), tr')
      else (Ret (inr tt), tr' ++ [Sleep (base_delay v * (attempt + 1))])
  end.
Proof.
  unfold attempt_install, install_verdict, install_calls, try_except, bind,
    subprocess.run.
  destruct (w (pip_install package spec) (runs_of (pip_install package spec) tr))
    as [code out err secs| |]; cbn [andb negb].
  - destruct (Nat.ltb (NETWORK_TIMEOUT * 2) secs).
    + destruct (Nat.eqb attempt NETWORK_RETRIES); reflexivity.
    + destruct (Z.eqb code 0); cbn [negb]; [reflexivity|].
      destruct (Nat.eqb attempt NETWORK_RETRIES); reflexivity.
  - destruct (Nat.eqb attempt NETWORK_RETRIES); reflexivity.
  - reflexivity.
Qed.

Lemma install_calls_after_show package spec :
  install_calls package spec [Run (pip_show package) None] = 0.
Proof.
  unfold install_calls. apply runs_of_other, show_is_not_install.
Qed.

Lemma install_calls_step package spec tr :
  install_calls package spec (tr ++ [install_run package spec]) =
  S (install_calls package spec tr).
Proof.
  unfold install_calls, install_run. rewrite runs_of_app, runs_of_same. lia.
Qed.

Lemma install_calls_sleep package spec tr n :
  install_calls package spec (tr ++ [Sleep n]) = install_calls package spec tr.
Proof.
  unfold install_calls. rewrite runs_of_app, runs_of_sleep. lia.
Qed.

(** [install_package] on a package that is not skipped is the retry loop
    run after the version query. *)
Lemma install_package_dispatched w package spec :
  dispatched w package spec ->
  install_package w package spec [] =
  retry_loop w package spec (seq 0 (NETWORK_RETRIES + 1))
    [Run (pip_show package) None].
Proof.
  intros (cv & Hget & Hsat).
  pose proof (get_installed_version_trace w package []) as Htr.
  unfold install_package, bind, lift.
  destruct (get_installed_version w package []) as [r tr1].
  simpl in Hget, Htr. subst r tr1. rewrite Hsat. reflexivity.
Qed.
Lemma retry_loop_cons w package spec attempt rest tr :
  retry_loop w package spec (attempt :: rest) tr =
  match attempt_install w package spec attempt tr with
  | (Ret (inl result), tr') => (Ret result, tr')
  | (Ret (inr _), tr') => retry_loop w package spec rest tr'
  | (Raise e, tr') => (Raise e, tr')
  | (Blocks, tr') => (Blocks, tr')
  end.
Proof.
  cbn [retry_loop]. unfold bind.
  destruct (attempt_install w package spec attempt tr) as [[[r|u]|e|] tr'];
    reflexivity.
Qed.

(** A failed attempt that is not the last one sleeps and goes on. *)
Lemma retry_loop_failure w package spec attempt rest tr :
  attempt <> NETWORK_RETRIES ->
  is_failure (install_verdict w package spec (install_calls package spec tr)) = true ->
  retry_loop w package spec (attempt :: rest) tr =
  retry_loop w package spec rest
    (tr ++ [install_run package spec]
        ++ [Sleep (base_delay (install_verdict w package spec
                                 (install_calls package spec tr)) * (attempt + 1))]).
Proof.
  intros Hne Hfail. rewrite retry_loop_cons, attempt_install_spec.
  apply Nat.eqb_neq in Hne. cbv zeta.
  destruct (install_verdict w package spec (install_calls package spec tr));
    try discriminate Hfail; rewrite Hne, <- app_assoc; reflexivity.
Qed.

(** The last attempt returns, whatever its end. *)
Lemma retry_loop_last w package spec rest tr :
  is_failure (install_verdict w package spec (install_calls package spec tr)) = true ->
  retry_loop w package spec (NETWORK_RETRIES :: rest) tr =
  (Ret (Some (package, false,
              failure_detail (install_verdict w package spec
                                (install_calls package spec tr)))),
   tr ++ [install_run package spec]).
Proof.
  intros Hfail. rewrite retry_loop_cons, attempt_install_spec. cbv zeta.
  destruct (install_verdict w package spec (install_calls package spec tr));
    try discriminate Hfail; reflexivity.
Qed.

(** Counting the calls made so far in a trace built by appending. *)
Ltac count_calls :=
  rewrite ?app_assoc;
  repeat (rewrite ?install_calls_sleep, ?install_calls_step,
            ?install_calls_after_show).

Lemma base_delay_cases v : base_delay v = 5 \/ base_delay v = 10.
Proof. destruct v; simpl; auto. Qed.

(** C3, as it holds of the script. If every [pip install] call for a package
    ends in a nonzero exit or a timeout, the package is reported failed
    after exactly [NETWORK_RETRIES + 1] = 3 calls. Nothing is slept before
    the first call; the sleep before retry [k] is [5 * k] seconds after a
    nonzero exit and [10 * k] seconds after a timeout, so the delays never
    decrease, and they increase strictly when both failures are of the same
    kind. *)
Theorem C3_failures_exhaust_attempts w package spec :
  dispatched w package spec ->
  (forall n, n < NETWORK_RETRIES + 1 ->
             is_failure (install_verdict w package spec n) = true) ->
  let v := install_verdict w package spec in
  let r := install_package w package spec [] in
  r = (Ret (Some (package, false, failure_detail (v NETWORK_RETRIES))),
       [Run (pip_show package) None;
        install_run package spec; Sleep (base_delay (v 0) * 1);
        install_run package spec; Sleep (base_delay (v 1) * 2);
        install_run package spec]) /\
  install_calls package spec r.2 = NETWORK_RETRIES + 1 /\
  sleeps r.2 = [base_delay (v 0) * 1; base_delay (v 1) * 2] /\
  base_delay (v 0) * 1 <= base_delay (v 1) * 2 /\
  (base_delay (v 0) = base_delay (v 1) -> strictly_increasing (sleeps r.2) = true).
Proof.
  intros Hd Hfail v r.
  assert (Hr : r = (Ret (Some (package, false, failure_detail (v NETWORK_RETRIES))),
       [Run (pip_show package) None;
        install_run package spec; Sleep (base_delay (v 0) * 1);
        install_run package spec; Sleep (base_delay (v 1) * 2);
        install_run package spec])).
  { subst r v. rewrite (install_package_dispatched _ _ _ Hd).
    change (seq 0 (NETWORK_RETRIES + 1)) with [0; 1; NETWORK_RETRIES].
    rewrite retry_loop_failure; count_calls;
      [|discriminate|apply Hfail; unfold NETWORK_RETRIES; lia].
    rewrite retry_loop_failure; count_calls;
      [|discriminate|apply Hfail; unfold NETWORK_RETRIES; lia].
    rewrite retry_loop_last; count_calls;
      [|apply Hfail; unfold NETWORK_RETRIES; lia].
    reflexivity. }
  split; [exact Hr|]. rewrite Hr. cbn [snd].
  split.
  { change (install_calls package spec
              ((((([Run (pip_show package) None]
                   ++ [install_run package spec])
                   ++ [Sleep (base_delay (v 0) * 1)])
                   ++ [install_run package spec])
                   ++ [Sleep (base_delay (v 1) * 2)])
                   ++ [install_run package spec]) = NETWORK_RETRIES + 1).
    count_calls. reflexivity. }
  split; [reflexivity|].
  split.
  { destruct (base_delay_cases (v 0)) as [-> | ->],
      (base_delay_cases (v 1)) as [-> | ->]; lia. }
  intros Heq. cbn. rewrite Heq.
  destruct (base_delay_cases (v 1)) as [-> | ->]; reflexivity.
Qed.

(** Witness of C3: a first attempt that times out, then a network that
    refuses the connection. *)
Lemma C3_failures_exhaust_attempts_witness :
  dispatched w_flaky_network "requests" ">=2.28.0" /\
  (forall n, n < NETWORK_RETRIES + 1 ->
     is_failure (install_verdict w_flaky_network "requests" ">=2.28.0" n) = true) /\
  install_calls "requests" ">=2.28.0"
    (install_package w_flaky_network "requests" ">=2.28.0" []).2 = 3.
Proof.
  assert (Hd : dispatched w_flaky_network "requests" ">=2.28.0").
  { exists None. split; reflexivity. }
  assert (Hf : forall n, n < NETWORK_RETRIES + 1 ->
     is_failure (install_verdict w_flaky_network "requests" ">=2.28.0" n) = true).
  { intros n _. destruct n; reflexivity. }
  split; [exact Hd|]. split; [exact Hf|].
  exact (proj1 (proj2 (C3_failures_exhaust_attempts _ _ _ Hd Hf))).
Defined.

(** Counterexample to C3 as stated: every call fails with a timeout or a
    refused connection, yet the two sleeps are both 10 seconds: they are
    not of the form [baseDelay * k], and they do not increase. *)
Lemma C3_counterexample_equal_delays :
  map (fun n => is_failure (install_verdict w_flaky_network "requests" ">=2.28.0" n))
    [0; 1; 2] = [true; true; true] /\
  sleeps (install_package w_flaky_network "requests" ">=2.28.0" []).2 = [10; 10] /\
  ~ linear_backoff w_flaky_network "requests" ">=2.28.0".
Proof.
  split; [reflexivity|].
  assert (Hs : sleeps (install_package w_flaky_network "requests" ">=2.28.0" []).2
               = [10; 10]) by (vm_compute; reflexivity).
  split; [exact Hs|].
  unfold linear_backoff. cbv zeta. rewrite Hs.
  intros [_ Hinc]. discriminate Hinc.
Qed.

(** C1, as it holds of the script. When the first [pip install] call for a
    package exits nonzero, whatever its standard error, the engine does not
    return: it sleeps 5 seconds and calls the executor again. It makes two
    or three calls, and it reports the package failed only after three calls
    that all failed. *)
Theorem C1_nonzero_exit_is_retried w package spec err :
  dispatched w package spec ->
  install_verdict w package spec 0 = Failed err ->
  let r := install_package w package spec [] in
  (exists rest,
      r.2 = [Run (pip_show package) None; install_run package spec; Sleep 5;
             install_run package spec] ++ rest) /\
  2 <= install_calls package spec r.2 <= NETWORK_RETRIES + 1 /\
  (forall detail, r.1 = Ret (Some (package, false, detail)) ->
     install_calls package spec r.2 = NETWORK_RETRIES + 1 /\
     is_failure (install_verdict w package spec 1) = true /\
     is_failure (install_verdict w package spec 2) = true).
Proof.
  intros Hd H0 r. subst r.
  rewrite (install_package_dispatched _ _ _ Hd).
  change (seq 0 (NETWORK_RETRIES + 1)) with [0; 1; NETWORK_RETRIES].
  rewrite retry_loop_failure; count_calls; rewrite ?H0;
    [|discriminate|reflexivity].
  rewrite retry_loop_cons, attempt_install_spec. cbv zeta. count_calls.
  change (Nat.eqb 1 NETWORK_RETRIES) with false. cbv iota.
  destruct (install_verdict w package spec 1) eqn:H1;
    try (rewrite retry_loop_cons, attempt_install_spec; cbv zeta; count_calls;
         rewrite Nat.eqb_refl;
         destruct (install_verdict w package spec 2) eqn:H2);
    cbn [fst snd];
    (split; [eexists; rewrite <- ?app_assoc; reflexivity|]);
    (split; [count_calls; unfold NETWORK_RETRIES; lia|]);
    intros detail Hr; try discriminate Hr;
    (split; [count_calls; reflexivity|]); split; reflexivity.
Qed.

(** Witness of C1: a package that the index does not have. *)
Lemma C1_nonzero_exit_is_retried_witness :
  dispatched w_no_distribution "nosuchpkg" "" /\
  (exists err, install_verdict w_no_distribution "nosuchpkg" "" 0 = Failed err) /\
  2 <= install_calls "nosuchpkg" ""
         (install_package w_no_distribution "nosuchpkg" "" []).2 <= 3.
Proof.
  assert (Hd : dispatched w_no_distribution "nosuchpkg" "").
  { exists None. split; reflexivity. }
  split; [exact Hd|]. split; [eexists; reflexivity|].
  exact (proj1 (proj2 (C1_nonzero_exit_is_retried _ _ _ _ Hd eq_refl))).
Defined.

(** Counterexample to C1 as stated: the first call fails because no
    distribution matches, which no retry can mend, and three calls are
    made. *)
Lemma C1_counterexample_terminal_failure_retried :
  install_verdict w_no_distribution "nosuchpkg" "" 0 =
    Failed (String.append
              "ERROR: Could not find a version that satisfies the requirement"
              (String PyStr.nl "ERROR: No matching distribution found")) /\
  install_calls "nosuchpkg" ""
    (install_package w_no_distribution "nosuchpkg" "" []).2 = 3 /\
  ~ returns_after_first_failure w_no_distribution "nosuchpkg" "".
Proof.
  split; [reflexivity|].
  assert (Hc : install_calls "nosuchpkg" ""
                 (install_package w_no_distribution "nosuchpkg" "" []).2 = 3)
    by (vm_compute; reflexivity).
  split; [exact Hc|].
  unfold returns_after_first_failure. cbv zeta. rewrite Hc.
  intros [Hone _]. discriminate Hone.
Qed.

(** ** The version check of [install_package] *)

Lemma install_package_check w package spec current_version :
  (get_installed_version w package []).1 = Ret current_version ->
  install_package w package spec [] =
  match already_satisfied current_version spec with
  | Ret true =>
      (Ret (Some (package, true, "Already installed")),
       [Run (pip_show package) None])
  | Ret false =>
      retry_loop w package spec (seq 0 (NETWORK_RETRIES + 1))
        [Run (pip_show package) None]
  | Raise e => (Raise e, [Run (pip_show package) None])
  | Blocks => (Blocks, [Run (pip_show package) None])
  end.
Proof.
  intros Hget.
  pose proof (get_installed_version_trace w package []) as Htr.
  unfold install_package, bind, lift.
  destruct (get_installed_version w package []) as [r tr1].
  simpl in Hget, Htr. subst r tr1.
  destruct (already_satisfied current_version spec) as [[|]|e|]; reflexivity.
Qed.

Lemma is_install_pip_show package : is_install (pip_show package) = false.
Proof. reflexivity. Qed.

(** What [version.parse] raises: [InvalidVersion] with its argument, or
    the [ValueError] of [int]. *)
Lemma parse_raises v e :
  version.parse v = inl e -> e = InvalidVersion v \/ e = ValueError.
Proof.
  unfold version.parse, version.Version_init, version.match_version.
  destruct (PyStr.all_in ".0123456789" v).
  - destruct (mapM PyStr.int (PyStr.split "." v)); [discriminate|].
    destruct (existsb _ _); intros [= <-]; [left | right]; reflexivity.
  - destruct (PyRe.fullmatch _ _) as [m|]; [|intros [= <-]; left; reflexivity].
    destruct (version.Version_of_match m); [discriminate|].
    intros [= <-]. right. reflexivity.
Qed.

(** An installed version or a requirement that [version.parse] does not
    accept makes the version check raise what [version.parse] raises; the
    installed version is parsed first. *)
Lemma already_satisfied_raises cv spec :
  cv <> "" ->
  (exists e, version.parse cv = inl e) \/
  (exists e, version.parse (PyStr.lstrip ">=" spec) = inl e) ->
  exists e,
    already_satisfied (Some cv) spec = Raise e /\
    (version.parse cv = inl e \/
     (exists installed, version.parse cv = inr installed) /\
     version.parse (PyStr.lstrip ">=" spec) = inl e).
Proof.
  intros Hne Hbad. unfold already_satisfied.
  destruct cv as [|a cv']; [contradiction|]. cbn [PyStr.truthy].
  destruct (version.parse (String a cv')) as [e|installed] eqn:Hcv.
  - exists e. split; [reflexivity | left; reflexivity].
  - destruct Hbad as [[e He] | [e He]]; [discriminate He|].
    rewrite He. exists e. split; [reflexivity|].
    right. split; [exists installed; reflexivity | reflexivity].
Qed.

Lemma install_package_raises w package spec cv :
  (get_installed_version w package []).1 = Ret (Some cv) ->
  cv <> "" ->
  (exists e, version.parse cv = inl e) \/
  (exists e, version.parse (PyStr.lstrip ">=" spec) = inl e) ->
  exists e,
    install_package w package spec [] =
      (Raise e, [Run (pip_show package) None]) /\
    (version.parse cv = inl e \/
     (exists installed, version.parse cv = inr installed) /\
     version.parse (PyStr.lstrip ">=" spec) = inl e) /\
    (e = ValueError \/ exists v, e = InvalidVersion v).
Proof.
  intros Hget Hne Hbad.
  destruct (already_satisfied_raises cv spec Hne Hbad) as (e & He & Hwhich).
  exists e. rewrite (install_package_check _ _ _ _ Hget), He.
  split; [reflexivity|]. split; [exact Hwhich|].
  destruct Hwhich as [H | [_ H]]; apply parse_raises in H as [-> | ->];
    try (right; eexists; reflexivity); left; reflexivity.
Qed.

(** C4, which the script does not meet. When the installed version or the
    version of the requirement is not a version that [version.parse]
    accepts, the version check does not answer "not satisfied":
    [version.parse] raises, [InvalidVersion] or the [ValueError] of a
    number of more than 4300 digits, nothing catches it, and
    [install_package] ends with that exception before any installation is
    tried. *)
Theorem C4_unparsable_version_raises w package spec cv :
  (get_installed_version w package []).1 = Ret (Some cv) ->
  cv <> "" ->
  (exists e, version.parse cv = inl e) \/
  (exists e, version.parse (PyStr.lstrip ">=" spec) = inl e) ->
  exists e,
    install_package w package spec [] =
      (Raise e, [Run (pip_show package) None]) /\
    (version.parse cv = inl e \/
     (exists installed, version.parse cv = inr installed) /\
     version.parse (PyStr.lstrip ">=" spec) = inl e).
Proof.
  intros Hget Hne Hbad.
  destruct (install_package_raises w package spec cv Hget Hne Hbad)
    as (e & Hrun & Hwhich & _).
  exists e. split; assumption.
Qed.

Lemma C4_unparsable_version_raises_witness :
  (get_installed_version (w_all_installed "2.2.0") "django" []).1 =
    Ret (Some "2.2.0") /\
  "2.2.0" <> "" /\
  version.parse (PyStr.lstrip ">=" ">=latest") = inl (InvalidVersion "latest") /\
  install_package (w_all_installed "2.2.0") "django" ">=latest" [] =
    (Raise (InvalidVersion "latest"), [Run (pip_show "django") None]).
Proof.
  split; [reflexivity|]. split; [discriminate|]. split; [reflexivity|].
  destruct (C4_unparsable_version_raises (w_all_installed "2.2.0") "django"
              ">=latest" "2.2.0" eq_refl ltac:(discriminate)
              (or_intror (ex_intro _ (InvalidVersion "latest") eq_refl)))
    as (e & Hrun & [Hcv | [_ Hspec]]).
  - discriminate Hcv.
  - injection Hspec as <-. exact Hrun.
Defined.

(** C5, which the script does not meet. For an unconstrained request the
    requirement is the empty string, which [version.parse] rejects: when
    the package is installed, at whatever version, [install_package]
    raises instead of reporting it already installed. The exception is the
    one of the installed version when that is not a version either, and
    [InvalidVersion] for the empty string otherwise. *)
Theorem C5_unconstrained_request_raises w package cv :
  (get_installed_version w package []).1 = Ret (Some cv) ->
  cv <> "" ->
  exists e,
    install_package w package "" [] =
      (Raise e, [Run (pip_show package) None]) /\
    (version.parse cv = inl e \/
     (exists installed, version.parse cv = inr installed) /\
     e = InvalidVersion "").
Proof.
  intros Hget Hne.
  destruct (install_package_raises w package "" cv Hget Hne
              (or_intror (ex_intro _ (InvalidVersion "") eq_refl)))
    as (e & Hrun & [Hcv | [Hcv Hspec]] & _); exists e; (split; [exact Hrun|]).
  - left. exact Hcv.
  - right. split; [exact Hcv|]. injection Hspec as <-. reflexivity.
Qed.

Lemma C5_unconstrained_request_raises_witness :
  (get_installed_version (w_all_installed "2.2.0") "flask" []).1 =
    Ret (Some "2.2.0") /\
  "2.2.0" <> "" /\
  install_package (w_all_installed "2.2.0") "flask" "" [] =
    (Raise (InvalidVersion ""), [Run (pip_show "flask") None]).
Proof.
  split; [reflexivity|]. split; [discriminate|].
  destruct (C5_unconstrained_request_raises (w_all_installed "2.2.0") "flask"
              "2.2.0" eq_refl ltac:(discriminate))
    as (e & Hrun & [Hcv | [_ ->]]).
  - discriminate Hcv.
  - exact Hrun.
Defined.

(** ** Stripping the operator *)

Lemma lstrip_prefix chars p v :
  PyStr.all_in chars p = true ->
  PyStr.lstrip chars (String.append p v) = PyStr.lstrip chars v.
Proof.
  induction p as [|a p IH]; intros Hall; [reflexivity|].
  cbn [PyStr.all_in] in Hall. apply andb_true_iff in Hall as [Ha Hp].
  change (String.append (String a p) v) with (String a (String.append p v)).
  cbn [PyStr.lstrip]. rewrite Ha. exact (IH Hp).
Qed.

(** A string that begins with [>] or [=] is no version. *)
Lemma parse_operator_first a rest :
  PyStr.mem a ">=" = true ->
  version.parse (String a rest) = inl (InvalidVersion (String a rest)).
Proof.
  intros Ha.
  assert (Hcases : a = ">"%char \/ a = "="%char).
  { cbn [PyStr.mem] in Ha.
    destruct (Ascii.eqb_spec a ">"); [left; assumption|].
    destruct (Ascii.eqb_spec a "="); [right; assumption|]. discriminate Ha. }
  destruct Hcases as [-> | ->]; reflexivity.
Qed.

(** Nothing is stripped from a version. *)
Lemma lstrip_version v ver :
  version.parse v = inr ver -> PyStr.lstrip ">=" v = v.
Proof.
  intros Hv. destruct v as [|a rest]; [reflexivity|].
  cbn [PyStr.lstrip]. destruct (PyStr.mem a ">=") eqn:Ha; [|reflexivity].
  rewrite (parse_operator_first a rest Ha) in Hv. discriminate Hv.
Qed.

(** ** Comparison of releases *)

Import cmpkey.

Lemma tight_tail x t : tight (x :: t) -> tight t.
Proof. destruct t; [exact (fun _ => I) | exact (fun H => H)]. Qed.

Lemma tight_snoc t x : x <> 0%N -> tight (t ++ [x]).
Proof.
  intros Hx. induction t as [|y t IH]; [exact Hx|].
  destruct t; exact IH.
Qed.

Lemma dropwhile_zeros l :
  exists k, l = repeat 0%N k ++ dropwhile is_zero l.
Proof.
  induction l as [|x l [k IH]]; [exists 0; reflexivity|].
  cbn [dropwhile]. unfold is_zero at 1.
  destruct (N.eqb_spec x 0) as [-> | Hx].
  - exists (S k). cbn. f_equal. exact IH.
  - exists 0. reflexivity.
Qed.

Lemma dropwhile_head l :
  match dropwhile is_zero l with
  | [] => True
  | x :: _ => x <> 0%N
  end.
Proof.
  induction l as [|x l IH]; [exact I|].
  cbn [dropwhile]. unfold is_zero at 1.
  destruct (N.eqb_spec x 0) as [-> | Hx]; [exact IH | exact Hx].
Qed.

Lemma rev_repeat_zeros (k : nat) : rev (repeat 0%N k) = repeat 0%N k.
Proof.
  induction k as [|k IH]; [reflexivity|].
  cbn [repeat rev]. rewrite IH. symmetry. apply repeat_cons.
Qed.

Lemma trimmed_tight release : tight (trimmed release).
Proof.
  unfold trimmed. pose proof (dropwhile_head (rev release)) as H.
  destruct (dropwhile is_zero (rev release)) as [|x t]; [exact I|].
  cbn [rev]. apply tight_snoc, H.
Qed.

Lemma trimmed_zeros release :
  exists k, release = trimmed release ++ repeat 0%N k.
Proof.
  unfold trimmed. destruct (dropwhile_zeros (rev release)) as [k Hk].
  exists k. rewrite <- (rev_involutive release) at 1.
  rewrite Hk at 1. rewrite rev_app_distr, rev_repeat_zeros. reflexivity.
Qed.

Lemma tuple_cmp_zeros (k : nat) :
  tuple_cmp N.compare (repeat 0%N k) (repeat 0%N k) = Eq.
Proof. induction k as [|k IH]; [reflexivity | exact IH]. Qed.

(** Zeros against a tight release that is not empty, filled up to the same
    length. *)
Lemma tuple_cmp_zeros_tight t i j :
  tight t -> t <> [] -> i = length t + j ->
  tuple_cmp N.compare (repeat 0%N i) (t ++ repeat 0%N j) = Lt.
Proof.
  revert i. induction t as [|y t IH]; intros i Ht Hne Hlen; [contradiction|].
  subst i. cbn [length Nat.add repeat app tuple_cmp].
  destruct (N.compare_spec 0 y) as [Hy | Hy | Hy]; [|reflexivity|lia].
  subst y. apply IH; [exact (tight_tail _ _ Ht)| |reflexivity].
  intros ->. apply Ht. reflexivity.
Qed.

Lemma tuple_cmp_tight_zeros t i j :
  tight t -> t <> [] -> i = length t + j ->
  tuple_cmp N.compare (t ++ repeat 0%N j) (repeat 0%N i) = Gt.
Proof.
  revert i. induction t as [|y t IH]; intros i Ht Hne Hlen; [contradiction|].
  subst i. cbn [length Nat.add repeat app tuple_cmp].
  destruct (N.compare_spec y 0) as [Hy | Hy | Hy]; [|lia|reflexivity].
  subst y. apply IH; [exact (tight_tail _ _ Ht)| |reflexivity].
  intros ->. apply Ht. reflexivity.
Qed.

(** Filling two tight releases up with zeros to a common length does not
    change how they compare. *)
Lemma tuple_cmp_padding ta tb i j :
  tight ta -> tight tb -> length ta + i = length tb + j ->
  tuple_cmp N.compare (ta ++ repeat 0%N i) (tb ++ repeat 0%N j) =
  tuple_cmp N.compare ta tb.
Proof.
  revert tb i j. induction ta as [|x ta IH]; intros tb i j Ha Hb Hlen.
  - destruct tb as [|y tb].
    + cbn in Hlen. subst j. apply tuple_cmp_zeros.
    + change ([] ++ repeat 0%N i) with (repeat 0%N i).
      rewrite (tuple_cmp_zeros_tight (y :: tb) i j Hb);
        [reflexivity | discriminate | exact Hlen].
  - destruct tb as [|y tb].
    + change ([] ++ repeat 0%N j) with (repeat 0%N j).
      rewrite (tuple_cmp_tight_zeros (x :: ta) j i Ha);
        [reflexivity | discriminate | symmetry; exact Hlen].
    + cbn [app tuple_cmp]. cbn [length] in Hlen.
      rewrite (IH tb i j (tight_tail _ _ Ha) (tight_tail _ _ Hb)); [reflexivity|].
      lia.
Qed.

(** Comparing the trimmed releases is comparing the releases filled up
    with zeros. *)
Lemma trimmed_cmp_padded a b :
  tuple_cmp N.compare (trimmed a) (trimmed b) = padded_cmp a b.
Proof.
  unfold padded_cmp, pad.
  destruct (trimmed_zeros a) as [ka Ha], (trimmed_zeros b) as [kb Hb].
  set (n := Nat.max (length a) (length b)).
  rewrite Ha at 2. rewrite Hb at 2.
  rewrite <- !app_assoc, <- !repeat_app.
  symmetry. apply tuple_cmp_padding; try apply trimmed_tight.
  assert (La : length a = length (trimmed a) + ka)
    by (rewrite Ha at 1; rewrite length_app, repeat_length; reflexivity).
  assert (Lb : length b = length (trimmed b) + kb)
    by (rewrite Hb at 1; rewrite length_app, repeat_length; reflexivity).
  lia.
Qed.

(** ** Versions made of numbers and dots *)

Lemma isdigit_mem a : PyStr.isdigit a = true -> PyStr.mem a "0123456789" = true.
Proof.
  destruct a as [[] [] [] [] [] [] [] []]; intros H;
    try discriminate H; reflexivity.
Qed.

Lemma digit_or_dot_not_operator a :
  PyStr.mem a ".0123456789" = true -> PyStr.mem a ">=" = false.
Proof.
  destruct a as [[] [] [] [] [] [] [] []]; intros H;
    try discriminate H; reflexivity.
Qed.

Lemma int_acc_digits s acc n :
  PyStr.int_acc acc s = Some n -> PyStr.all_in "0123456789" s = true.
Proof.
  revert acc. induction s as [|a s IH]; intros acc H; [reflexivity|].
  cbn [PyStr.int_acc] in H. cbn [PyStr.all_in].
  destruct (PyStr.isdigit a) eqn:Ha; [|discriminate H].
  rewrite (isdigit_mem a Ha). exact (IH _ H).
Qed.

Lemma int_digits s n :
  PyStr.int s = Some n -> PyStr.all_in "0123456789" s = true.
Proof.
  destruct s; [discriminate|]. unfold PyStr.int.
  destruct (Nat.ltb _ _); [discriminate|]. apply int_acc_digits.
Qed.

Lemma split_digits_dots s :
  Forall (fun x => PyStr.all_in "0123456789" x = true) (PyStr.split "." s) ->
  PyStr.all_in ".0123456789" s = true.
Proof.
  induction s as [|a s IH]; intros H; [reflexivity|].
  cbn [PyStr.split] in H. cbn [PyStr.all_in].
  destruct (Ascii.eqb_spec a ".") as [-> | Hne].
  - apply Forall_cons in H as [_ H]. rewrite (IH H). reflexivity.
  - destruct (PyStr.split "." s) as [|h t] eqn:Hs.
    + apply Forall_cons in H as [H _]. cbn [PyStr.all_in] in H.
      apply andb_true_iff in H as [Ha _].
      change (PyStr.mem a ".0123456789")
        with (if Ascii.eqb a "." then true else PyStr.mem a "0123456789").
      rewrite Ha, IH by constructor.
      destruct (Ascii.eqb a "."); reflexivity.
    + apply Forall_cons in H as [H Ht]. cbn [PyStr.all_in] in H.
      apply andb_true_iff in H as [Ha Hh].
      change (PyStr.mem a ".0123456789")
        with (if Ascii.eqb a "." then true else PyStr.mem a "0123456789").
      rewrite Ha, IH by (constructor; assumption).
      destruct (Ascii.eqb a "."); reflexivity.
Qed.

Lemma mapM_int_digits l r :
  mapM PyStr.int l = Some r ->
  Forall (fun x => PyStr.all_in "0123456789" x = true) l.
Proof.
  intros H. apply mapM_Some in H.
  induction H as [|x n l r Hx _ IH]; constructor; [|exact IH].
  exact (int_digits x n Hx).
Qed.

(** A string of numbers separated by dots is parsed into the release made
    of these numbers, without any other part. *)
Lemma parse_dotted_numbers s r :
  mapM PyStr.int (PyStr.split "." s) = Some r ->
  version.parse s = inr (version.mkVersion 0 r None None None None).
Proof.
  intros H. unfold version.parse, version.Version_init.
  rewrite (split_digits_dots s (mapM_int_digits _ _ H)), H. reflexivity.
Qed.

Lemma dotted_numbers_not_empty s r :
  mapM PyStr.int (PyStr.split "." s) = Some r -> s <> "".
Proof. intros H ->. discriminate H. Qed.

Lemma lstrip_dotted_numbers s r :
  mapM PyStr.int (PyStr.split "." s) = Some r -> PyStr.lstrip ">=" s = s.
Proof.
  intros H. pose proof (split_digits_dots s (mapM_int_digits _ _ H)) as Hall.
  destruct s as [|a s]; [reflexivity|].
  cbn [PyStr.all_in] in Hall. apply andb_true_iff in Hall as [Ha _].
  cbn [PyStr.lstrip]. rewrite (digit_or_dot_not_operator a Ha). reflexivity.
Qed.

Lemma ge_releases r1 r2 :
  ge (version.mkVersion 0 r1 None None None None)
     (version.mkVersion 0 r2 None None None None) = padded_ge r1 r2.
Proof.
  unfold ge, key_cmp, _cmpkey, padded_ge.
  cbn [k_epoch k_release k_suffix k_local version.epoch version.release
       version.pre version.post version.dev version.local].
  rewrite trimmed_cmp_padded. destruct (padded_cmp r1 r2); reflexivity.
Qed.

(** On numbers separated by dots the comparison that the specification
    describes is the comparison of the numbers. *)
Lemma Forall2_int_pad l r n :
  Forall2 (fun x y => PyStr.int x = Some y) l r ->
  Forall2 (fun x y => PyStr.int x = Some y) (pad n "0" l) (pad n 0%N r).
Proof.
  intros H. unfold pad. rewrite (Forall2_length _ _ _ H).
  apply Forall2_app; [exact H|].
  induction (n - length r) as [|k IH]; constructor; [reflexivity | exact IH].
Qed.

Lemma tuple_cmp_segments la ra :
  Forall2 (fun x y => PyStr.int x = Some y) la ra ->
  forall lb rb,
    Forall2 (fun x y => PyStr.int x = Some y) lb rb ->
    tuple_cmp segment_cmp la lb = tuple_cmp N.compare ra rb.
Proof.
  induction 1 as [|x a la ra Hx _ IH]; intros lb rb Hb.
  - destruct Hb; reflexivity.
  - destruct Hb as [|y b lb rb Hy Hb]; [reflexivity|].
    cbn [tuple_cmp]. unfold segment_cmp at 1. rewrite Hx, Hy.
    rewrite (IH lb rb Hb). reflexivity.
Qed.

Lemma spec_version_ge_dotted s1 s2 r1 r2 :
  mapM PyStr.int (PyStr.split "." s1) = Some r1 ->
  mapM PyStr.int (PyStr.split "." s2) = Some r2 ->
  spec_version_ge s1 s2 = padded_ge r1 r2.
Proof.
  intros H1 H2. apply mapM_Some in H1, H2.
  unfold spec_version_ge, padded_ge, padded_cmp. cbv zeta.
  rewrite (Forall2_length _ _ _ H1), (Forall2_length _ _ _ H2).
  rewrite (tuple_cmp_segments _ _ (Forall2_int_pad _ _ _ H1)
             _ _ (Forall2_int_pad _ _ _ H2)).
  reflexivity.
Qed.

Lemma spec_version_eq_dotted s1 s2 r1 r2 :
  mapM PyStr.int (PyStr.split "." s1) = Some r1 ->
  mapM PyStr.int (PyStr.split "." s2) = Some r2 ->
  spec_version_eq s1 s2 = true -> padded_ge r1 r2 = true.
Proof.
  intros H1 H2. apply mapM_Some in H1, H2.
  unfold spec_version_eq, padded_ge, padded_cmp. cbv zeta.
  rewrite (Forall2_length _ _ _ H1), (Forall2_length _ _ _ H2).
  rewrite (tuple_cmp_segments _ _ (Forall2_int_pad _ _ _ H1)
             _ _ (Forall2_int_pad _ _ _ H2)).
  destruct (tuple_cmp N.compare _ _); [reflexivity | discriminate | discriminate].
Qed.

(** C8, as it holds of the script. Between an installed version and a
    required version that are both numbers separated by dots, the check
    compares the numbers from the left, the shorter sequence filled up with
    zeros; on these versions it gives what the comparison of the
    specification gives. *)
Theorem C8_dotted_numeric_comparison s1 s2 r1 r2 :
  mapM PyStr.int (PyStr.split "." s1) = Some r1 ->
  mapM PyStr.int (PyStr.split "." s2) = Some r2 ->
  already_satisfied (Some s1) (String.append ">=" s2) = Ret (padded_ge r1 r2) /\
  spec_version_ge s1 s2 = padded_ge r1 r2.
Proof.
  intros H1 H2. split; [|exact (spec_version_ge_dotted s1 s2 r1 r2 H1 H2)].
  unfold already_satisfied.
  rewrite (lstrip_prefix ">=" ">=" s2 eq_refl), (lstrip_dotted_numbers s2 r2 H2).
  rewrite (parse_dotted_numbers s1 r1 H1), (parse_dotted_numbers s2 r2 H2).
  rewrite ge_releases.
  pose proof (dotted_numbers_not_empty s1 r1 H1) as Hne.
  destruct s1; [contradiction|]. reflexivity.
Qed.

Lemma C8_dotted_numeric_comparison_witness :
  mapM PyStr.int (PyStr.split "." "2.28") = Some [2; 28]%N /\
  mapM PyStr.int (PyStr.split "." "2.28.0.1") = Some [2; 28; 0; 1]%N /\
  already_satisfied (Some "2.28") ">=2.28.0.1" = Ret false /\
  spec_version_ge "2.28" "2.28.0.1" = false.
Proof.
  split; [reflexivity|]. split; [reflexivity|].
  exact (C8_dotted_numeric_comparison "2.28" "2.28.0.1" [2; 28]%N
           [2; 28; 0; 1]%N eq_refl eq_refl).
Defined.

(** Counterexample to C8 as stated: segments that are not numbers are not
    compared as strings. A post-release is above a release candidate
    although "post1" is below "rc1" as a string, and a segment that PEP 440
    does not know makes the check raise. *)
Lemma C8_counterexample_no_lexicographic_fallback :
  already_satisfied (Some "1.0.post1") ">=1.0.rc1" = Ret true /\
  spec_version_ge "1.0.post1" "1.0.rc1" = false /\
  already_satisfied (Some "1.0.y") ">=1.0.x" = Raise (InvalidVersion "1.0.y") /\
  spec_version_ge "1.0.y" "1.0.x" = true.
Proof. repeat split; vm_compute; reflexivity. Qed.

(** ** Satisfied requests *)

(** The version check on an installed version that is numbers and dots,
    against a requirement that is numbers and dots after its operator. *)
Lemma install_package_dotted w package p cv v r1 r2 :
  PyStr.all_in ">=" p = true ->
  (get_installed_version w package []).1 = Ret (Some cv) ->
  mapM PyStr.int (PyStr.split "." cv) = Some r1 ->
  mapM PyStr.int (PyStr.split "." v) = Some r2 ->
  padded_ge r1 r2 = true ->
  install_package w package (String.append p v) [] =
    (Ret (Some (package, true, "Already installed")),
     [Run (pip_show package) None]).
Proof.
  intros Hp Hget H1 H2 Hge.
  rewrite (install_package_check _ _ _ _ Hget).
  unfold already_satisfied.
  rewrite (lstrip_prefix ">=" p v Hp), (lstrip_dotted_numbers v r2 H2).
  rewrite (parse_dotted_numbers cv r1 H1), (parse_dotted_numbers v r2 H2).
  rewrite ge_releases, Hge.
  pose proof (dotted_numbers_not_empty cv r1 H1) as Hne.
  destruct cv; [contradiction|]. reflexivity.
Qed.

(** C6, which the script does not meet. A package whose installed version
    satisfies a lower bound or an exact constraint, the versions being
    numbers separated by dots, is reported as already installed, and the
    only command run for it is the version query. But an installed package
    satisfies the constraint "any" as well, and for that constraint, the
    empty string, nothing is recorded: the version check raises after the
    version query. No installation is started in either case. *)
Theorem C6_satisfied_package_is_not_always_recorded w package cv :
  (get_installed_version w package []).1 = Ret (Some cv) ->
  cv <> "" ->
  (forall c v r1 r2,
      c = AtLeast v \/ c = Exactly v ->
      mapM PyStr.int (PyStr.split "." cv) = Some r1 ->
      mapM PyStr.int (PyStr.split "." v) = Some r2 ->
      spec_satisfies (Some cv) c = true ->
      install_package w package (constraint_string c) [] =
        (Ret (Some (package, true, "Already installed")),
         [Run (pip_show package) None])) /\
  spec_satisfies (Some cv) Any = true /\
  (exists e,
      install_package w package (constraint_string Any) [] =
        (Raise e, [Run (pip_show package) None])) /\
  install_calls package (constraint_string Any)
    (install_package w package (constraint_string Any) []).2 = 0.
Proof.
  intros Hget Hne. split; [|split; [reflexivity|]].
  - intros c v r1 r2 [-> | ->] H1 H2 Hsat; cbn [spec_satisfies] in Hsat;
      cbn [constraint_string].
    + rewrite (spec_version_ge_dotted cv v r1 r2 H1 H2) in Hsat.
      exact (install_package_dotted w package ">=" cv v r1 r2 eq_refl
               Hget H1 H2 Hsat).
    + apply (spec_version_eq_dotted cv v r1 r2 H1 H2) in Hsat.
      exact (install_package_dotted w package "==" cv v r1 r2 eq_refl
               Hget H1 H2 Hsat).
  - destruct (install_package_raises w package "" cv Hget Hne
                (or_intror (ex_intro _ (InvalidVersion "") eq_refl)))
      as (e & Hrun & _).
    cbn [constraint_string]. rewrite Hrun. split; [exists e; reflexivity|].
    apply install_calls_after_show.
Qed.

Lemma C6_satisfied_package_is_not_always_recorded_witness :
  (get_installed_version (w_all_installed "2.2.0") "flask" []).1 =
    Ret (Some "2.2.0") /\
  spec_satisfies (Some "2.2.0") (AtLeast "2.0") = true /\
  install_package (w_all_installed "2.2.0") "flask" ">=2.0" [] =
    (Ret (Some ("flask", true, "Already installed")),
     [Run (pip_show "flask") None]) /\
  spec_satisfies (Some "2.2.0") (Exactly "2.2") = true /\
  install_package (w_all_installed "2.2.0") "flask" "==2.2" [] =
    (Ret (Some ("flask", true, "Already installed")),
     [Run (pip_show "flask") None]) /\
  spec_satisfies (Some "2.2.0") Any = true /\
  install_package (w_all_installed "2.2.0") "flask" "" [] =
    (Raise (InvalidVersion ""), [Run (pip_show "flask") None]).
Proof.
  destruct (C6_satisfied_package_is_not_always_recorded
              (w_all_installed "2.2.0") "flask" "2.2.0" eq_refl
              ltac:(discriminate)) as (Hrec & Hany & _ & _).
  split; [reflexivity|]. split; [reflexivity|].
  split; [exact (Hrec (AtLeast "2.0") "2.0" [2; 2; 0]%N [2; 0]%N
                   (or_introl eq_refl) eq_refl eq_refl eq_refl)|].
  split; [reflexivity|].
  split; [exact (Hrec (Exactly "2.2") "2.2" [2; 2; 0]%N [2; 2]%N
                   (or_intror eq_refl) eq_refl eq_refl eq_refl)|].
  split; [exact Hany | reflexivity].
Defined.

(** ** The operator of a requirement *)

(** The characters [>] and [=] are stripped as a set: all of a prefix
    made of them goes, and nothing after it. *)
Lemma lstrip_operators p v :
  PyStr.all_in ">=" p = true ->
  operator_ahead v = false ->
  PyStr.lstrip ">=" (String.append p v) = v.
Proof.
  intros Hp Hv. rewrite (lstrip_prefix ">=" p v Hp).
  destruct v as [|a v']; [reflexivity|].
  cbn [operator_ahead] in Hv. cbn [PyStr.lstrip]. rewrite Hv. reflexivity.
Qed.

(** Every requirement is such a prefix followed by a text that does not
    begin with [>] or [=]. *)
Lemma operator_prefix spec :
  exists p v,
    spec = String.append p v /\
    PyStr.all_in ">=" p = true /\ operator_ahead v = false.
Proof.
  induction spec as [|a spec (p & v & Hs & Hp & Hv)].
  - exists EmptyString, EmptyString. repeat split.
  - destruct (PyStr.mem a ">=") eqn:Ha.
    + exists (String a p), v. rewrite Hs. split; [reflexivity|].
      cbn [PyStr.all_in]. rewrite Ha, Hp. split; [reflexivity | exact Hv].
    + exists EmptyString, (String a spec). split; [reflexivity|].
      split; [reflexivity | exact Ha].
Qed.

(** C10. The version check drops every leading [>] and [=] of the
    requirement, as a set of characters and nothing else, and then compares
    with [>=] whatever the operator was. After any prefix [p] made of these
    two characters: the check gives what it gives after [>=]; what is
    parsed is the text [v] after the prefix, whole; for versions that are
    valid the check is [installed >= required]; and for versions that are
    numbers separated by dots it is the comparison of the numbers, true
    when the installed version is above the required one, which [==] would
    not accept, and false when it is below. *)
Theorem C10_operator_characters_are_stripped p v :
  PyStr.all_in ">=" p = true ->
  (forall current_version,
      already_satisfied current_version (String.append p v) =
      already_satisfied current_version (String.append ">=" v)) /\
  (operator_ahead v = false ->
   PyStr.lstrip ">=" (String.append p v) = v) /\
  (forall cv installed required,
      version.parse cv = inr installed ->
      version.parse v = inr required ->
      already_satisfied (Some cv) (String.append p v) =
        Ret (cmpkey.ge installed required)) /\
  (forall cv r1 r2,
      mapM PyStr.int (PyStr.split "." cv) = Some r1 ->
      mapM PyStr.int (PyStr.split "." v) = Some r2 ->
      already_satisfied (Some cv) (String.append p v) = Ret (padded_ge r1 r2)).
Proof.
  intros Hp.
  assert (Hstrip : PyStr.lstrip ">=" (String.append p v) = PyStr.lstrip ">=" v)
    by exact (lstrip_prefix ">=" p v Hp).
  split; [|split; [|split]].
  - intros current_version. unfold already_satisfied. rewrite Hstrip.
    rewrite (lstrip_prefix ">=" ">=" v eq_refl). reflexivity.
  - exact (lstrip_operators p v Hp).
  - intros cv installed required Hcv Hv.
    unfold already_satisfied.
    rewrite Hstrip, (lstrip_version v required Hv), Hcv, Hv.
    destruct cv; [discriminate Hcv|]. reflexivity.
  - intros cv r1 r2 H1 H2. unfold already_satisfied.
    rewrite Hstrip, (lstrip_dotted_numbers v r2 H2).
    rewrite (parse_dotted_numbers cv r1 H1), (parse_dotted_numbers v r2 H2).
    rewrite ge_releases.
    pose proof (dotted_numbers_not_empty cv r1 H1) as Hne.
    destruct cv; [contradiction|]. reflexivity.
Qed.

Lemma C10_operator_characters_are_stripped_witness :
  PyStr.all_in ">=" "==" = true /\
  PyStr.all_in ">=" "=>>==" = true /\
  PyStr.lstrip ">=" "=>>==1.2.0" = "1.2.0" /\
  already_satisfied (Some "1.3.0") "==1.2.0" = Ret true /\
  already_satisfied (Some "1.2") "==1.2.0" = Ret true /\
  already_satisfied (Some "1.1.9") "=>>==1.2.0" = Ret false.
Proof.
  destruct (C10_operator_characters_are_stripped "==" "1.2.0" eq_refl)
    as (_ & _ & _ & Heq).
  destruct (C10_operator_characters_are_stripped "=>>==" "1.2.0" eq_refl)
    as (_ & Hstrip & _ & Hset).
  split; [reflexivity|]. split; [reflexivity|].
  split; [exact (Hstrip eq_refl)|].
  split; [exact (Heq "1.3.0" [1; 3; 0]%N [1; 2; 0]%N eq_refl eq_refl)|].
  split; [exact (Heq "1.2" [1; 2]%N [1; 2; 0]%N eq_refl eq_refl)|].
  exact (Hset "1.1.9" [1; 1; 9]%N [1; 2; 0]%N eq_refl eq_refl).
Defined.

(** ** The pattern of versions on numbers and dots *)

Section Pattern.
Import PyStr PyRe version.

Lemma append_cons a s1 s2 :
  String.append (String a s1) s2 = String a (String.append s1 s2).
Proof. reflexivity. Qed.

Lemma append_empty s : String.append EmptyString s = s.
Proof. reflexivity. Qed.

Lemma length_append s1 s2 :
  String.length (String.append s1 s2) = String.length s1 + String.length s2.
Proof.
  induction s1 as [|a s1 IH]; [reflexivity|].
  rewrite append_cons. cbn [String.length]. rewrite IH. reflexivity.
Qed.

(** [r*] over a class of characters takes the whole run of them when the
    rest of the pattern matches after it. *)
Lemma star_class_greedy p k ds rest g x n :
  (forall a, In a (list_ascii_of_string ds) -> p a = true) ->
  match rest with EmptyString => True | String a _ => p a = false end ->
  String.length (String.append ds rest) <= n ->
  k rest g = Some x ->
  star (rmatch (Cls p)) k n (String.append ds rest) g = Some x.
Proof.
  revert n. induction ds as [|a ds IH]; intros n Hds Hrest Hn Hk.
  - rewrite append_empty. destruct n as [|n]; [exact Hk|].
    cbn [star rmatch]. destruct rest as [|b rest]; [exact Hk|].
    rewrite Hrest. exact Hk.
  - rewrite append_cons in Hn |- *. cbn [String.length] in Hn.
    destruct n as [|n]; [lia|].
    cbn [star rmatch].
    rewrite (Hds a) by (left; reflexivity).
    cbn [String.length]. rewrite (proj2 (Nat.ltb_lt _ _)) by lia.
    rewrite IH; [reflexivity| |exact Hrest| |exact Hk].
    + intros b Hb. apply Hds. right. exact Hb.
    + lia.
Qed.

Lemma all_digits_In ds :
  all_digits ds = true ->
  forall a, In a (list_ascii_of_string ds) -> isdigit a = true.
Proof.
  induction ds as [|b ds IH]; intros H a Ha; [contradiction|].
  cbn [all_digits] in H. apply andb_true_iff in H as [Hb Hds].
  destruct Ha as [<- | Ha]; [exact Hb | exact (IH Hds a Ha)].
Qed.

(** [[0-9]+] takes a whole number. *)
Lemma digits_greedy k ds rest g x :
  ds <> EmptyString -> all_digits ds = true -> no_digit_ahead rest = true ->
  k rest g = Some x ->
  rmatch digits (String.append ds rest) g k = Some x.
Proof.
  intros Hne Hds Hrest Hk. destruct ds as [|a ds]; [contradiction|].
  cbn [all_digits] in Hds. apply andb_true_iff in Hds as [Ha Hds].
  unfold digits, Plus. rewrite append_cons. cbn [rmatch]. rewrite Ha.
  apply star_class_greedy; [exact (all_digits_In ds Hds)| |lia|exact Hk].
  destruct rest as [|b rest]; [exact I|].
  cbn [no_digit_ahead] in Hrest. apply negb_true_iff in Hrest. exact Hrest.
Qed.

(** [(?:\.[0-9]+)*] takes all the numbers that follow. *)
Lemma dotted_greedy k segs g x n :
  Forall (fun seg => seg <> EmptyString /\ all_digits seg = true) segs ->
  String.length (dotted segs) <= n ->
  k EmptyString g = Some x ->
  star (rmatch (Seq (Lit ".") digits)) k n (dotted segs) g = Some x.
Proof.
  revert n. induction segs as [|seg segs IH]; intros n Hsegs Hn Hk.
  - cbn [dotted]. destruct n; [exact Hk|]. cbn. exact Hk.
  - apply Forall_cons in Hsegs as [[Hne Hseg] Hsegs].
    cbn [dotted String.length] in Hn. rewrite length_append in Hn.
    destruct n as [|n]; [lia|].
    cbn [dotted star rmatch strip_prefix]. rewrite Ascii.eqb_refl.
    rewrite (digits_greedy _ seg (dotted segs) g x Hne Hseg); [reflexivity| |].
    + destruct segs; reflexivity.
    + cbn [String.length]. rewrite length_append.
      rewrite (proj2 (Nat.ltb_lt _ _)) by lia.
      apply IH; [exact Hsegs | lia | exact Hk].
Qed.

Lemma suffix_of_refl s : suffix_of s s.
Proof. exists EmptyString. reflexivity. Qed.

Lemma append_assoc s1 s2 s3 :
  String.append (String.append s1 s2) s3 = String.append s1 (String.append s2 s3).
Proof.
  induction s1 as [|a s1 IH]; [reflexivity|].
  rewrite !append_cons, IH. reflexivity.
Qed.

Lemma suffix_of_trans s1 s2 s3 : suffix_of s1 s2 -> suffix_of s2 s3 -> suffix_of s1 s3.
Proof.
  intros [p ->] [q ->]. exists (String.append q p). rewrite append_assoc. reflexivity.
Qed.

Lemma suffix_of_tail a s : suffix_of s (String a s).
Proof. exists (String a EmptyString). reflexivity. Qed.

Lemma strip_prefix_suffix l s s' : strip_prefix l s = Some s' -> suffix_of s' s.
Proof.
  revert s. induction l as [|a l IH]; intros s H.
  - injection H as ->. apply suffix_of_refl.
  - destruct s as [|b s]; [discriminate H|]. cbn [strip_prefix] in H.
    destruct (Ascii.eqb a b); [|discriminate H].
    exact (suffix_of_trans _ _ _ (IH s H) (suffix_of_tail b s)).
Qed.

Lemma star_fails step k n :
  (forall s g k', (forall s1 g1, suffix_of s1 s -> k' s1 g1 = None) ->
                  step s g k' = None) ->
  forall s g, (forall s1 g1, suffix_of s1 s -> k s1 g1 = None) ->
              star step k n s g = None.
Proof.
  intros Hstep. induction n as [|n IH]; intros s g Hk; cbn [star].
  - apply Hk, suffix_of_refl.
  - rewrite Hstep; [apply Hk, suffix_of_refl|].
    intros s1 g1 Hs1. destruct (Nat.ltb _ _); [|reflexivity].
    apply IH. intros s2 g2 Hs2. apply Hk. exact (suffix_of_trans _ _ _ Hs2 Hs1).
Qed.

(** A pattern cannot match when what follows it matches at no later
    position of the string. *)
Lemma rmatch_fails r s g k :
  (forall s1 g1, suffix_of s1 s -> k s1 g1 = None) -> rmatch r s g k = None.
Proof.
  revert s g k.
  induction r as [p|l|r1 IH1 r2 IH2|r1 IH1 r2 IH2|r1 IH1|r1 IH1|name r1 IH1];
    intros s g k Hk; cbn [rmatch].
  - destruct s as [|a s]; [reflexivity|]. destruct (p a); [|reflexivity].
    apply Hk, suffix_of_tail.
  - destruct (strip_prefix l s) as [s'|] eqn:Hl; [|reflexivity].
    apply Hk. exact (strip_prefix_suffix l s s' Hl).
  - apply IH1. intros s1 g1 Hs1. apply IH2. intros s2 g2 Hs2.
    apply Hk. exact (suffix_of_trans _ _ _ Hs2 Hs1).
  - rewrite (IH1 s g k Hk). exact (IH2 s g k Hk).
  - rewrite (IH1 s g k Hk). apply Hk, suffix_of_refl.
  - apply star_fails; [|exact Hk]. intros s' g' k' Hk'. exact (IH1 s' g' k' Hk').
  - apply IH1. intros s1 g1 Hs1. apply Hk. exact Hs1.
Qed.

(** *** The pattern on numbers separated by dots *)

Lemma isdigit_facts a :
  isdigit a = true ->
  isspace a = false /\ Ascii.eqb "v" a = false /\ lower_char a = a /\
  mem a ".0123456789" = true.
Proof.
  destruct a as [[] [] [] [] [] [] [] []]; intros H;
    try discriminate H; repeat split; reflexivity.
Qed.

Lemma digit_or_dot_facts a :
  mem a ".0123456789" = true ->
  Ascii.eqb "!" a = false /\ lower_char a = a.
Proof.
  destruct a as [[] [] [] [] [] [] [] []]; intros H;
    try discriminate H; split; reflexivity.
Qed.

Lemma int_acc_all_digits s acc n : int_acc acc s = Some n -> all_digits s = true.
Proof.
  revert acc. induction s as [|a s IH]; intros acc H; [reflexivity|].
  cbn [int_acc] in H. cbn [all_digits].
  destruct (isdigit a); [|discriminate H]. exact (IH _ H).
Qed.

Lemma int_number s n : int s = Some n -> s <> EmptyString /\ all_digits s = true.
Proof.
  destruct s as [|a s]; [discriminate|]. unfold int.
  destruct (Nat.ltb _ _); [discriminate|]. intros H.
  split; [discriminate | exact (int_acc_all_digits _ _ _ H)].
Qed.

Lemma mapM_int_numbers l r :
  mapM int l = Some r ->
  Forall (fun seg => seg <> EmptyString /\ all_digits seg = true) l.
Proof.
  intros H. apply mapM_Some in H.
  induction H as [|x n l r Hx _ IH]; constructor;
    [exact (int_number x n Hx) | exact IH].
Qed.

(** A string is its first segment followed by the dotted others. *)
Lemma split_dotted s :
  exists seg segs,
    split "." s = seg :: segs /\ s = String.append seg (dotted segs).
Proof.
  induction s as [|a s (seg & segs & Hsplit & Hs)].
  - exists EmptyString, []. split; reflexivity.
  - cbn [split]. rewrite Hsplit.
    destruct (Ascii.eqb_spec a ".") as [-> | Hne].
    + exists EmptyString, (seg :: segs). split; [reflexivity|].
      rewrite append_empty. cbn [dotted]. rewrite <- Hs. reflexivity.
    + exists (String a seg), segs. split; [reflexivity|].
      rewrite append_cons, <- Hs. reflexivity.
Qed.

Lemma all_in_suffix chars s1 s :
  suffix_of s1 s -> all_in chars s = true -> all_in chars s1 = true.
Proof.
  intros [p ->]. induction p as [|a p IH]; [exact (fun H => H)|].
  rewrite append_cons. cbn [all_in]. intros H.
  apply andb_true_iff in H as [_ H]. exact (IH H).
Qed.

Lemma lower_digits_dots s : all_in ".0123456789" s = true -> lower s = s.
Proof.
  induction s as [|a s IH]; [reflexivity|]. cbn [all_in lower]. intros H.
  apply andb_true_iff in H as [Ha Hs].
  rewrite (proj2 (digit_or_dot_facts a Ha)), (IH Hs). reflexivity.
Qed.

Lemma substring_all s : String.substring 0 (String.length s) s = s.
Proof.
  induction s as [|a s IH]; [reflexivity|].
  cbn [String.length String.substring]. rewrite IH. reflexivity.
Qed.

Lemma no_digit_ahead_dotted segs : no_digit_ahead (dotted segs) = true.
Proof. destruct segs; reflexivity. Qed.

Lemma VERSION_PATTERN_parts :
  VERSION_PATTERN =
  Seq ws (Seq (Opt (Lit "v"))
            (Seq (Opt epoch_group) (Seq release_group after_release))).
Proof. reflexivity. Qed.

Lemma rmatch_seq r1 r2 s g k :
  rmatch (Seq r1 r2) s g k = rmatch r1 s g (fun s1 g1 => rmatch r2 s1 g1 k).
Proof. reflexivity. Qed.

Lemma rmatch_opt_none r s g k :
  rmatch r s g k = None -> rmatch (Opt r) s g k = k s g.
Proof. intros H. cbn [rmatch]. rewrite H. reflexivity. Qed.

(** A part of the pattern that matches nothing here can be skipped. *)
Lemma rmatch_seq_skip r1 r2 s g k :
  (forall k', rmatch r1 s g k' = k' s g) ->
  rmatch (Seq r1 r2) s g k = rmatch r2 s g k.
Proof. intros H. rewrite rmatch_seq, H. reflexivity. Qed.

Lemma ws_skip s d rest g k :
  s = String d rest -> isspace d = false -> rmatch ws s g k = k s g.
Proof.
  intros -> Hd. unfold ws. cbn [rmatch String.length star]. rewrite Hd.
  reflexivity.
Qed.

Lemma v_skip s d rest g k :
  s = String d rest -> Ascii.eqb "v" d = false ->
  rmatch (Opt (Lit "v")) s g k = k s g.
Proof.
  intros -> Hd. apply rmatch_opt_none. cbn [rmatch strip_prefix].
  rewrite Hd. reflexivity.
Qed.

(** Without an exclamation mark in the string there is no epoch. *)
Lemma epoch_skip s g k :
  all_in ".0123456789" s = true ->
  rmatch (Opt epoch_group) s g k = k s g.
Proof.
  intros Hall. apply rmatch_opt_none. unfold epoch_group.
  rewrite rmatch_seq. apply rmatch_fails.
  intros s1 g1 Hs1. pose proof (all_in_suffix _ _ _ Hs1 Hall) as H1.
  cbn [rmatch]. destruct s1 as [|a s1]; [reflexivity|].
  cbn [all_in] in H1. apply andb_true_iff in H1 as [Ha _].
  cbn [strip_prefix]. rewrite (proj1 (digit_or_dot_facts a Ha)). reflexivity.
Qed.

(** The release takes all the numbers of the string. *)
Lemma release_greedy seg segs k g x :
  seg <> EmptyString -> all_digits seg = true ->
  Forall (fun seg => seg <> EmptyString /\ all_digits seg = true) segs ->
  k EmptyString (("release", String.append seg (dotted segs)) :: g) = Some x ->
  rmatch release_group (String.append seg (dotted segs)) g k = Some x.
Proof.
  intros Hne Hseg Hsegs Hk. unfold release_group. cbn [rmatch].
  apply digits_greedy;
    [exact Hne | exact Hseg | apply no_digit_ahead_dotted |].
  apply dotted_greedy; [exact Hsegs | lia |].
  unfold consumed. cbn [String.length]. rewrite Nat.sub_0_r, substring_all.
  exact Hk.
Qed.

(** On numbers separated by dots the pattern matches, and the release is
    the only group that takes part. *)
Lemma pattern_on_dotted_numbers s r :
  mapM int (split "." s) = Some r ->
  fullmatch VERSION_PATTERN s = Some [("release", s)].
Proof.
  intros Hr.
  pose proof (split_digits_dots s (mapM_int_digits _ _ Hr)) as Hall.
  destruct (split_dotted s) as (seg & segs & Hsplit & Hs).
  rewrite Hsplit in Hr.
  pose proof (mapM_int_numbers _ _ Hr) as Hsegs.
  apply Forall_cons in Hsegs as [[Hne Hseg] Hsegs].
  destruct seg as [|d seg]; [contradiction|].
  pose proof Hseg as Hd. cbn [all_digits] in Hd.
  apply andb_true_iff in Hd as [Hd _].
  destruct (isdigit_facts d Hd) as (Hspace & Hv & _ & _).
  rewrite append_cons in Hs.
  unfold fullmatch. rewrite VERSION_PATTERN_parts.
  rewrite rmatch_seq_skip by (intros k'; exact (ws_skip s d _ [] k' Hs Hspace)).
  rewrite rmatch_seq_skip by (intros k'; exact (v_skip s d _ [] k' Hs Hv)).
  rewrite rmatch_seq_skip by (intros k'; exact (epoch_skip s [] k' Hall)).
  rewrite rmatch_seq. rewrite <- append_cons in Hs. rewrite Hs at 1.
  apply release_greedy; [discriminate | exact Hseg | exact Hsegs |].
  rewrite <- Hs. vm_compute. reflexivity.
Qed.

(** On every string that the shortcut of the constructor accepts, the
    pattern gives the same version. *)
Lemma shortcut_agrees_with_pattern s r :
  mapM int (split "." s) = Some r ->
  match_version s = inr (mkVersion 0 r None None None None) /\
  Version_init s = inr (mkVersion 0 r None None None None).
Proof.
  intros Hr. split; [|exact (parse_dotted_numbers s r Hr)].
  pose proof (split_digits_dots s (mapM_int_digits _ _ Hr)) as Hall.
  unfold match_version.
  rewrite (lower_digits_dots s Hall), (pattern_on_dotted_numbers s r Hr).
  unfold Version_of_match.
  change (default "" (group "release" [("release", s)])) with s.
  rewrite Hr. reflexivity.
Qed.

End Pattern.

(** ** Timeouts *)

(** What one attempt adds to a trace: the installation call with its
    timeout, and perhaps a sleep. An attempt never blocks. *)
Lemma attempt_install_trace w package spec attempt tr :
  exists ext,
    (attempt_install w package spec attempt tr).2 =
      tr ++ install_run package spec :: ext /\
    Forall (fun e => e = install_run package spec \/ exists n, e = Sleep n) ext /\
    (attempt_install w package spec attempt tr).1 <> Blocks.
Proof.
  rewrite attempt_install_spec. cbv zeta.
  destruct (install_verdict w package spec (install_calls package spec tr));
    try destruct (Nat.eqb attempt NETWORK_RETRIES); cbn [fst snd];
    try (exists []; repeat split; [constructor | discriminate]);
    (eexists [_]; rewrite <- app_assoc; repeat split;
     [ constructor; [right; eexists; reflexivity | constructor]
     | discriminate ]).
Qed.

(** What the retry loop adds to a trace: installation calls with their
    timeout, and sleeps. It never blocks. *)
Lemma retry_loop_trace w package spec attempts tr :
  exists ext,
    (retry_loop w package spec attempts tr).2 = tr ++ ext /\
    Forall (fun e => e = install_run package spec \/ exists n, e = Sleep n) ext /\
    (retry_loop w package spec attempts tr).1 <> Blocks.
Proof.
  revert tr. induction attempts as [|attempt rest IH]; intros tr.
  - exists []. cbn. rewrite app_nil_r. repeat split; [constructor|discriminate].
  - rewrite retry_loop_cons.
    destruct (attempt_install_trace w package spec attempt tr)
      as (ext1 & Htr1 & Hext1 & Hnb1).
    assert (Hrun : Forall (fun e => e = install_run package spec
                                    \/ exists n, e = Sleep n)
                     (install_run package spec :: ext1))
      by (constructor; [left; reflexivity | exact Hext1]).
    destruct (attempt_install w package spec attempt tr) as [[[r|u]|e|] tr1];
      cbn [fst snd] in Htr1, Hnb1; subst tr1.
    + eexists. repeat split; [exact Hrun | discriminate].
    + destruct (IH (tr ++ install_run package spec :: ext1))
        as (ext2 & Htr2 & Hext2 & Hnb2).
      exists ((install_run package spec :: ext1) ++ ext2).
      rewrite Htr2, <- app_assoc. repeat split; [|exact Hnb2].
      apply Forall_app. split; [exact Hrun | exact Hext2].
    + eexists. repeat split; [exact Hrun | discriminate].
    + contradiction.
Qed.

(** The result of the version query is a value or a block. *)
Lemma get_installed_version_cases w package tr :
  (exists cv, (get_installed_version w package tr).1 = Ret cv) \/
  (get_installed_version w package tr).1 = Blocks.
Proof.
  pose proof (get_installed_version_never_raises w package tr) as Hnr.
  destruct ((get_installed_version w package tr).1) as [cv|e|].
  - left. exists cv. reflexivity.
  - exfalso. exact (Hnr e eq_refl).
  - right. reflexivity.
Qed.

Lemma install_package_blocked w package spec :
  (get_installed_version w package []).1 = Blocks ->
  install_package w package spec [] = (Blocks, [Run (pip_show package) None]).
Proof.
  intros Hget.
  pose proof (get_installed_version_trace w package []) as Htr.
  unfold install_package, bind.
  destruct (get_installed_version w package []) as [r tr1].
  simpl in Hget, Htr. subst r tr1. reflexivity.
Qed.

(** The trace of [install_package]: the version query, then installation
    calls and sleeps. The function blocks only in the version query. *)
Lemma install_package_trace w package spec :
  exists ext,
    (install_package w package spec []).2 = Run (pip_show package) None :: ext /\
    Forall (fun e => e = install_run package spec \/ exists n, e = Sleep n) ext /\
    ((install_package w package spec []).1 = Blocks ->
     w (pip_show package) 0 = Hangs).
Proof.
  destruct (get_installed_version_cases w package []) as [[cv Hget] | Hget].
  - rewrite (install_package_check _ _ spec _ Hget).
    destruct (already_satisfied cv spec) as [[|]|e|] eqn:Hsat;
      try (exists []; repeat split; [constructor | discriminate]).
    + destruct (retry_loop_trace w package spec (seq 0 (NETWORK_RETRIES + 1))
                  [Run (pip_show package) None]) as (ext & Htr & Hext & Hnb).
      exists ext. rewrite Htr. repeat split; [exact Hext|].
      intros Hb. contradiction.
    + unfold already_satisfied in Hsat.
      destruct cv as [cv|]; [|discriminate Hsat].
      destruct (PyStr.truthy cv); [|discriminate Hsat].
      destruct (version.parse cv); [discriminate Hsat|].
      destruct (version.parse (PyStr.lstrip ">=" spec)); discriminate Hsat.
  - rewrite (install_package_blocked _ _ spec Hget).
    exists []. repeat split; [constructor|]. intros _.
    apply (get_installed_version_blocks w package []) in Hget. exact Hget.
Qed.

(** The trace of [uninstall_packages]: one [pip uninstall] without a
    timeout for each package it reaches, and the lines it prints. *)
Lemma uninstall_loop_trace w packages failed tr :
  exists ext,
    (uninstall_loop w packages failed tr).2 = tr ++ ext /\
    Forall (fun e => (exists p, In p packages /\ e = Run (pip_uninstall p) None)
                     \/ exists text, e = Print text) ext.
Proof.
  revert failed tr. induction packages as [|package rest IH]; intros failed tr.
  - exists []. cbn. rewrite app_nil_r. split; [reflexivity | constructor].
  - assert (Hrun : (exists p, In p (package :: rest) /\
                      Run (pip_uninstall package) None = Run (pip_uninstall p) None)
                   \/ exists text, Run (pip_uninstall package) None = Print text)
      by (left; exists package; split; [left|]; reflexivity).
    assert (Hmono : forall ext,
               Forall (fun e => (exists p, In p rest /\ e = Run (pip_uninstall p) None)
                                \/ exists text, e = Print text) ext ->
               Forall (fun e => (exists p, In p (package :: rest)
                                           /\ e = Run (pip_uninstall p) None)
                                \/ exists text, e = Print text) ext).
    { intros ext Hext. eapply Forall_impl; [exact Hext|].
      intros e [(p & Hp & He) | Hpr];
        [left; exists p; split; [right; exact Hp | exact He] | right; exact Hpr]. }
    cbn [uninstall_loop]. unfold bind, try_except, subprocess.run, emit, ret.
    destruct (w (pip_uninstall package) (runs_of (pip_uninstall package) tr))
      as [code out err secs| |]; cbn [andb].
    + destruct (Z.eqb code 0); cbn [negb].
      * destruct (IH failed ((tr ++ [Run (pip_uninstall package) None])
                               ++ [Print (String.append "Uninstalled " package)]))
          as (ext & Htr & Hext).
        exists ([Run (pip_uninstall package) None]
                  ++ [Print (String.append "Uninstalled " package)] ++ ext).
        split; [rewrite Htr, <- !app_assoc; reflexivity|].
        apply Forall_app; split; [constructor; [exact Hrun | constructor]|].
        apply Forall_cons; split; [right; eexists; reflexivity | exact (Hmono _ Hext)].
      * destruct (IH (failed ++ [package]) (tr ++ [Run (pip_uninstall package) None]))
          as (ext & Htr & Hext).
        exists ([Run (pip_uninstall package) None] ++ ext).
        split; [rewrite Htr, <- !app_assoc; reflexivity|].
        apply Forall_app; split; [constructor; [exact Hrun | constructor]|].
        exact (Hmono _ Hext).
    + exists [Run (pip_uninstall package) None].
      split; [reflexivity | constructor; [exact Hrun | constructor]].
    + exists [Run (pip_uninstall package) None].
      split; [reflexivity | constructor; [exact Hrun | constructor]].
Qed.

(** C9, as it holds of the script. Only the installation call carries a
    timeout ([NETWORK_TIMEOUT * 2] = 60 seconds): the version query and the
    uninstall call are started without one. The retry loop therefore never
    blocks, and [install_package] blocks exactly when its version query
    does. *)
Theorem C9_only_install_has_timeout w package spec packages :
  (forall argv t,
      In (Run argv t) (install_package w package spec []).2 ->
      (argv = pip_show package /\ t = None) \/
      (argv = pip_install package spec /\ t = Some (NETWORK_TIMEOUT * 2))) /\
  In (Run (pip_show package) None) (install_package w package spec []).2 /\
  ((install_package w package spec []).1 = Blocks <->
   w (pip_show package) 0 = Hangs) /\
  (forall argv t,
      In (Run argv t) (uninstall_packages w packages []).2 ->
      t = None /\ exists p, In p packages /\ argv = pip_uninstall p).
Proof.
  destruct (install_package_trace w package spec) as (ext & Htr & Hext & Hb).
  split; [|split; [|split]].
  - intros argv t Hin. rewrite Htr in Hin. destruct Hin as [Heq | Hin].
    + left. injection Heq as <- <-. split; reflexivity.
    + right. rewrite List.Forall_forall in Hext.
      destruct (Hext _ Hin) as [Heq | [n Heq]]; [|discriminate Heq].
      unfold install_run in Heq. injection Heq as -> ->. split; reflexivity.
  - rewrite Htr. left. reflexivity.
  - split; [exact Hb|]. intros Hh.
    apply (get_installed_version_blocks w package []) in Hh.
    rewrite (install_package_blocked _ _ spec Hh). reflexivity.
  - intros argv t Hin.
    destruct (uninstall_loop_trace w packages [] []) as (ext' & Htr' & Hext').
    unfold uninstall_packages in Hin. rewrite Htr' in Hin. cbn [app] in Hin.
    rewrite List.Forall_forall in Hext'.
    destruct (Hext' _ Hin) as [(p & Hp & Heq) | [text Heq]]; [|discriminate Heq].
    injection Heq as -> ->. split; [reflexivity|]. exists p. split; [exact Hp | reflexivity].
Qed.

(** Counterexample to C9 as stated: the version query is started without
    a timeout, and when [pip show] hangs the engine blocks for ever. *)
Lemma C9_counterexample_query_without_timeout :
  install_package w_show_hangs "flask" ">=2.2.0" [] =
    (Blocks, [Run (pip_show "flask") None]) /\
  all_timed (install_package w_show_hangs "flask" ">=2.2.0" []).2 = false /\
  all_timed (uninstall_packages (w_all_installed "2.2.0") ["flask"] []).2 = false.
Proof. repeat split; vm_compute; reflexivity. Qed.

(** ** The batch *)

(** The outcome of a job names the package of the job. *)
Lemma retry_loop_name w package spec attempts tr p b m :
  (retry_loop w package spec attempts tr).1 = Ret (Some (p, b, m)) ->
  p = package.
Proof.
  revert tr. induction attempts as [|attempt rest IH]; intros tr;
    [discriminate|].
  rewrite retry_loop_cons, attempt_install_spec. cbv zeta.
  destruct (install_verdict w package spec (install_calls package spec tr));
    try destruct (Nat.eqb attempt NETWORK_RETRIES); cbn [fst];
    try discriminate; try apply IH; intros [= <- _ _]; reflexivity.
Qed.

Lemma install_package_name w package spec p b m :
  (install_package w package spec []).1 = Ret (Some (p, b, m)) -> p = package.
Proof.
  destruct (get_installed_version_cases w package []) as [[cv Hget] | Hget].
  - rewrite (install_package_check _ _ spec _ Hget).
    destruct (already_satisfied cv spec) as [[|]|e|]; cbn [fst];
      try discriminate.
    + intros [= <- _ _]. reflexivity.
    + apply retry_loop_name.
  - rewrite (install_package_blocked _ _ spec Hget). discriminate.
Qed.

(** The futures after the jobs of [order] have finished. *)
Lemma foldl_finish_lookup w jobs order (m : gmap nat (res (option outcome))) i :
  foldl (finish w jobs) m order !! i =
  match jobs !! i with
  | Some job => if bool_decide (i ∈ order) then Some (run_job w job).1 else m !! i
  | None => m !! i
  end.
Proof.
  revert m. induction order as [|j order IH]; intros m.
  - cbn [foldl]. rewrite bool_decide_eq_false_2 by apply not_elem_of_nil.
    destruct (jobs !! i); reflexivity.
  - cbn [foldl]. rewrite IH. unfold finish.
    destruct (decide (i = j)) as [-> | Hne].
    + rewrite (bool_decide_eq_true_2 (j ∈ j :: order)) by (apply elem_of_cons; left; reflexivity).
      destruct (jobs !! j) as [job|] eqn:Hj; [|reflexivity].
      rewrite lookup_insert_eq. destruct (bool_decide (j ∈ order)); reflexivity.
    + assert (Hiff : bool_decide (i ∈ j :: order) = bool_decide (i ∈ order)).
      { apply bool_decide_ext. rewrite elem_of_cons. tauto. }
      rewrite Hiff.
      destruct (jobs !! j) as [job|]; [|reflexivity].
      rewrite lookup_insert_ne by congruence. reflexivity.
Qed.

Lemma pool_lookup w jobs order i :
  pool w jobs order !! i =
  match jobs !! i with
  | Some job => if bool_decide (i ∈ order) then Some (run_job w job).1 else None
  | None => None
  end.
Proof.
  unfold pool. rewrite foldl_finish_lookup, lookup_empty.
  destruct (jobs !! i); reflexivity.
Qed.

(** The futures do not depend on the order in which the jobs finish. *)
Lemma pool_order w jobs order1 order2 :
  order1 ≡ₚ order2 -> pool w jobs order1 = pool w jobs order2.
Proof.
  intros Hperm. apply map_eq. intros i. rewrite !pool_lookup.
  destruct (jobs !! i); [|reflexivity].
  rewrite (bool_decide_ext (i ∈ order1) (i ∈ order2)); [reflexivity|].
  rewrite Hperm. reflexivity.
Qed.

Lemma failed_in_completion_order_cons w packages i rest :
  failed_in_completion_order w packages (i :: rest) =
  match packages !! i with
  | Some job =>
      if job_failed w job
      then job.1 :: failed_in_completion_order w packages rest
      else failed_in_completion_order w packages rest
  | None => failed_in_completion_order w packages rest
  end.
Proof.
  unfold failed_in_completion_order. cbn [omap list_omap].
  destruct (packages !! i) as [job|]; [|reflexivity].
  destruct (job_failed w job); reflexivity.
Qed.

(** Reading the futures in the order [pending] lists the failed packages
    in that order, wherever the jobs finished. *)
Lemma collect_failed w packages order total pending completed failed tr f :
  (collect w (pool w packages order) total pending completed failed tr).1 = Ret f ->
  f = failed ++ failed_in_completion_order w packages pending.
Proof.
  revert completed failed tr.
  induction pending as [|i rest IH]; intros completed failed tr Hret.
  - cbn in Hret. injection Hret as <-. rewrite app_nil_r. reflexivity.
  - rewrite failed_in_completion_order_cons.
    cbn [collect] in Hret. unfold bind at 1, future_result in Hret.
    rewrite pool_lookup in Hret.
    destruct (packages !! i) as [job|] eqn:Hi; [|discriminate Hret].
    destruct (bool_decide (i ∈ order)); [|discriminate Hret].
    unfold lift, job_failed in *.
    pose proof (install_package_name w job.1 job.2) as Hname.
    fold (run_job w job) in Hname.
    destruct ((run_job w job).1) as [[[[p b] m]|]|e|] eqn:Hjob;
      try discriminate Hret.
    specialize (Hname p b m eq_refl). subst p.
    unfold bind at 1, emit in Hret.
    unfold bind at 1 in Hret.
    match type of Hret with
    | context [(if ?c then ?a else ?b') ?t] =>
        destruct ((if c then a else b') t) as [[u|e|] tr2]
    end; try discriminate Hret.
    apply IH in Hret. rewrite Hret.
    destruct b; [reflexivity|]. rewrite <- app_assoc. reflexivity.
Qed.

Lemma shutdown_returns {A : Type} (futures : gmap nat (res (option outcome)))
    n (body : M A) tr (a : A) :
  (shutdown futures n body tr).1 = Ret a -> (body tr).1 = Ret a.
Proof.
  unfold shutdown. destruct (forallb _ (seq 0 n)); [exact (fun H => H)|].
  discriminate.
Qed.

(** Reading the futures in the order of submission gives the order of the
    request. *)
Lemma request_order_from pre packages w :
  failed_in_completion_order w (pre ++ packages)
    (seq (length pre) (length packages)) =
  failed_in_request_order w packages.
Proof.
  revert pre. induction packages as [|job packages IH]; intros pre;
    [reflexivity|].
  cbn [length seq]. rewrite failed_in_completion_order_cons.
  rewrite list_lookup_middle by reflexivity.
  specialize (IH (pre ++ [job])).
  rewrite <- app_assoc, length_app, Nat.add_1_r in IH. cbn [app] in IH.
  rewrite IH. unfold failed_in_request_order. cbn [List.filter].
  destruct (job_failed w job); reflexivity.
Qed.

Lemma request_order w packages :
  failed_in_completion_order w packages (seq 0 (length packages)) =
  failed_in_request_order w packages.
Proof. exact (request_order_from [] packages w). Qed.

(** C7, as it holds of the script. The failed packages are returned in the
    order in which they were requested: the futures are read in the order of
    submission, and the result of the batch does not depend on the order in
    which the jobs finish. *)
Theorem C7_failed_in_request_order w packages order failed :
  order ≡ₚ seq 0 (length packages) ->
  (parallel_install w packages order []).1 = Ret failed ->
  failed = failed_in_request_order w packages /\
  parallel_install w packages order [] =
    parallel_install w packages (seq 0 (length packages)) [].
Proof.
  intros Hperm Hret. split.
  - unfold parallel_install in Hret. apply shutdown_returns in Hret.
    apply collect_failed in Hret. rewrite Hret, request_order. reflexivity.
  - unfold parallel_install. rewrite (pool_order w packages _ _ Hperm).
    reflexivity.
Qed.

Lemma C7_failed_in_request_order_witness :
  [1; 0] ≡ₚ seq 0 (length two_requests) /\
  (parallel_install w_no_distribution two_requests [1; 0] []).1 =
    Ret ["alpha"; "beta"] /\
  ["alpha"; "beta"] = failed_in_request_order w_no_distribution two_requests.
Proof.
  assert (Hp : [1; 0] ≡ₚ seq 0 (length two_requests)) by apply perm_swap.
  split; [exact Hp|]. split; [reflexivity|].
  exact (proj1 (C7_failed_in_request_order w_no_distribution two_requests
                  [1; 0] ["alpha"; "beta"] Hp eq_refl)).
Defined.

(** Counterexample to C7 as stated: both jobs fail and the job of [beta]
    finishes first, yet [alpha] comes first in the result. *)
Lemma C7_counterexample_request_order :
  failed_in_completion_order w_no_distribution two_requests [1; 0] =
    ["beta"; "alpha"] /\
  (parallel_install w_no_distribution two_requests [1; 0] []).1 =
    Ret ["alpha"; "beta"] /\
  (parallel_install w_no_distribution two_requests [1; 0] []).1 <>
    Ret (failed_in_completion_order w_no_distribution two_requests [1; 0]).
Proof.
  split; [vm_compute; reflexivity|]. split; [vm_compute; reflexivity|].
  vm_compute. discriminate.
Qed.

Lemma reported_app tr1 tr2 : reported (tr1 ++ tr2) = reported tr1 ++ reported tr2.
Proof.
  induction tr1 as [|e tr1 IH]; [reflexivity|].
  destruct e; cbn [app reported]; rewrite IH; reflexivity.
Qed.

(** A notification prints no status line. *)
Lemma send_notification_reported w title message tr :
  reported (send_notification w title message tr).2 = reported tr.
Proof.
  unfold send_notification, check_termux_api, bind, try_except,
    subprocess.run, ret.
  destruct (w ["termux-notification"; "--help"] _) as [code out err secs| |];
    cbn [andb fst snd];
    try (rewrite reported_app; cbn [reported]; rewrite app_nil_r; reflexivity).
  match goal with |- context [w ?argv ?n] => destruct (w argv n) as [c o e s| |] end;
    cbn [andb fst snd]; try destruct (Nat.ltb 5 _); cbn [fst snd];
    rewrite !reported_app; cbn [reported]; rewrite !app_nil_r; reflexivity.
Qed.

(** When the loop of [parallel_install] returns, it has printed one status
    line for each future it read, in that order. *)
Lemma collect_reported w packages order total pending completed failed tr f tr' :
  collect w (pool w packages order) total pending completed failed tr = (Ret f, tr') ->
  reported tr' =
  reported tr ++ omap (fun i => fst <$> packages !! i) pending.
Proof.
  revert completed failed tr.
  induction pending as [|i rest IH]; intros completed failed tr Hret.
  - cbn in Hret. injection Hret as <- <-. rewrite app_nil_r. reflexivity.
  - cbn [collect] in Hret. unfold bind at 1, future_result in Hret.
    rewrite pool_lookup in Hret.
    destruct (packages !! i) as [job|] eqn:Hi; [|discriminate Hret].
    destruct (bool_decide (i ∈ order)); [|discriminate Hret].
    unfold lift in Hret.
    pose proof (install_package_name w job.1 job.2) as Hname.
    fold (run_job w job) in Hname.
    destruct ((run_job w job).1) as [[[[p b] m]|]|e|] eqn:Hjob;
      try discriminate Hret.
    specialize (Hname p b m eq_refl). subst p.
    unfold bind at 1, emit in Hret. unfold bind at 1 in Hret.
    match type of Hret with
    | context [(if ?c then ?a else ?b') ?t] =>
        assert (Hn : reported ((if c then a else b') t).2 = reported t)
          by (destruct c; [apply send_notification_reported | reflexivity]);
        destruct ((if c then a else b') t) as [[u|e|] tr2]
    end; try discriminate Hret.
    apply IH in Hret. rewrite Hret. cbn [snd] in Hn. rewrite Hn, reported_app.
    cbn [omap list_omap]. rewrite Hi. cbn. rewrite <- app_assoc. reflexivity.
Qed.

Lemma omap_lookup_seq {A B : Type} (f : A -> B) (pre l : list A) :
  omap (fun i => f <$> (pre ++ l) !! i) (seq (length pre) (length l)) = map f l.
Proof.
  revert pre. induction l as [|x l IH]; intros pre; [reflexivity|].
  cbn [length seq omap list_omap]. rewrite list_lookup_middle by reflexivity.
  specialize (IH (pre ++ [x])).
  rewrite <- app_assoc, length_app, Nat.add_1_r in IH. cbn [app] in IH.
  cbn. rewrite IH. reflexivity.
Qed.

(** When the batch returns, every requested package has exactly one status
    line, in the order of the request. *)
Lemma batch_reports_every_package w packages order failed tr :
  parallel_install w packages order [] = (Ret failed, tr) ->
  reported tr = map fst packages.
Proof.
  unfold parallel_install, shutdown. intros Hret.
  destruct (forallb _ (seq 0 (length packages))); [|discriminate Hret].
  destruct (collect w (pool w packages order) (length packages)
              (seq 0 (length packages)) 0 [] []) as [r tr'] eqn:Hc.
  injection Hret as -> ->.
  apply collect_reported in Hc. rewrite Hc. cbn [reported app].
  exact (omap_lookup_seq fst [] packages).
Qed.

(** C2, which the script does not meet. A batch that returns accounts for
    every request ([batch_reports_every_package]), but a batch does not
    always return: with an unconstrained request for an installed package
    the exception of the job comes out of [future.result()] and out of
    [parallel_install]. *)
Theorem C2_batch_raises :
  parallel_install (w_all_installed "2.2.0")
    [("requests", ">=2.28.0"); ("flask", "")] [0; 1] [] =
  (Raise (InvalidVersion ""), [Status true 1 2 "requests" "Success"]).
Proof. vm_compute. reflexivity. Qed.

(** * Further properties of the script *)

(** ** [get_installed_version], continued *)

Lemma split_prefix_colon field :
  PyStr.split ":" (String.append "Version:" field) =
  "Version" :: PyStr.split ":" field.
Proof.
  change (String.append "Version:" field)
    with (String "V" (String "e" (String "r" (String "s" (String "i"
           (String "o" (String "n" (String ":" field)))))))).
  cbn [PyStr.split Ascii.eqb Bool.eqb]. reflexivity.
Qed.

Lemma startswith_version field :
  PyStr.startswith "Version:" (String.append "Version:" field) = true.
Proof.
  change (String.append "Version:" field)
    with (String "V" (String "e" (String "r" (String "s" (String "i"
           (String "o" (String "n" (String ":" field)))))))).
  unfold PyStr.startswith. destruct field; reflexivity.
Qed.

Lemma split_not_nil sep s : PyStr.split sep s <> [].
Proof.
  destruct s as [|a s]; [discriminate|]. cbn [PyStr.split].
  destruct (Ascii.eqb a sep); [discriminate|].
  destruct (PyStr.split sep s); discriminate.
Qed.

(** The loop over the lines stops at the first line that starts with
    [Version:] and takes what stands between its first two colons. *)
Lemma version_line_found pre field post tr :
  Forall (fun line => PyStr.startswith "Version:" line = false) pre ->
  version_line (pre ++ String.append "Version:" field :: post) tr =
  (Ret (Some (PyStr.strip (hd "" (PyStr.split ":" field)))), tr).
Proof.
  intros Hpre. induction Hpre as [|line pre Hline _ IH].
  - cbn [app version_line]. rewrite startswith_version, split_prefix_colon.
    cbn [nth_error]. pose proof (split_not_nil ":" field) as Hne.
    destruct (PyStr.split ":" field); [contradiction|]. reflexivity.
  - cbn [app version_line]. rewrite Hline. exact IH.
Qed.

Lemma version_line_absent lines tr :
  Forall (fun line => PyStr.startswith "Version:" line = false) lines ->
  version_line lines tr = (Ret None, tr).
Proof.
  intros H. induction H as [|line lines Hline _ IH]; [reflexivity|].
  cbn [version_line]. rewrite Hline. exact IH.
Qed.

Lemma get_installed_version_exits w package tr code out err secs :
  w (pip_show package) (runs_of (pip_show package) tr) = Exits code out err secs ->
  get_installed_version w package tr =
  match version_line (PyStr.split PyStr.nl out)
          (tr ++ [Run (pip_show package) None]) with
  | (Raise _, tr') => (Ret None, tr')
  | r => r
  end.
Proof.
  intros Hw. unfold get_installed_version, try_except, bind, subprocess.run.
  rewrite Hw. cbn [andb stdout].
  destruct (version_line (PyStr.split PyStr.nl out)
              (tr ++ [Run (pip_show package) None])) as [[v|e|] tr']; reflexivity.
Qed.

(** X1. The version query never raises. A [pip] that cannot be started
    counts as "not installed"; whatever [pip show] prints and whatever its
    exit status, the query returns; it blocks only when [pip show] does
    not end. *)
Theorem X1_version_query_never_raises w package tr :
  match w (pip_show package) (runs_of (pip_show package) tr) with
  | Missing => (get_installed_version w package tr).1 = Ret None
  | Hangs => (get_installed_version w package tr).1 = Blocks
  | Exits _ _ _ _ => exists v, (get_installed_version w package tr).1 = Ret v
  end.
Proof.
  destruct (w (pip_show package) (runs_of (pip_show package) tr))
    as [code out err secs| |] eqn:Hw.
  - destruct (get_installed_version_cases w package tr) as [Hret | Hb];
      [exact Hret|].
    apply get_installed_version_blocks in Hb. congruence.
  - apply get_installed_version_blocks. exact Hw.
  - unfold get_installed_version, try_except, bind, subprocess.run.
    rewrite Hw. reflexivity.
Qed.

(** X2. The installed version is read from the first line of the output
    that starts with [Version:]: it is the text between the first and the
    second colon of that line, without the white space around it. The
    exit status of [pip show] plays no part. *)
Theorem X2_version_is_first_version_field w package tr code out err secs
    pre field post :
  w (pip_show package) (runs_of (pip_show package) tr) = Exits code out err secs ->
  PyStr.split PyStr.nl out = pre ++ String.append "Version:" field :: post ->
  Forall (fun line => PyStr.startswith "Version:" line = false) pre ->
  (get_installed_version w package tr).1 =
    Ret (Some (PyStr.strip (hd "" (PyStr.split ":" field)))).
Proof.
  intros Hw Hout Hpre.
  rewrite (get_installed_version_exits _ _ _ _ _ _ _ Hw), Hout.
  rewrite (version_line_found pre field post _ Hpre). reflexivity.
Qed.

Lemma X2_version_is_first_version_field_witness :
  w_all_installed "1:2.0 " ["python3"; "-m"; "pip"; "show"; "flask"] 0 =
    Exits 0 (pip_show_output "flask" "1:2.0 ") "" 1 /\
  PyStr.split PyStr.nl (pip_show_output "flask" "1:2.0 ") =
    ["Name: flask"] ++ String.append "Version:" " 1:2.0 " :: ["Summary: a package"] /\
  Forall (fun line => PyStr.startswith "Version:" line = false) ["Name: flask"] /\
  (get_installed_version (w_all_installed "1:2.0 ") "flask" []).1 = Ret (Some "1").
Proof.
  split; [reflexivity|]. split; [reflexivity|].
  split; [constructor; [reflexivity | constructor]|].
  apply (X2_version_is_first_version_field (w_all_installed "1:2.0 ") "flask" []
           0 (pip_show_output "flask" "1:2.0 ") "" 1
           ["Name: flask"] " 1:2.0 " ["Summary: a package"]);
    [reflexivity | reflexivity | constructor; [reflexivity | constructor]].
Defined.

(** X3. When no line of the output starts with [Version:], as for a
    package that [pip] does not know, the query returns [None]. *)
Theorem X3_no_version_line_is_not_installed w package tr code out err secs :
  w (pip_show package) (runs_of (pip_show package) tr) = Exits code out err secs ->
  Forall (fun line => PyStr.startswith "Version:" line = false)
    (PyStr.split PyStr.nl out) ->
  get_installed_version w package tr =
    (Ret None, tr ++ [Run (pip_show package) None]).
Proof.
  intros Hw Hout.
  rewrite (get_installed_version_exits _ _ _ _ _ _ _ Hw).
  rewrite (version_line_absent _ _ Hout). reflexivity.
Qed.

Lemma X3_no_version_line_is_not_installed_witness :
  w_no_distribution (pip_show "nosuchpkg") 0 =
    Exits 1 "" "WARNING: Package(s) not found" 1 /\
  Forall (fun line => PyStr.startswith "Version:" line = false)
    (PyStr.split PyStr.nl "") /\
  get_installed_version w_no_distribution "nosuchpkg" [] =
    (Ret None, [Run (pip_show "nosuchpkg") None]).
Proof.
  split; [reflexivity|].
  split; [constructor; [reflexivity | constructor]|].
  apply (X3_no_version_line_is_not_installed w_no_distribution "nosuchpkg" []
           1 "" "WARNING: Package(s) not found" 1);
    [reflexivity | constructor; [reflexivity | constructor]].
Defined.

(** ** The version check, continued *)

(** X4. A package that is not installed, or whose version field is empty,
    is dispatched whatever its requirement: the requirement is not parsed,
    so even a requirement that is no version cannot make the check
    raise. *)
Theorem X4_absent_package_is_dispatched w package spec current_version :
  (get_installed_version w package []).1 = Ret current_version ->
  current_version = None \/ current_version = Some "" ->
  install_package w package spec [] =
  retry_loop w package spec (seq 0 (NETWORK_RETRIES + 1))
    [Run (pip_show package) None].
Proof.
  intros Hget Hcv. rewrite (install_package_check _ _ spec _ Hget).
  destruct Hcv as [-> | ->]; reflexivity.
Qed.

Lemma X4_absent_package_is_dispatched_witness :
  (get_installed_version w_no_distribution "nosuchpkg" []).1 = Ret None /\
  install_package w_no_distribution "nosuchpkg" "not a version" [] =
  retry_loop w_no_distribution "nosuchpkg" "not a version"
    (seq 0 (NETWORK_RETRIES + 1)) [Run (pip_show "nosuchpkg") None].
Proof.
  split; [reflexivity|].
  apply (X4_absent_package_is_dispatched w_no_distribution "nosuchpkg"
           "not a version" None); [reflexivity | left; reflexivity].
Defined.

Lemma tuple_cmp_refl {A : Type} (cmp : A -> A -> comparison) l :
  (forall x, cmp x x = Eq) -> cmpkey.tuple_cmp cmp l l = Eq.
Proof.
  intros Hrefl. induction l as [|x l IH]; [reflexivity|].
  cbn [cmpkey.tuple_cmp]. rewrite Hrefl. exact IH.
Qed.

Lemma string_compare_refl s : String.compare s s = Eq.
Proof.
  induction s as [|a s IH]; [reflexivity|].
  cbn [String.compare]. unfold Ascii.compare. rewrite N.compare_refl.
  exact IH.
Qed.

Lemma pair_cmp_refl p : cmpkey.pair_cmp p p = Eq.
Proof.
  unfold cmpkey.pair_cmp. rewrite Z.compare_refl. apply string_compare_refl.
Qed.

(** Every version is at least itself. *)
Lemma ge_refl v : cmpkey.ge v v = true.
Proof.
  unfold cmpkey.ge, cmpkey.key_cmp.
  rewrite N.compare_refl, (tuple_cmp_refl N.compare) by apply N.compare_refl.
  rewrite (tuple_cmp_refl Z.compare) by apply Z.compare_refl.
  destruct (cmpkey.k_local (cmpkey._cmpkey v)) as [l|]; [|reflexivity].
  rewrite (tuple_cmp_refl cmpkey.pair_cmp) by apply pair_cmp_refl. reflexivity.
Qed.

(** X5. A package installed at exactly the required version satisfies its
    requirement: for every valid version [v], the check of an installed
    [v] against [>=v] is true. *)
Theorem X5_exact_version_satisfies v ver :
  version.parse v = inr ver ->
  already_satisfied (Some v) (String.append ">=" v) = Ret true.
Proof.
  intros Hv. unfold already_satisfied.
  rewrite (lstrip_prefix ">=" ">=" v eq_refl), (lstrip_version v ver Hv), Hv.
  rewrite ge_refl. destruct v; [discriminate Hv|]. reflexivity.
Qed.

Lemma X5_exact_version_satisfies_witness :
  (exists ver, version.parse "2.0rc1.post3" = inr ver) /\
  already_satisfied (Some "2.0rc1.post3") ">=2.0rc1.post3" = Ret true.
Proof.
  split; [eexists; reflexivity|].
  eapply (X5_exact_version_satisfies "2.0rc1.post3"). reflexivity.
Defined.

(** A number of more than 4300 digits is no version: [int] refuses it. *)
Lemma all_digits_no_dot s :
  all_digits s = true ->
  PyStr.all_in ".0123456789" s = true /\ PyStr.split "." s = [s].
Proof.
  induction s as [|a s IH]; [split; reflexivity|].
  cbn [all_digits]. intros H. apply andb_true_iff in H as [Ha Hs].
  destruct (IH Hs) as [Hall Hsplit].
  cbn [PyStr.all_in PyStr.split]. rewrite Hsplit, Hall.
  destruct a as [[] [] [] [] [] [] [] []]; try discriminate Ha;
    split; reflexivity.
Qed.

Lemma parse_long_number s :
  all_digits s = true ->
  PyStr.max_str_digits < String.length s ->
  version.parse s = inl ValueError.
Proof.
  intros Hd Hlen. destruct (all_digits_no_dot s Hd) as [Hall Hsplit].
  unfold version.parse, version.Version_init. rewrite Hall, Hsplit.
  destruct s as [|a s]; [cbn in Hlen; lia|].
  cbn [mapM]. unfold PyStr.int.
  rewrite (proj2 (Nat.ltb_lt _ _) Hlen). reflexivity.
Qed.

(** X28. A number of more than 4300 digits in a version makes the version
    check raise [ValueError], the refusal of [int], not [InvalidVersion]:
    whatever the requirement when the installed version is such a number,
    and for such a number as lower bound when the installed version is
    valid. *)
Theorem X28_long_number_raises_ValueError w package cv :
  (get_installed_version w package []).1 = Ret (Some cv) ->
  (all_digits cv = true -> PyStr.max_str_digits < String.length cv ->
   forall spec,
     install_package w package spec [] =
       (Raise ValueError, [Run (pip_show package) None])) /\
  (forall installed v,
     version.parse cv = inr installed ->
     all_digits v = true -> PyStr.max_str_digits < String.length v ->
     install_package w package (String.append ">=" v) [] =
       (Raise ValueError, [Run (pip_show package) None])).
Proof.
  intros Hget. split.
  - intros Hd Hlen spec. rewrite (install_package_check _ _ _ _ Hget).
    unfold already_satisfied. rewrite (parse_long_number cv Hd Hlen).
    destruct cv; [cbn in Hlen; lia|]. reflexivity.
  - intros installed v Hcv Hd Hlen.
    rewrite (install_package_check _ _ _ _ Hget).
    unfold already_satisfied. rewrite Hcv.
    rewrite (lstrip_prefix ">=" ">=" v eq_refl).
    assert (Hstrip : PyStr.lstrip ">=" v = v).
    { destruct v as [|a v']; [reflexivity|].
      cbn [all_digits] in Hd. apply andb_true_iff in Hd as [Ha _].
      cbn [PyStr.lstrip].
      rewrite (digit_or_dot_not_operator a); [reflexivity|].
      destruct a as [[] [] [] [] [] [] [] []]; try discriminate Ha; reflexivity. }
    rewrite Hstrip, (parse_long_number v Hd Hlen).
    destruct cv; [discriminate Hcv|]. reflexivity.
Qed.

Lemma X28_long_number_raises_ValueError_witness :
  String.length long_number = 4301 /\
  install_package (w_all_installed long_number) "flask" ">=2.0" [] =
    (Raise ValueError, [Run (pip_show "flask") None]) /\
  install_package (w_all_installed "2.2.0") "flask"
    (String.append ">=" long_number) [] =
    (Raise ValueError, [Run (pip_show "flask") None]).
Proof.
  assert (Hd : all_digits long_number = true) by (vm_compute; reflexivity).
  assert (Hlen : PyStr.max_str_digits < String.length long_number)
    by (apply Nat.ltb_lt; vm_compute; reflexivity).
  split; [vm_compute; reflexivity|]. split.
  - refine (proj1 (X28_long_number_raises_ValueError
                     (w_all_installed long_number) "flask" long_number _)
              Hd Hlen ">=2.0").
    vm_compute. reflexivity.
  - refine (proj2 (X28_long_number_raises_ValueError
                     (w_all_installed "2.2.0") "flask" "2.2.0" eq_refl)
              _ long_number eq_refl Hd Hlen).
Defined.

(** ** The retry loop, continued *)

Lemma already_satisfied_exn current_version spec e :
  already_satisfied current_version spec = Raise e ->
  e = ValueError \/ exists v, e = InvalidVersion v.
Proof.
  unfold already_satisfied. destruct current_version as [cv|]; [|discriminate].
  destruct (PyStr.truthy cv); [|discriminate].
  destruct (version.parse cv) as [e1|installed] eqn:Hcv.
  - intros [= <-]. apply parse_raises in Hcv as [-> | ->];
      [right; eexists; reflexivity | left; reflexivity].
  - destruct (version.parse (PyStr.lstrip ">=" spec)) as [e2|required] eqn:Hsp;
      [|discriminate].
    intros [= <-]. apply parse_raises in Hsp as [-> | ->];
      [right; eexists; reflexivity | left; reflexivity].
Qed.

Lemma already_satisfied_never_blocks current_version spec :
  already_satisfied current_version spec <> Blocks.
Proof.
  unfold already_satisfied. destruct current_version as [cv|]; [|discriminate].
  destruct (PyStr.truthy cv); [|discriminate].
  destruct (version.parse cv); [discriminate|].
  destruct (version.parse (PyStr.lstrip ">=" spec)); discriminate.
Qed.

(** The ways of [install_package]: it ends at the version query or at the
    version check, or the package is dispatched. *)
Lemma install_package_cases w package spec :
  (exists r,
      install_package w package spec [] = (r, [Run (pip_show package) None]) /\
      (r = Ret (Some (package, true, "Already installed")) \/
       (exists e, r = Raise e /\
                  (e = ValueError \/ exists v, e = InvalidVersion v)) \/
       r = Blocks)) \/
  dispatched w package spec.
Proof.
  destruct (get_installed_version_cases w package []) as [[cv Hget] | Hget].
  - rewrite (install_package_check _ _ spec _ Hget).
    destruct (already_satisfied cv spec) as [[|]|e|] eqn:Hsat.
    + left. eexists. split; [reflexivity|]. left. reflexivity.
    + right. exists cv. split; assumption.
    + left. eexists. split; [reflexivity|]. right. left.
      exists e. split; [reflexivity | exact (already_satisfied_exn _ _ _ Hsat)].
    + exfalso. exact (already_satisfied_never_blocks _ _ Hsat).
  - left. rewrite (install_package_blocked _ _ spec Hget).
    eexists. split; [reflexivity|]. right. right. reflexivity.
Qed.

(** One more attempt of the loop, and a case for each way it can end. *)
Ltac next_attempt w package spec n H :=
  rewrite retry_loop_cons, attempt_install_spec; cbv zeta; count_calls;
  destruct (install_verdict w package spec n) eqn:H;
  cbv beta iota;
  try change (Nat.eqb 0 NETWORK_RETRIES) with false;
  try change (Nat.eqb 1 NETWORK_RETRIES) with false;
  try change (Nat.eqb NETWORK_RETRIES NETWORK_RETRIES) with true;
  cbv iota.

Ltac all_attempts w package spec :=
  change (seq 0 (NETWORK_RETRIES + 1)) with [0; 1; NETWORK_RETRIES];
  let H0 := fresh "H0" in let H1 := fresh "H1" in let H2 := fresh "H2" in
  next_attempt w package spec 0 H0;
  try (next_attempt w package spec 1 H1;
       try next_attempt w package spec 2 H2).

(** X6. Whatever the commands do, [install_package] starts at most
    [NETWORK_RETRIES + 1] = 3 installations of a package, sleeps at most
    twice, and sleeps at most 30 seconds in all. *)
Theorem X6_attempts_and_sleep_are_bounded w package spec :
  install_calls package spec (install_package w package spec []).2 <= NETWORK_RETRIES + 1 /\
  length (sleeps (install_package w package spec []).2) <= NETWORK_RETRIES /\
  total_sleep (install_package w package spec []).2 <= 30.
Proof.
  destruct (install_package_cases w package spec) as [(r & -> & _) | Hd].
  - cbn [snd]. rewrite install_calls_after_show.
    unfold total_sleep, NETWORK_RETRIES. cbn. lia.
  - rewrite (install_package_dispatched _ _ _ Hd).
    all_attempts w package spec; cbn [snd];
      (split; [count_calls; unfold NETWORK_RETRIES; lia|]);
      unfold total_sleep; cbn; unfold NETWORK_RETRIES;
      lia.
Qed.

(** X7. The first installation that succeeds ends the loop: when the
    calls before call [k] fail and call [k] succeeds, the package is
    reported installed after exactly [k + 1] calls and [k] sleeps. *)
Theorem X7_first_success_ends_the_loop w package spec k :
  dispatched w package spec ->
  k <= NETWORK_RETRIES ->
  (forall i, i < k -> is_failure (install_verdict w package spec i) = true) ->
  install_verdict w package spec k = Installed ->
  (install_package w package spec []).1 = Ret (Some (package, true, "Success")) /\
  install_calls package spec (install_package w package spec []).2 = k + 1 /\
  length (sleeps (install_package w package spec []).2) = k.
Proof.
  intros Hd Hk Hfail Hok. rewrite (install_package_dispatched _ _ _ Hd).
  unfold NETWORK_RETRIES in Hk.
  assert (Hcases : k = 0 \/ k = 1 \/ k = 2) by lia.
  destruct Hcases as [-> | [-> | ->]].
  - all_attempts w package spec; try discriminate Hok.
    cbn [fst snd]. split; [reflexivity|]. split; [|reflexivity].
    count_calls. reflexivity.
  - pose proof (Hfail 0 ltac:(lia)) as F0.
    all_attempts w package spec;
      try discriminate Hok; try discriminate F0;
      cbn [fst snd]; (split; [reflexivity|]); (split; [|reflexivity]);
      count_calls; reflexivity.
  - pose proof (Hfail 0 ltac:(lia)) as F0. pose proof (Hfail 1 ltac:(lia)) as F1.
    all_attempts w package spec;
      try discriminate Hok; try discriminate F0; try discriminate F1;
      cbn [fst snd]; (split; [reflexivity|]); (split; [|reflexivity]);
      count_calls; reflexivity.
Qed.

Lemma X7_first_success_ends_the_loop_witness :
  dispatched (w_all_installed "2.2.0") "requests" ">=2.28.0" /\
  0 <= NETWORK_RETRIES /\
  install_verdict (w_all_installed "2.2.0") "requests" ">=2.28.0" 0 = Installed /\
  install_calls "requests" ">=2.28.0"
    (install_package (w_all_installed "2.2.0") "requests" ">=2.28.0" []).2 = 1.
Proof.
  assert (Hd : dispatched (w_all_installed "2.2.0") "requests" ">=2.28.0").
  { exists (Some "2.2.0"). split; reflexivity. }
  split; [exact Hd|]. split; [apply Nat.le_0_l|]. split; [reflexivity|].
  refine (proj1 (proj2 (X7_first_success_ends_the_loop
                          (w_all_installed "2.2.0") "requests" ">=2.28.0" 0
                          Hd (Nat.le_0_l _) _ eq_refl))).
  intros i Hi. exfalso. exact (Nat.nlt_0_r i Hi).
Defined.

(** X8. A package is reported failed only after three installations that
    all failed: the message is then "Timeout" or the last line of the
    standard error of the third one. *)
Theorem X8_failure_is_reported_after_three_failures w package spec message :
  (install_package w package spec []).1 = Ret (Some (package, false, message)) ->
  dispatched w package spec /\
  (forall n, n < NETWORK_RETRIES + 1 ->
             is_failure (install_verdict w package spec n) = true) /\
  message = failure_detail (install_verdict w package spec NETWORK_RETRIES) /\
  install_calls package spec (install_package w package spec []).2 =
    NETWORK_RETRIES + 1.
Proof.
  destruct (install_package_cases w package spec) as [(r & -> & Hr) | Hd].
  - cbn [fst]. intros ->.
    destruct Hr as [Hr | [(e0 & Hr & He0) | Hr]]; discriminate Hr.
  - intros Hret. split; [exact Hd|]. revert Hret.
    rewrite (install_package_dispatched _ _ _ Hd).
    all_attempts w package spec; cbn [fst snd]; intros Hret;
      try discriminate Hret; injection Hret as <-;
      (split; [intros n Hn; unfold NETWORK_RETRIES in Hn;
               assert (Hc : n = 0 \/ n = 1 \/ n = 2) by lia;
               destruct Hc as [-> | [-> | ->]];
               match goal with
               | H : install_verdict w package spec ?k = _
                 |- context [install_verdict w package spec ?k] => rewrite H
               end; reflexivity|]);
      (split; [unfold NETWORK_RETRIES;
               match goal with
               | H : install_verdict w package spec 2 = _ |- _ => rewrite H
               end; reflexivity|]);
      count_calls; reflexivity.
Qed.

Lemma X8_failure_is_reported_after_three_failures_witness :
  (install_package w_no_distribution "nosuchpkg" "" []).1 =
    Ret (Some ("nosuchpkg", false, "ERROR: No matching distribution found")) /\
  install_calls "nosuchpkg" ""
    (install_package w_no_distribution "nosuchpkg" "" []).2 = 3.
Proof.
  split; [reflexivity|].
  exact (proj2 (proj2 (proj2
           (X8_failure_is_reported_after_three_failures w_no_distribution
              "nosuchpkg" "" "ERROR: No matching distribution found" eq_refl)))).
Defined.

(** The parts of a split do not contain the separator. *)
Lemma split_free sep s :
  Forall (fun part => PyStr.mem sep part = false) (PyStr.split sep s).
Proof.
  induction s as [|a s IH]; [constructor; [reflexivity | constructor]|].
  cbn [PyStr.split]. destruct (Ascii.eqb a sep) eqn:Ha.
  - constructor; [reflexivity | exact IH].
  - destruct (PyStr.split sep s) as [|h t].
    + constructor; [|constructor]. cbn [PyStr.mem].
      rewrite Ascii.eqb_sym, Ha. reflexivity.
    + apply Forall_cons in IH as [Hh Ht]. constructor; [|exact Ht].
      cbn [PyStr.mem]. rewrite Ascii.eqb_sym, Ha. exact Hh.
Qed.

Lemma last_item_free sep l :
  Forall (fun part => PyStr.mem sep part = false) l ->
  PyStr.mem sep (PyStr.last_item l) = false.
Proof.
  unfold PyStr.last_item. intros H.
  induction H as [|x l Hx Hl IH]; [reflexivity|].
  destruct l as [|y l]; [exact Hx | exact IH].
Qed.

Lemma last_line_one_line err : PyStr.mem PyStr.nl (last_line err) = false.
Proof. unfold last_line. apply last_item_free, split_free. Qed.

Lemma failure_detail_one_line v : PyStr.mem PyStr.nl (failure_detail v) = false.
Proof. destruct v; try reflexivity. apply last_line_one_line. Qed.

(** X9. The message of every outcome is a single line: "Already
    installed", "Success", "Timeout", or the last line of what the failed
    installation wrote to its standard error. *)
Theorem X9_outcome_message_is_one_line w package spec p success message :
  (install_package w package spec []).1 = Ret (Some (p, success, message)) ->
  PyStr.mem PyStr.nl message = false.
Proof.
  destruct (install_package_cases w package spec) as [(r & -> & Hr) | Hd].
  - cbn [fst]. intros ->.
    destruct Hr as [Hr | [(e0 & Hr & He0) | Hr]]; try discriminate Hr.
    injection Hr as -> -> ->. reflexivity.
  - rewrite (install_package_dispatched _ _ _ Hd).
    all_attempts w package spec; cbn [fst]; intros Hret;
      try discriminate Hret; injection Hret as <- <- <-;
      try reflexivity; apply last_line_one_line.
Qed.

Lemma X9_outcome_message_is_one_line_witness :
  (install_package w_no_distribution "nosuchpkg" "" []).1 =
    Ret (Some ("nosuchpkg", false, "ERROR: No matching distribution found")) /\
  PyStr.mem PyStr.nl "ERROR: No matching distribution found" = false.
Proof.
  split; [reflexivity|].
  exact (X9_outcome_message_is_one_line w_no_distribution "nosuchpkg" ""
           "nosuchpkg" false "ERROR: No matching distribution found" eq_refl).
Defined.

Lemma install_package_returns_outcome w package spec :
  (install_package w package spec []).1 <> Ret None.
Proof.
  destruct (install_package_cases w package spec) as [(r & -> & Hr) | Hd].
  - cbn [fst]. intros ->.
    destruct Hr as [Hr | [(e0 & Hr & He0) | Hr]]; discriminate Hr.
  - rewrite (install_package_dispatched _ _ _ Hd).
    all_attempts w package spec; cbn [fst]; discriminate.
Qed.

(** What [install_package] can raise, and after which commands. *)
Lemma install_package_exn_cases w package spec e :
  (install_package w package spec []).1 = Raise e ->
  (e = ValueError \/ exists v, e = InvalidVersion v) /\
    (install_package w package spec []).2 = [Run (pip_show package) None] \/
  e = FileNotFoundError /\
    exists k, k <= NETWORK_RETRIES /\
              install_verdict w package spec k = NotStarted /\
              install_calls package spec (install_package w package spec []).2 =
                k + 1.
Proof.
  destruct (install_package_cases w package spec) as [(r & -> & Hr) | Hd].
  - cbn [fst snd]. intros ->.
    destruct Hr as [Hr | [(e0 & Hr & He0) | Hr]]; try discriminate Hr.
    injection Hr as ->. left. split; [exact He0 | reflexivity].
  - rewrite (install_package_dispatched _ _ _ Hd).
    all_attempts w package spec; cbn [fst snd]; intros Hret;
      try discriminate Hret; injection Hret as <-; right;
      (split; [reflexivity|]);
      first [ exists 0; split; [unfold NETWORK_RETRIES; lia|]; split; [assumption|]
            | exists 1; split; [unfold NETWORK_RETRIES; lia|]; split; [assumption|]
            | exists 2; split; [unfold NETWORK_RETRIES; lia|]; split; [assumption|] ];
      count_calls; reflexivity.
Qed.



(** ** Notifications *)

Lemma send_notification_spec w title message tr :
  send_notification w title message tr =
  let tr1 := tr ++ [Run notifier_probe None] in
  match w notifier_probe (runs_of notifier_probe tr) with
  | Missing => (Ret tt, tr1)
  | Hangs => (Blocks, tr1)
  | Exits _ _ _ _ =>
      let tr2 := tr1 ++ [Run (notify_command title message) (Some 5)] in
      match w (notify_command title message)
              (runs_of (notify_command title message) tr1) with
      | Missing => (Raise FileNotFoundError, tr2)
      | _ => (Ret tt, tr2)
      end
  end.
Proof.
  unfold send_notification, check_termux_api, bind, try_except,
    subprocess.run, ret, notifier_probe, notify_command.
  destruct (w ["termux-notification"; "--help"] _) as [code out err secs| |];
    cbn [andb fst snd]; try reflexivity.
  match goal with |- context [w ?argv ?n] => destruct (w argv n) as [c o e s| |] end;
    cbn [andb fst snd]; try destruct (Nat.ltb 5 _); reflexivity.
Qed.

(** X11. A notification never fails on the exit code of the notifier nor on
    its timeout. When [termux-notification] cannot be started, the probe is
    the only command run and [send_notification] returns; when the probe
    ends, with any exit code, the notification is sent with a timeout of 5
    seconds; it blocks only when the probe hangs, and raises only when the
    notifier that answered the probe cannot be started to send. *)
Theorem X11_notification_outcomes w title message tr :
  let r := send_notification w title message tr in
  match w notifier_probe (runs_of notifier_probe tr) with
  | Missing => r = (Ret tt, tr ++ [Run notifier_probe None])
  | Hangs => r = (Blocks, tr ++ [Run notifier_probe None])
  | Exits _ _ _ _ =>
      r.2 = tr ++ [Run notifier_probe None;
                   Run (notify_command title message) (Some 5)] /\
      (r.1 = Ret tt \/
       r.1 = Raise FileNotFoundError /\
       w (notify_command title message)
         (runs_of (notify_command title message) tr) = Missing)
  end.
Proof.
  cbv zeta. rewrite send_notification_spec. cbv zeta.
  destruct (w notifier_probe (runs_of notifier_probe tr)); try reflexivity.
  rewrite runs_of_app, runs_of_other, Nat.add_0_r
    by (unfold notifier_probe, notify_command; congruence).
  rewrite <- app_assoc. cbn [app].
  destruct (w (notify_command title message) _) eqn:Hsend; cbn [fst snd];
    (split; [reflexivity|]); [left | left | right]; try reflexivity.
  split; reflexivity.
Qed.

(** ** The batch, continued *)

(** The progress notification after the status line number [completed]. *)
Lemma progress_notification_cases w total completed tr :
  let m := (if Nat.eqb (completed mod 5) 0
            then send_notification w "Installation Progress"
                   (String.append (str completed)
                      (String.append "/"
                         (String.append (str total) " packages installed")))
            else ret tt) tr in
  exists ext,
    m.2 = tr ++ ext /\
    status_lines ext = [] /\
    failed_lines ext = [] /\
    runs_of notifier_probe ext = (if Nat.eqb (completed mod 5) 0 then 1 else 0) /\
    (m.1 = Ret tt \/ m.1 = Blocks \/ m.1 = Raise FileNotFoundError) /\
    (notifier_sound w -> m.1 = Ret tt).
Proof.
  cbv zeta. destruct (Nat.eqb (completed mod 5) 0).
  - rewrite send_notification_spec. cbv zeta.
    destruct (w notifier_probe (runs_of notifier_probe tr)) eqn:Hprobe.
    + match goal with |- context [w (notify_command ?t ?m) ?n] =>
        destruct (w (notify_command t m) n) eqn:Hsend end;
        (eexists; split; [rewrite <- app_assoc; reflexivity|]);
        (split; [reflexivity|]); (split; [reflexivity|]);
        (split; [reflexivity|]); cbn [fst]; (split; [tauto|]).
      * reflexivity.
      * reflexivity.
      * intros [_ Hs]. exfalso. eapply Hs; [|exact Hsend].
        rewrite Hprobe. discriminate.
    + eexists; split; [reflexivity|]. repeat (split; [reflexivity|]).
      cbn [fst]. split; [tauto|]. intros [Hp _]. exfalso. exact (Hp _ Hprobe).
    + eexists; split; [reflexivity|]. repeat (split; [reflexivity|]).
      cbn [fst]. split; [tauto|]. reflexivity.
  - exists []. unfold ret. cbn [fst snd]. rewrite app_nil_r.
    repeat (split; [reflexivity|]). split; [tauto|]. reflexivity.
Qed.

(** One turn of the loop over the futures. *)
Lemma collect_cons w futures total i rest completed failed tr :
  collect w futures total (i :: rest) completed failed tr =
  match futures !! i with
  | Some (Ret (Some (package, success, message))) =>
      let tr1 := tr ++ [Status success (completed + 1) total package message] in
      match (if Nat.eqb ((completed + 1) mod 5) 0
             then send_notification w "Installation Progress"
                    (String.append (str (completed + 1))
                       (String.append "/"
                          (String.append (str total) " packages installed")))
             else ret tt) tr1 with
      | (Ret _, tr2) =>
          collect w futures total rest (completed + 1)
            (if success then failed else failed ++ [package]) tr2
      | (Raise e, tr2) => (Raise e, tr2)
      | (Blocks, tr2) => (Blocks, tr2)
      end
  | Some (Ret None) => (Raise TypeError, tr)
  | Some (Raise e) => (Raise e, tr)
  | Some Blocks | None => (Blocks, tr)
  end.
Proof.
  cbn [collect]. unfold bind at 1, future_result, lift.
  destruct (futures !! i) as [[[[[p b] m]|]|e|]|]; reflexivity.
Qed.

(** Reads the next future in [Hret], naming what the turn of the loop does:
    [Hi] the future, [ext] what the notification adds to the trace. *)
Ltac read_future w total Hret Hi ext :=
  rewrite collect_cons in Hret;
  match type of Hret with
  | context [match ?l with _ => _ end] =>
      match l with
      | _ !! _ => destruct l as [[[[[?p ?b] ?m]|]|?e|]|] eqn:Hi
      end
  end;
  try discriminate Hret;
  cbv zeta in Hret;
  match type of Hret with
  | context [(if Nat.eqb (?c mod 5) 0 then ?a else ?b') ?t] =>
      let Hn := fresh "Hn" in
      pose proof (progress_notification_cases w total c t) as Hn;
      cbv zeta in Hn;
      destruct Hn as (ext & Hn);
      let n := fresh "n" in
      remember ((if Nat.eqb (c mod 5) 0 then a else b') t) as n;
      destruct n as [[[]|?e|] ?tr2]
  | _ => idtac
  end.

Lemma status_lines_app tr1 tr2 :
  status_lines (tr1 ++ tr2) = status_lines tr1 ++ status_lines tr2.
Proof. apply List.filter_app. Qed.

Lemma failed_lines_app tr1 tr2 :
  failed_lines (tr1 ++ tr2) = failed_lines tr1 ++ failed_lines tr2.
Proof.
  induction tr1 as [|e tr1 IH]; [reflexivity|].
  destruct e as [| |[|] ? ? ? ?|]; cbn [app failed_lines]; rewrite IH; reflexivity.
Qed.

(** What the loop over the futures can raise. *)
Lemma collect_exn w futures total pending completed failed tr e :
  (collect w futures total pending completed failed tr).1 = Raise e ->
  (exists i, futures !! i = Some (Raise e)) \/
  (exists i, futures !! i = Some (Ret None)) \/
  e = FileNotFoundError.
Proof.
  revert completed failed tr.
  induction pending as [|i rest IH]; intros completed failed tr Hret;
    [discriminate Hret|].
  read_future w total Hret Hi ext.
  - eapply IH. exact Hret.
  - destruct Hn as (_ & _ & _ & _ & [Hr | [Hr | Hr]] & _); cbn [fst] in Hr;
      try discriminate Hr.
    injection Hr as ->. injection Hret as <-. right. right. reflexivity.
  - discriminate Hret.
  - right. left. exists i. exact Hi.
  - left. exists i. cbn [fst] in Hret. injection Hret as <-. exact Hi.
Qed.

Lemma pool_lookup_Some w packages order i r :
  pool w packages order !! i = Some r ->
  exists job, packages !! i = Some job /\ (run_job w job).1 = r.
Proof.
  rewrite pool_lookup. destruct (packages !! i) as [job|]; [|discriminate].
  destruct (bool_decide (i ∈ order)); [|discriminate].
  intros [= <-]. exists job. split; reflexivity.
Qed.

(** What [parallel_install] can raise. *)
Lemma parallel_install_exn w packages order tr e :
  (parallel_install w packages order tr).1 = Raise e ->
  e = FileNotFoundError \/
  exists job,
    In job packages /\
    (run_job w job).1 = Raise e /\
    (run_job w job).2 = [Run (pip_show job.1) None] /\
    (e = ValueError \/ exists v, e = InvalidVersion v).
Proof.
  unfold parallel_install, shutdown.
  destruct (forallb _ (seq 0 (length packages))); [|discriminate].
  intros Hret. apply collect_exn in Hret.
  destruct Hret as [[i Hi] | [[i Hi] | ->]]; [| |left; reflexivity].
  - apply pool_lookup_Some in Hi as (job & Hjob & Hrun).
    destruct (install_package_exn_cases w job.1 job.2 e Hrun)
      as [[He Htr] | [-> _]]; [|left; reflexivity].
    right. exists job.
    split; [apply list_elem_of_In; eapply list_elem_of_lookup_2; exact Hjob|].
    split; [exact Hrun|]. split; [exact Htr | exact He].
  - apply pool_lookup_Some in Hi as (job & _ & Hrun).
    exfalso. exact (install_package_returns_outcome w job.1 job.2 Hrun).
Qed.

(** X12. What a batch raises was raised by the job of one of the
    requested packages and comes out of [future.result()], or it is the
    [FileNotFoundError] of the notifier. No nonzero exit code and no
    timeout of a command comes out of [parallel_install], and unpacking the
    result of a job never fails. *)
Theorem X12_batch_raises_what_a_job_raised w packages order tr e :
  (parallel_install w packages order tr).1 = Raise e ->
  ((exists job, In job packages /\ (run_job w job).1 = Raise e) \/
   e = FileNotFoundError) /\
  (forall err, e <> CalledProcessError err) /\
  e <> TimeoutExpired /\
  e <> TypeError.
Proof.
  intros Hraise.
  destruct (parallel_install_exn w packages order tr e Hraise)
    as [-> | (job & Hin & Hrun & _ & He)].
  - split; [right; reflexivity|]. repeat split; discriminate.
  - split; [left; exists job; split; assumption|].
    destruct He as [-> | [v ->]]; repeat split; discriminate.
Qed.

Lemma X12_batch_raises_what_a_job_raised_witness :
  (parallel_install (w_all_installed "2.2.0")
     [("requests", ">=2.28.0"); ("flask", "")] [0; 1] []).1 =
    Raise (InvalidVersion "") /\
  exists job,
    In job [("requests", ">=2.28.0"); ("flask", "")] /\
    (run_job (w_all_installed "2.2.0") job).1 = Raise (InvalidVersion "").
Proof.
  split; [vm_compute; reflexivity|].
  destruct (X12_batch_raises_what_a_job_raised (w_all_installed "2.2.0")
              [("requests", ">=2.28.0"); ("flask", "")] [0; 1] []
              (InvalidVersion "") ltac:(vm_compute; reflexivity))
    as [[Hjob | H] _]; [exact Hjob | discriminate H].
Defined.

(** X13. A version query that hangs for one requested package hangs the
    whole batch, in whatever order the jobs end and whatever the other jobs
    do: [pip show] runs without a timeout, and leaving the executor waits
    for every worker, also after another job has raised. *)
Theorem X13_hanging_query_hangs_the_batch w packages order tr i package spec :
  packages !! i = Some (package, spec) ->
  w (pip_show package) 0 = Hangs ->
  (parallel_install w packages order tr).1 = Blocks.
Proof.
  intros Hi Hw. unfold parallel_install, shutdown.
  assert (Hfut : match pool w packages order !! i with
                 | Some (Ret _) | Some (Raise _) => false
                 | _ => true
                 end = true).
  { rewrite pool_lookup, Hi. destruct (bool_decide (i ∈ order)); [|reflexivity].
    unfold run_job. cbn [fst snd].
    rewrite (install_package_blocked w package spec); [reflexivity|].
    apply get_installed_version_blocks. exact Hw. }
  destruct (forallb _ (seq 0 (length packages))) eqn:Hall; [|reflexivity].
  exfalso. rewrite forallb_forall in Hall.
  specialize (Hall i). rewrite in_seq in Hall.
  apply lookup_lt_Some in Hi.
  specialize (Hall ltac:(lia)).
  destruct (pool w packages order !! i) as [[?|?|]|]; discriminate.
Qed.

Lemma X13_hanging_query_hangs_the_batch_witness :
  (parallel_install w_show_hangs two_requests [1; 0] []).1 = Blocks.
Proof.
  exact (X13_hanging_query_hangs_the_batch w_show_hangs two_requests [1; 0] []
           1 "beta" "" eq_refl eq_refl).
Defined.

Lemma fifth_step k :
  (if Nat.eqb ((k + 1) mod 5) 0 then 1 else 0) + k / 5 = (k + 1) / 5.
Proof.
  pose proof (Nat.div_mod_eq k 5) as Hk.
  pose proof (Nat.div_mod_eq (k + 1) 5) as Hk1.
  pose proof (Nat.mod_upper_bound k 5 ltac:(lia)) as Hb.
  pose proof (Nat.mod_upper_bound (k + 1) 5 ltac:(lia)) as Hb1.
  destruct (Nat.eqb_spec ((k + 1) mod 5) 0) as [Hz | Hnz]; lia.
Qed.

Lemma runs_of_status argv success completed total package message :
  runs_of argv [Status success completed total package message] = 0.
Proof. reflexivity. Qed.

(** What the loop over the futures has done when it returns, reading the
    futures [k], [k + 1], ... after [k] status lines. *)
Lemma collect_returns_spec w packages order k m failed tr f tr' :
  collect w (pool w packages order) (length packages) (seq k m) k failed tr =
    (Ret f, tr') ->
  exists ext,
    tr' = tr ++ ext /\
    map Some (status_lines ext) = map (job_line w packages) (seq k m) /\
    f = failed ++ failed_lines ext /\
    runs_of notifier_probe ext + k / 5 = (k + m) / 5.
Proof.
  revert k failed tr.
  induction m as [|m IH]; intros k failed tr Hret.
  - injection Hret as <- <-. exists []. rewrite !app_nil_r, Nat.add_0_r.
    repeat split; reflexivity.
  - cbn [seq] in Hret.
    read_future w (length packages) Hret Hi ext.
    + destruct Hn as (Htr2 & Hst & Hfl & Hpr & _). cbn [snd] in Htr2.
      rewrite Nat.add_1_r in Hret at 1.
      apply IH in Hret as (ext1 & -> & Hl & Hf & Hp).
      apply pool_lookup_Some in Hi as (job & Hjob & Hrun).
      exists ([Status b (k + 1) (length packages) p m0] ++ ext ++ ext1).
      split; [rewrite Htr2, <- !app_assoc; reflexivity|].
      split; [|split].
      * cbn [seq map]. rewrite !status_lines_app, Hst.
        cbn [status_lines List.filter is_status app map].
        fold (status_lines ext1). rewrite Hl. f_equal.
        unfold job_line. rewrite Hjob, Hrun. reflexivity.
      * rewrite Hf, !failed_lines_app, Hfl.
        destruct b; cbn [failed_lines app]; [reflexivity|].
        rewrite <- app_assoc. reflexivity.
      * rewrite !runs_of_app, runs_of_status, Hpr.
        pose proof (fifth_step k) as Hstep.
        replace (k + S m) with (S k + m) by lia.
        rewrite Nat.add_1_r in Hstep. rewrite Nat.add_1_r. lia.
    + discriminate Hret.
    + discriminate Hret.
Qed.

Lemma parallel_install_returns_spec w packages order tr0 failed tr :
  parallel_install w packages order tr0 = (Ret failed, tr) ->
  exists ext,
    tr = tr0 ++ ext /\
    map Some (status_lines ext) =
      map (job_line w packages) (seq 0 (length packages)) /\
    failed = failed_lines ext /\
    runs_of notifier_probe ext = length packages / 5.
Proof.
  unfold parallel_install, shutdown. intros Hret.
  destruct (forallb _ (seq 0 (length packages))); [|discriminate Hret].
  apply collect_returns_spec in Hret as (ext & -> & Hl & Hf & Hp).
  exists ext. cbn [app] in Hf. cbn in Hp. rewrite Nat.add_0_r in Hp.
  repeat split; assumption.
Qed.

(** X14. When the batch returns, it has printed exactly one status line for
    each request, in the order of the request: line number [i + 1] of the
    number of requests shows the outcome of the job of request [i], and the
    returned list names the packages of the lines that show a failure. *)
Theorem X14_status_lines_follow_the_request w packages order tr0 failed tr :
  parallel_install w packages order tr0 = (Ret failed, tr) ->
  exists ext,
    tr = tr0 ++ ext /\
    map Some (status_lines ext) =
      map (job_line w packages) (seq 0 (length packages)) /\
    failed = failed_lines ext.
Proof.
  intros Hret.
  apply parallel_install_returns_spec in Hret as (ext & Htr & Hl & Hf & _).
  exists ext. repeat split; assumption.
Qed.

Lemma X14_status_lines_follow_the_request_witness :
  exists ext,
    (parallel_install w_flaky_network two_requests [1; 0] []).2 = [] ++ ext /\
    map Some (status_lines ext) =
      [Some (Status false 1 2 "alpha"
               "ConnectionRefusedError: [Errno 111] Connection refused");
       Some (Status false 2 2 "beta"
               "ConnectionRefusedError: [Errno 111] Connection refused")] /\
    ["alpha"; "beta"] = failed_lines ext.
Proof.
  exact (X14_status_lines_follow_the_request w_flaky_network two_requests [1; 0]
           [] ["alpha"; "beta"] _ eq_refl).
Defined.

(** X15. A progress notification is attempted after every fifth status
    line and at no other time: a batch of [n] requests that returns has
    probed the notifier [n / 5] times. *)
Theorem X15_progress_after_every_fifth w packages order tr0 failed tr :
  parallel_install w packages order tr0 = (Ret failed, tr) ->
  runs_of notifier_probe tr = runs_of notifier_probe tr0 + length packages / 5.
Proof.
  intros Hret.
  apply parallel_install_returns_spec in Hret as (ext & -> & _ & _ & Hp).
  rewrite runs_of_app, Hp. reflexivity.
Qed.

Lemma X15_progress_after_every_fifth_witness :
  (parallel_install (w_all_installed "1.0") five_requests [2; 1; 0; 4; 3] []).1 =
    Ret [] /\
  runs_of notifier_probe
    (parallel_install (w_all_installed "1.0") five_requests [2; 1; 0; 4; 3] []).2 = 1.
Proof.
  split; [vm_compute; reflexivity|].
  exact (X15_progress_after_every_fifth (w_all_installed "1.0") five_requests
           [2; 1; 0; 4; 3] [] [] _ eq_refl).
Defined.

(** With a sound notifier the loop returns when every future it reads holds
    an outcome. *)
Lemma collect_returns w futures total pending completed failed tr :
  notifier_sound w ->
  Forall (fun i => exists o, futures !! i = Some (Ret (Some o))) pending ->
  exists f tr', collect w futures total pending completed failed tr = (Ret f, tr').
Proof.
  intros Hsound Hall. revert completed failed tr.
  induction Hall as [|i rest [[[p b] m] Hi] _ IH]; intros completed failed tr.
  - eexists _, _. reflexivity.
  - rewrite collect_cons.
    match goal with
    | |- context [match ?l with _ => _ end] =>
        match l with
        | _ !! _ => replace l with (Some (Ret (Some (p, b, m))))
        end
    end.
    cbv zeta.
    match goal with
    | |- context [(if Nat.eqb (?c mod 5) 0 then ?a else ?b') ?t] =>
        destruct (progress_notification_cases w total c t)
          as (ext & _ & _ & _ & _ & _ & Hs);
        specialize (Hs Hsound);
        destruct ((if Nat.eqb (c mod 5) 0 then a else b') t) as [r tr2]
    end.
    cbn [fst] in Hs. subst r. apply IH.
Qed.

(** X16. The batch returns, with the failed packages in the order of the
    request, when every job returns an outcome, every job ends, and the
    notifier is sound: then nothing that a command of the batch does makes
    [parallel_install] raise or hang. *)
Theorem X16_batch_returns w packages order tr0 :
  notifier_sound w ->
  order ≡ₚ seq 0 (length packages) ->
  Forall (job_returns w) packages ->
  exists tr,
    parallel_install w packages order tr0 =
      (Ret (failed_in_request_order w packages), tr).
Proof.
  intros Hsound Hperm Hjobs.
  assert (Hfut : Forall (fun i => exists o,
                           pool w packages order !! i = Some (Ret (Some o)))
                   (seq 0 (length packages))).
  { apply List.Forall_forall. intros i Hi. apply in_seq in Hi.
    destruct (lookup_lt_is_Some_2 packages i ltac:(lia)) as [job Hjob].
    rewrite pool_lookup, Hjob.
    rewrite bool_decide_eq_true_2
      by (rewrite Hperm; apply list_elem_of_In, in_seq; lia).
    rewrite List.Forall_forall in Hjobs.
    destruct (Hjobs job) as [o Ho].
    - apply list_elem_of_In. eapply list_elem_of_lookup_2. exact Hjob.
    - exists o. rewrite Ho. reflexivity. }
  destruct (collect_returns w _ (length packages) _ 0 [] tr0 Hsound Hfut)
    as (f & tr & Hc).
  exists tr. unfold parallel_install, shutdown. rewrite Hc.
  assert (Hall : forallb (fun i => match pool w packages order !! i with
                                   | Some (Ret _) | Some (Raise _) => true
                                   | _ => false
                                   end) (seq 0 (length packages)) = true).
  { apply forallb_forall. intros i Hi.
    rewrite List.Forall_forall in Hfut. destruct (Hfut i Hi) as [o ->].
    reflexivity. }
  rewrite Hall. f_equal. f_equal.
  pose proof (collect_failed w packages order (length packages)
                (seq 0 (length packages)) 0 [] tr0 f) as Hf.
  rewrite Hc in Hf. specialize (Hf eq_refl). rewrite Hf, request_order.
  reflexivity.
Qed.

Lemma X16_batch_returns_witness :
  exists tr,
    parallel_install w_no_distribution two_requests [1; 0] [] =
      (Ret ["alpha"; "beta"], tr).
Proof.
  assert (Hsound : notifier_sound w_no_distribution)
    by (split; intros; discriminate).
  assert (Hperm : [1; 0] ≡ₚ seq 0 (length two_requests)) by apply perm_swap.
  assert (Hjobs : Forall (job_returns w_no_distribution) two_requests)
    by (repeat constructor; eexists; vm_compute; reflexivity).
  exact (X16_batch_returns w_no_distribution two_requests [1; 0] []
           Hsound Hperm Hjobs).
Defined.

(** ** Uninstalling *)

Lemma runs_of_cons_other argv e tr :
  is_run_of argv e = false -> runs_of argv (tr ++ [e]) = runs_of argv tr.
Proof.
  intros He. rewrite runs_of_app. unfold runs_of at 2. cbn [List.filter].
  rewrite He. cbn. lia.
Qed.

Lemma is_run_of_uninstall p q t :
  p <> q -> is_run_of (pip_uninstall q) (Run (pip_uninstall p) t) = false.
Proof.
  intros Hne. unfold is_run_of. apply bool_decide_eq_false_2.
  unfold pip_uninstall. congruence.
Qed.

Lemma uninstall_loop_spec w packages failed tr :
  NoDup packages ->
  Forall (uninstall_ends w) packages ->
  Forall (fun p => runs_of (pip_uninstall p) tr = 0) packages ->
  uninstall_loop w packages failed tr =
    (Ret (failed ++ List.filter (fun p => negb (uninstall_ok w p)) packages),
     tr ++ flat_map (uninstall_events w) packages).
Proof.
  intros Hnd. revert failed tr.
  induction Hnd as [|package rest Hnotin Hnd IH]; intros failed tr Hends Hfresh.
  - cbn. rewrite !app_nil_r. reflexivity.
  - apply Forall_cons in Hends as [(code & out & err & secs & Hw) Hends].
    apply Forall_cons in Hfresh as [Hp Hfresh].
    assert (Hrest : forall e, (forall q, q ∈ rest -> is_run_of (pip_uninstall q) e = false) ->
              Forall (fun p => runs_of (pip_uninstall p) (tr ++ [e]) = 0) rest).
    { intros e He. apply Forall_forall. intros q Hq.
      rewrite runs_of_cons_other by (apply He; exact Hq).
      rewrite Forall_forall in Hfresh. apply Hfresh. exact Hq. }
    assert (Hrun : forall q, q ∈ rest ->
              is_run_of (pip_uninstall q) (Run (pip_uninstall package) None) = false).
    { intros q Hq. apply is_run_of_uninstall. intros ->. exact (Hnotin Hq). }
    assert (Hok : uninstall_ok w package = Z.eqb code 0)
      by (unfold uninstall_ok; rewrite Hw; reflexivity).
    cbn [uninstall_loop flat_map List.filter].
    unfold uninstall_events at 1. rewrite !Hok.
    unfold bind at 1, try_except, bind at 1, subprocess.run.
    rewrite Hp, Hw. cbn [andb].
    destruct (Z.eqb code 0); cbn [negb].
    + unfold bind at 1, emit, ret. rewrite IH; [|exact Hends|].
      * rewrite <- !app_assoc. reflexivity.
      * specialize (Hrest _ Hrun).
        apply Forall_forall. intros q Hq.
        rewrite runs_of_cons_other by reflexivity.
        rewrite Forall_forall in Hrest. apply Hrest. exact Hq.
    + unfold ret. rewrite IH; [|exact Hends|exact (Hrest _ Hrun)].
      rewrite <- !app_assoc. reflexivity.
Qed.

(** X17. Uninstalling distinct packages whose commands all end runs one
    [pip uninstall -y] for each package, in the order given, prints a line
    for each one that exits with code 0, and returns the others, in the
    order given. *)
Theorem X17_uninstall_reports_the_failures w packages :
  NoDup packages ->
  Forall (uninstall_ends w) packages ->
  uninstall_packages w packages [] =
    (Ret (List.filter (fun p => negb (uninstall_ok w p)) packages),
     flat_map (uninstall_events w) packages).
Proof.
  intros Hnd Hends. unfold uninstall_packages.
  rewrite uninstall_loop_spec; [reflexivity | exact Hnd | exact Hends |].
  apply Forall_forall. intros p _. reflexivity.
Qed.

Lemma X17_uninstall_reports_the_failures_witness :
  uninstall_packages w_one_absent ["alpha"; "beta"; "gamma"] [] =
    (Ret ["beta"],
     [Run (pip_uninstall "alpha") None; Print "Uninstalled alpha";
      Run (pip_uninstall "beta") None;
      Run (pip_uninstall "gamma") None; Print "Uninstalled gamma"]).
Proof.
  assert (Hnd : NoDup ["alpha"; "beta"; "gamma"])
    by (apply (bool_decide_unpack (NoDup ["alpha"; "beta"; "gamma"]));
        vm_compute; exact I).
  assert (Hends : Forall (uninstall_ends w_one_absent) ["alpha"; "beta"; "gamma"])
    by (repeat constructor; do 4 eexists; vm_compute; reflexivity).
  exact (X17_uninstall_reports_the_failures w_one_absent
           ["alpha"; "beta"; "gamma"] Hnd Hends).
Defined.

(** ** Editing the package list *)

Lemma contains_ge_cons a b s :
  contains_ge (String a (String b s)) =
  if Ascii.eqb a ">" && Ascii.eqb b "=" then true else contains_ge (String b s).
Proof. reflexivity. Qed.

Lemma split_ge_cons a b s :
  split_ge (String a (String b s)) =
  if Ascii.eqb a ">" && Ascii.eqb b "=" then EmptyString :: split_ge s
  else match split_ge (String b s) with
       | h :: t => String a h :: t
       | [] => [String a EmptyString]
       end.
Proof. reflexivity. Qed.

Lemma split_ge_not_nil s : split_ge s <> [].
Proof.
  destruct s as [|a [|b s]]; try discriminate.
  rewrite split_ge_cons.
  destruct (Ascii.eqb a ">" && Ascii.eqb b "="); [discriminate|].
  destruct (split_ge (String b s)); discriminate.
Qed.

(** A string without [>=] is not split. *)
Lemma split_ge_without s : contains_ge s = false -> split_ge s = [s].
Proof.
  induction s as [|a s IH]; [reflexivity|].
  destruct s as [|b s]; [reflexivity|].
  rewrite contains_ge_cons, split_ge_cons.
  destruct (Ascii.eqb a ">" && Ascii.eqb b "="); [discriminate|].
  intros H. rewrite (IH H). reflexivity.
Qed.

(** A string with [>=] is split in two parts or more. *)
Lemma split_ge_with s : contains_ge s = true -> 2 <= length (split_ge s).
Proof.
  induction s as [|a s IH]; [discriminate|].
  destruct s as [|b s]; [discriminate|].
  rewrite contains_ge_cons, split_ge_cons.
  destruct (Ascii.eqb a ">" && Ascii.eqb b "=").
  - intros _. pose proof (split_ge_not_nil s) as Hne.
    destruct (split_ge s); [congruence | cbn [length]; lia].
  - intros H. specialize (IH H).
    destruct (split_ge (String b s)) as [|h t]; cbn [length] in IH |- *; lia.
Qed.

(** [split('>=')] undoes joining with [>=] at the first occurrence. *)
Lemma split_ge_join name rest :
  contains_ge name = false ->
  contains_ge (String.append name (String.append ">=" rest)) = true /\
  split_ge (String.append name (String.append ">=" rest)) = name :: split_ge rest.
Proof.
  induction name as [|a name IH].
  - intros _. rewrite append_empty.
    change (String.append ">=" rest) with (String ">" (String "=" rest)).
    rewrite contains_ge_cons, split_ge_cons. split; reflexivity.
  - intros Hname. rewrite append_cons.
    destruct name as [|b name].
    + rewrite append_empty. clear IH Hname.
      change (String.append ">=" rest) with (String ">" (String "=" rest)).
      rewrite contains_ge_cons, split_ge_cons.
      replace (Ascii.eqb a ">" && Ascii.eqb ">" "=") with false
        by (rewrite andb_false_r; reflexivity).
      rewrite contains_ge_cons, split_ge_cons. split; reflexivity.
    + rewrite append_cons. rewrite contains_ge_cons in Hname.
      rewrite contains_ge_cons, split_ge_cons.
      destruct (Ascii.eqb a ">" && Ascii.eqb b "="); [discriminate Hname|].
      destruct (IH Hname) as [Hc Hs].
      rewrite append_cons in Hc, Hs. rewrite Hc, Hs. split; reflexivity.
Qed.

Lemma edit_packages_cons tok rest d :
  edit_packages (tok :: rest) d =
  if contains_ge tok then
    match split_ge tok with
    | [package; spec] =>
        edit_packages rest
          (dict_set (PyStr.strip package)
             (String.append ">=" (PyStr.strip spec)) d)
    | _ => None
    end
  else edit_packages rest (dict_set (PyStr.strip tok) "" d).
Proof. reflexivity. Qed.

(** X18. Editing fails, with the [ValueError] of the unpacking, exactly when
    one of the typed items contains [>=] more than once; every other line
    is accepted. *)
Theorem X18_edit_fails_on_a_second_operator custom_packages packages :
  edit_packages custom_packages packages = None <->
  Exists (fun pkg_spec => 2 < length (split_ge pkg_spec)) custom_packages.
Proof.
  revert packages.
  induction custom_packages as [|tok rest IH]; intros packages.
  - split; [discriminate | intros H; inversion H].
  - rewrite edit_packages_cons, Exists_cons.
    destruct (contains_ge tok) eqn:Hc.
    + pose proof (split_ge_with _ Hc) as Hlen.
      destruct (split_ge tok) as [|p [|s [|x t]]]; cbn [length] in Hlen |- *;
        try lia.
      * rewrite IH. split; [intros H; right; exact H|].
        intros [H | H]; [lia | exact H].
      * split; [intros _; left; lia | reflexivity].
    + rewrite (split_ge_without _ Hc). cbn [length]. rewrite IH.
      split; [intros H; right; exact H|]. intros [H | H]; [lia | exact H].
Qed.

Lemma X18_edit_fails_on_a_second_operator_witness :
  edit_packages ["flask"; "requests>=2.0>=3.0"] DEFAULT_PACKAGES = None.
Proof.
  apply X18_edit_fails_on_a_second_operator.
  right. left. vm_compute. lia.
Defined.

(** X19. An item [name>=version], where neither part contains [>=], is
    stored under the stripped name with the requirement [>=] followed by
    the stripped version, and an item without [>=] is stored under its
    stripped text with the empty requirement. *)
Theorem X19_item_is_stored_stripped name ver rest packages :
  contains_ge name = false ->
  contains_ge ver = false ->
  edit_packages (String.append name (String.append ">=" ver) :: rest) packages =
    edit_packages rest
      (dict_set (PyStr.strip name) (String.append ">=" (PyStr.strip ver)) packages) /\
  edit_packages (name :: rest) packages =
    edit_packages rest (dict_set (PyStr.strip name) "" packages).
Proof.
  intros Hname Hver. split.
  - rewrite edit_packages_cons.
    destruct (split_ge_join name ver Hname) as [-> ->].
    rewrite (split_ge_without _ Hver). reflexivity.
  - rewrite edit_packages_cons, Hname. reflexivity.
Qed.

Lemma X19_item_is_stored_stripped_witness :
  edit_packages [" requests >= 2.31.0 "] [("flask", "")] =
    Some [("flask", ""); ("requests", ">=2.31.0")].
Proof.
  exact (proj1 (X19_item_is_stored_stripped " requests " " 2.31.0 " []
                  [("flask", "")] eq_refl eq_refl)).
Defined.

Lemma keys_dict_set k v d :
  keys (dict_set k v d) = keys d ++ (if bool_decide (k ∈ keys d) then [] else [k]).
Proof.
  induction d as [|[k' v'] d IH].
  - cbn. rewrite bool_decide_eq_false_2 by apply not_elem_of_nil. reflexivity.
  - cbn [dict_set]. destruct (String.eqb_spec k' k) as [-> | Hne].
    + cbn [keys map fst].
      rewrite bool_decide_eq_true_2 by (apply elem_of_cons; left; reflexivity).
      rewrite app_nil_r. reflexivity.
    + unfold keys in *. cbn [map fst]. rewrite IH.
      rewrite (bool_decide_ext (k ∈ k' :: map fst d) (k ∈ map fst d)).
      * reflexivity.
      * rewrite elem_of_cons. split; [intros [H | H]; [congruence | exact H] | tauto].
Qed.

Lemma dict_set_form k v d :
  requirement_form v = true ->
  Forall (fun item => requirement_form item.2 = true) d ->
  Forall (fun item => requirement_form item.2 = true) (dict_set k v d).
Proof.
  intros Hv Hd. induction Hd as [|[k' v'] d Hitem Hd IH].
  - constructor; [exact Hv | constructor].
  - cbn [dict_set]. destruct (String.eqb k' k).
    + constructor; [exact Hv | exact Hd].
    + constructor; [exact Hitem | exact IH].
Qed.

Lemma lower_bound_form v : requirement_form (String.append ">=" v) = true.
Proof.
  change (String.append ">=" v) with (String ">" (String "=" v)).
  unfold requirement_form, PyStr.startswith. destruct v; reflexivity.
Qed.

(** X20. Editing never removes a package and never moves one: the packages
    listed before keep their places, and the new ones follow them. *)
Theorem X20_edit_only_appends custom_packages packages packages' :
  edit_packages custom_packages packages = Some packages' ->
  exists added, keys packages' = keys packages ++ added.
Proof.
  revert packages.
  induction custom_packages as [|tok rest IH]; intros packages.
  - intros [= <-]. exists []. rewrite app_nil_r. reflexivity.
  - rewrite edit_packages_cons.
    destruct (contains_ge tok);
      [destruct (split_ge tok) as [|p [|s [|x t]]]; try discriminate|];
      intros Hedit; apply IH in Hedit as [added Hkeys];
      rewrite keys_dict_set, <- app_assoc in Hkeys; eexists; exact Hkeys.
Qed.

Lemma X20_edit_only_appends_witness :
  exists added,
    keys [("flask", ">=3.0"); ("requests", ">=2.28.0"); ("rich", "")] =
    keys [("flask", ">=2.2.0"); ("requests", ">=2.28.0")] ++ added.
Proof.
  exact (X20_edit_only_appends ["rich"; "flask>=3.0"]
           [("flask", ">=2.2.0"); ("requests", ">=2.28.0")] _ eq_refl).
Defined.

(** X21. Editing keeps the form of the requirements: when every stored
    requirement is empty or begins with [>=], so is every requirement
    after the edit, whatever was typed. *)
Theorem X21_edit_keeps_the_requirement_form custom_packages packages packages' :
  Forall (fun item => requirement_form item.2 = true) packages ->
  edit_packages custom_packages packages = Some packages' ->
  Forall (fun item => requirement_form item.2 = true) packages'.
Proof.
  revert packages.
  induction custom_packages as [|tok rest IH]; intros packages Hform.
  - intros [= <-]. exact Hform.
  - rewrite edit_packages_cons.
    destruct (contains_ge tok);
      [destruct (split_ge tok) as [|p [|s [|x t]]]; try discriminate|];
      apply IH; apply dict_set_form;
      first [exact Hform | apply lower_bound_form | reflexivity].
Qed.

Lemma X21_edit_keeps_the_requirement_form_witness :
  Forall (fun item => requirement_form item.2 = true)
    [("flask", ">=2.2.0"); ("requests", ">===2"); ("", "")].
Proof.
  apply (X21_edit_keeps_the_requirement_form ["requests>= ==2"; " "]
           [("flask", ">=2.2.0")]).
  - repeat constructor.
  - reflexivity.
Defined.

(** ** The script as a whole *)

Lemma system_dependencies_spec w tr :
  system_dependencies w tr =
  let tr' := tr ++ [Run pkg_install (Some 300)] in
  match w pkg_install (runs_of pkg_install tr) with
  | Missing => (Raise FileNotFoundError, tr')
  | Hangs => (Raise TimeoutExpired, tr')
  | Exits code _ _ secs =>
      if Nat.ltb 300 secs then (Raise TimeoutExpired, tr')
      else (Ret (Z.eqb code 0), tr')
  end.
Proof.
  unfold system_dependencies, try_except, bind, subprocess.run, ret.
  destruct (w pkg_install (runs_of pkg_install tr)) as [code out err secs| |];
    try reflexivity.
  cbv zeta. destruct (Nat.ltb 300 secs); [reflexivity|].
  cbn [andb]. destruct (Z.eqb code 0); reflexivity.
Qed.

Lemma upgrade_pip_spec w tr :
  upgrade_pip w tr =
  let tr' := tr ++ [Run pip_upgrade (Some 120)] in
  match w pip_upgrade (runs_of pip_upgrade tr) with
  | Missing => (Raise FileNotFoundError, tr')
  | Hangs => (Raise TimeoutExpired, tr')
  | Exits code _ _ secs =>
      if Nat.ltb 120 secs then (Raise TimeoutExpired, tr') else (Ret tt, tr')
  end.
Proof.
  unfold upgrade_pip, try_except, bind, subprocess.run, ret.
  destruct (w pip_upgrade (runs_of pip_upgrade tr)) as [code out err secs| |];
    try reflexivity.
  cbv zeta. destruct (Nat.ltb 120 secs); [reflexivity|].
  cbn [andb]. destruct (Z.eqb code 0); reflexivity.
Qed.

(** The ways of the block that edits the package list. *)
Lemma customize_spec packages s :
  customize packages s =
  match unread s with
  | [] => (inl EOFError, s)
  | answer :: rest =>
      if String.eqb (PyStr.lower answer) "y" then
        match rest with
        | [] => (inl EOFError, mkSession (log s) (config_file s) [])
        | line :: rest' =>
            match edit_packages (PyStr.split "," (PyStr.strip line)) packages with
            | Some packages' =>
                (inr packages', mkSession (log s) (Some packages') rest')
            | None =>
                (inl (Uncaught ValueError),
                 mkSession (log s) (config_file s) rest')
            end
        end
      else (inr packages, mkSession (log s) (config_file s) rest)
  end.
Proof.
  unfold customize, mbind at 1, input.
  destruct (unread s) as [|answer rest]; [reflexivity|].
  destruct (String.eqb (PyStr.lower answer) "y"); [|reflexivity].
  unfold mbind at 1. cbn [unread log config_file].
  destruct rest as [|line rest']; [reflexivity|].
  destruct (edit_packages _ packages); reflexivity.
Qed.

(** The script after the package list is settled. *)
Lemma main_not_root w euid order s :
  euid <> 0 ->
  main w euid order s =
  match customize (loaded (config_file s)) s with
  | (inl st, s1) => (inl st, s1)
  | (inr packages, s1) =>
      match system_dependencies w (log s1) with
      | (Ret true, tr2) =>
          match upgrade_pip w tr2 with
          | (Ret _, tr3) =>
              in_thread (install_and_notify w packages order)
                (mkSession tr3 (config_file s1) (unread s1))
          | (Raise e, tr3) =>
              (inl (Uncaught e), mkSession tr3 (config_file s1) (unread s1))
          | (Blocks, tr3) =>
              (inl Stuck, mkSession tr3 (config_file s1) (unread s1))
          end
      | (Ret false, tr2) =>
          match send_notification w "Installation Failed"
                  "System packages error" tr2 with
          | (Ret _, tr3) =>
              (inl (SystemExit 1), mkSession tr3 (config_file s1) (unread s1))
          | (Raise e, tr3) =>
              (inl (Uncaught e), mkSession tr3 (config_file s1) (unread s1))
          | (Blocks, tr3) =>
              (inl Stuck, mkSession tr3 (config_file s1) (unread s1))
          end
      | (Raise e, tr2) =>
          (inl (Uncaught e), mkSession tr2 (config_file s1) (unread s1))
      | (Blocks, tr2) =>
          (inl Stuck, mkSession tr2 (config_file s1) (unread s1))
      end
  end.
Proof.
  intros Hne. unfold main, check_root.
  rewrite (proj2 (Nat.eqb_neq euid 0) Hne).
  unfold mbind at 1, mret. unfold mbind at 1, load_config.
  replace (match config_file s with
           | Some packages => (inr packages, s)
           | None => (inr DEFAULT_PACKAGES, s)
           end) with (@inr stop dict (loaded (config_file s)), s)
    by (destruct (config_file s); reflexivity).
  unfold mbind at 1.
  destruct (customize (loaded (config_file s)) s) as [[st|packages] s1];
    [reflexivity|].
  unfold mbind at 1, in_thread at 1.
  destruct (system_dependencies w (log s1)) as [[[|]|e|] tr2]; try reflexivity.
  - unfold mbind at 1, mret. unfold mbind at 1, in_thread at 1.
    cbn [log config_file unread].
    destruct (upgrade_pip w tr2) as [[[]|e|] tr3]; reflexivity.
  - unfold mbind at 1. unfold mbind at 1, in_thread at 1.
    cbn [log config_file unread].
    destruct (send_notification w _ _ tr2) as [[[]|e|] tr3]; reflexivity.
Qed.

Lemma customize_stop packages s st s1 :
  customize packages s = (inl st, s1) ->
  st = EOFError \/ st = Uncaught ValueError.
Proof.
  rewrite customize_spec. destruct (unread s) as [|answer rest].
  - intros [= <- _]. left. reflexivity.
  - destruct (String.eqb (PyStr.lower answer) "y"); [|discriminate].
    destruct rest as [|line rest']; [intros [= <- _]; left; reflexivity|].
    destruct (edit_packages _ packages); [discriminate|].
    intros [= <- _]. right. reflexivity.
Qed.

Lemma customize_log packages s :
  log (customize packages s).2 = log s.
Proof.
  rewrite customize_spec. destruct (unread s) as [|answer rest]; [reflexivity|].
  destruct (String.eqb (PyStr.lower answer) "y"); [|reflexivity].
  destruct rest as [|line rest']; [reflexivity|].
  destruct (edit_packages _ packages); reflexivity.
Qed.

Lemma in_thread_config {A : Type} (m : M A) s :
  config_file (in_thread m s).2 = config_file s /\
  unread (in_thread m s).2 = unread s /\
  log (in_thread m s).2 = (m (log s)).2.
Proof.
  unfold in_thread. destruct (m (log s)) as [[a|e|] tr]; repeat split.
Qed.

Lemma in_thread_stop {A : Type} (m : M A) s st :
  (in_thread m s).1 = inl st ->
  (exists e, st = Uncaught e /\ (m (log s)).1 = Raise e) \/ st = Stuck.
Proof.
  unfold in_thread. destruct (m (log s)) as [[a|e|] tr]; cbn [fst];
    [discriminate | |]; intros [= <-];
    [left; exists e; split; reflexivity | right; reflexivity].
Qed.

Lemma send_notification_exn w title message tr e :
  (send_notification w title message tr).1 = Raise e -> e = FileNotFoundError.
Proof.
  rewrite send_notification_spec. cbv zeta.
  destruct (w notifier_probe _); try discriminate.
  destruct (w (notify_command title message) _); try discriminate.
  intros [= <-]. reflexivity.
Qed.

Lemma install_and_notify_exn w packages order tr e :
  (install_and_notify w packages order tr).1 = Raise e ->
  e = FileNotFoundError \/ e = ValueError \/ exists v, e = InvalidVersion v.
Proof.
  unfold install_and_notify, bind.
  destruct (parallel_install w packages order tr) as [[failed|e'|] tr1] eqn:Hp.
  - destruct failed; intros H; left; exact (send_notification_exn _ _ _ _ _ H).
  - intros [= <-].
    destruct (parallel_install_exn w packages order tr e')
      as [-> | (job & _ & _ & _ & He)]; [rewrite Hp; reflexivity | left | right].
    + reflexivity.
    + exact He.
  - discriminate.
Qed.

(** The session of a root user. *)
Lemma main_root w order s : main w 0 order s = (inl (SystemExit 1), s).
Proof. reflexivity. Qed.

(** X22. The script exits with a status of its own in two cases only, both
    with status 1: for the root user, before anything is read, written or
    run; and when [pkg install] ends in time with a nonzero exit code,
    after the attempt to notify and before any [python3] command. *)
Theorem X22_exit_status w euid order config lines code :
  (main w euid order (start config lines)).1 = inl (SystemExit code) ->
  code = 1 /\
  (euid = 0 /\ (main w euid order (start config lines)).2 = start config lines \/
   euid <> 0 /\
   (exists c out err secs,
       w pkg_install 0 = Exits c out err secs /\ c <> 0%Z /\ secs <= 300) /\
   no_python (log (main w euid order (start config lines)).2) = true).
Proof.
  destruct (Nat.eq_dec euid 0) as [-> | Hne].
  - rewrite main_root. intros [= <-]. split; [reflexivity|]. left.
    split; reflexivity.
  - rewrite (main_not_root w euid order _ Hne).
    pose proof (customize_log (loaded (config_file (start config lines)))
                  (start config lines)) as Hlog.
    destruct (customize _ (start config lines)) as [[st|packages] s1] eqn:Hc.
    + cbn [fst]. intros [= ->].
      apply customize_stop in Hc as [Hc | Hc]; discriminate Hc.
    + cbn [snd] in Hlog. rewrite Hlog. cbn [log start].
      rewrite system_dependencies_spec. cbv zeta.
      change (runs_of pkg_install []) with 0.
      destruct (w pkg_install 0) as [c out err secs| |] eqn:Hw;
        try discriminate.
      destruct (Nat.ltb_spec 300 secs) as [Hlt | Hle]; [discriminate|].
      destruct (Z.eqb_spec c 0) as [-> | Hc0].
      * rewrite upgrade_pip_spec. cbv zeta.
        destruct (w pip_upgrade _) as [c' out' err' secs'| |]; try discriminate;
          try destruct (Nat.ltb 120 secs'); try discriminate.
        intros H. apply in_thread_stop in H as [(e & He & _) | He];
          discriminate He.
      * rewrite send_notification_spec. cbv zeta.
        destruct (w notifier_probe _); [|discriminate|];
          [destruct (w (notify_command _ _) _); try discriminate|];
          cbn [fst snd log]; intros [= <-]; (split; [reflexivity|]); right;
          (split; [exact Hne|]);
          (split; [exists c, out, err, secs; repeat split; assumption
                  | reflexivity]).
Qed.

Lemma X22_exit_status_witness :
  (main w_no_distribution 1000 [] (start None ["n"])).1 = inl (SystemExit 1) /\
  log (main w_no_distribution 1000 [] (start None ["n"])).2 =
    [Run pkg_install (Some 300); Run notifier_probe None;
     Run (notify_command "Installation Failed" "System packages error") (Some 5)] /\
  no_python (log (main w_no_distribution 1000 [] (start None ["n"])).2) = true.
Proof.
  split; [vm_compute; reflexivity|]. split; [vm_compute; reflexivity|].
  destruct (X22_exit_status w_no_distribution 1000 [] None ["n"] 1 eq_refl)
    as [_ [[H _] | (_ & _ & H)]]; [discriminate H | exact H].
Defined.

(** How [main] can end with an exception of [exn]. *)
Lemma main_uncaught_cases w euid order config lines e :
  (main w euid order (start config lines)).1 = inl (Uncaught e) ->
  e = TimeoutExpired /\
    (log (main w euid order (start config lines)).2 =
       [Run pkg_install (Some 300)] \/
     log (main w euid order (start config lines)).2 =
       [Run pkg_install (Some 300); Run pip_upgrade (Some 120)]) \/
  e = FileNotFoundError \/
  e = ValueError \/
  exists v, e = InvalidVersion v.
Proof.
  destruct (Nat.eq_dec euid 0) as [-> | Hne]; [rewrite main_root; discriminate|].
  rewrite (main_not_root w euid order _ Hne).
  pose proof (customize_log (loaded (config_file (start config lines)))
                (start config lines)) as Hlog.
  destruct (customize _ (start config lines)) as [[st|packages] s1] eqn:Hc.
  - cbn [fst]. intros [= ->].
    apply customize_stop in Hc as [Hc | Hc]; [discriminate Hc|].
    injection Hc as ->. right. right. left. reflexivity.
  - cbn [snd] in Hlog. rewrite Hlog. cbn [log start].
    rewrite system_dependencies_spec. cbv zeta.
    change (runs_of pkg_install []) with 0. cbn [app].
    destruct (w pkg_install 0) as [c out err secs| |] eqn:Hw; cbn [fst snd log].
    + destruct (Nat.ltb 300 secs); cbn [fst snd log].
      * intros [= <-]. left. split; [reflexivity | left; reflexivity].
      * destruct (Z.eqb c 0).
        -- rewrite upgrade_pip_spec. cbv zeta.
           destruct (w pip_upgrade _) as [c' out' err' secs'| |];
             cbn [fst snd log app].
           ++ destruct (Nat.ltb 120 secs'); cbn [fst snd log].
              ** intros [= <-]. left. split; [reflexivity | right; reflexivity].
              ** intros H. apply in_thread_stop in H as [(e' & [= <-] & He) | He];
                   [|discriminate He].
                 right. apply install_and_notify_exn in He. exact He.
           ++ intros [= <-]. left. split; [reflexivity | right; reflexivity].
           ++ intros [= <-]. right. left. reflexivity.
        -- destruct (send_notification w _ _ _) as [[[]|e'|] tr3] eqn:Hn;
             cbn [fst]; try discriminate.
           intros [= <-]. right. left.
           eapply send_notification_exn. rewrite Hn. reflexivity.
    + intros [= <-]. left. split; [reflexivity | left; reflexivity].
    + intros [= <-]. right. left. reflexivity.
Qed.

(** X23. No nonzero exit code of any command ends the script with an
    exception: [CalledProcessError] never escapes [main]. A timeout escapes
    only from [pkg install] or from the upgrade of pip, which no clause
    guards against it, and nothing else is run afterwards; the timeout of
    an installation of a package or of a notification never escapes. *)
Theorem X23_what_escapes_main w euid order config lines :
  (forall err,
      (main w euid order (start config lines)).1 <>
        inl (Uncaught (CalledProcessError err))) /\
  ((main w euid order (start config lines)).1 = inl (Uncaught TimeoutExpired) ->
   log (main w euid order (start config lines)).2 =
     [Run pkg_install (Some 300)] \/
   log (main w euid order (start config lines)).2 =
     [Run pkg_install (Some 300); Run pip_upgrade (Some 120)]).
Proof.
  split.
  - intros err Hraise.
    destruct (main_uncaught_cases w euid order config lines _ Hraise)
      as [[H _] | [H | [H | [v H]]]]; discriminate H.
  - intros Hraise.
    destruct (main_uncaught_cases w euid order config lines _ Hraise)
      as [[_ H] | [H | [H | [v H]]]]; [exact H | | |]; discriminate H.
Qed.

Lemma X23_what_escapes_main_witness :
  (main w_slow_mirror 1000 [] (start None ["n"])).1 = inl (Uncaught TimeoutExpired) /\
  log (main w_slow_mirror 1000 [] (start None ["n"])).2 =
    [Run pkg_install (Some 300)].
Proof.
  split; [vm_compute; reflexivity|].
  destruct (proj2 (X23_what_escapes_main w_slow_mirror 1000 [] None ["n"])
              eq_refl) as [H | H];
    [exact H | vm_compute in H; discriminate H].
Defined.

Lemma main_config w euid order s :
  euid <> 0 ->
  config_file (main w euid order s).2 =
    config_file (customize (loaded (config_file s)) s).2 /\
  unread (main w euid order s).2 =
    unread (customize (loaded (config_file s)) s).2.
Proof.
  intros Hne. rewrite (main_not_root w euid order s Hne).
  destruct (customize _ s) as [[st|packages] s1]; [split; reflexivity|].
  cbn [snd].
  destruct (system_dependencies w (log s1)) as [[[|]|e|] tr2];
    try (split; reflexivity).
  - destruct (upgrade_pip w tr2) as [[[]|e|] tr3]; try (split; reflexivity).
    destruct (in_thread_config (install_and_notify w packages order)
                (mkSession tr3 (config_file s1) (unread s1))) as (Hc & Hu & _).
    split; assumption.
  - destruct (send_notification w _ _ tr2) as [[[]|e|] tr3]; split; reflexivity.
Qed.

(** X24. Every answer other than [y] and [Y], the empty line and [yes]
    among them, leaves the configuration file as it was, absent if it was
    absent, and no further line is read, whatever the commands do. *)
Theorem X24_declining_keeps_the_file w euid order config answer lines :
  PyStr.lower answer <> "y" ->
  config_file (main w euid order (start config (answer :: lines))).2 = config /\
  (euid <> 0 ->
   unread (main w euid order (start config (answer :: lines))).2 = lines).
Proof.
  intros Hans. destruct (Nat.eq_dec euid 0) as [-> | Hne].
  - rewrite main_root. split; [reflexivity | intros H; congruence].
  - destruct (main_config w euid order (start config (answer :: lines)) Hne)
      as [-> ->].
    rewrite customize_spec. cbn [unread start].
    rewrite (proj2 (String.eqb_neq _ _) Hans). split; reflexivity.
Qed.

Lemma X24_declining_keeps_the_file_witness :
  config_file (main w_no_distribution 1000 [] (start None ["yes"; "flask"])).2 =
    None /\
  unread (main w_no_distribution 1000 [] (start None ["yes"; "flask"])).2 =
    ["flask"].
Proof.
  assert (Hans : PyStr.lower "yes" <> "y") by discriminate.
  destruct (X24_declining_keeps_the_file w_no_distribution 1000 [] None "yes"
              ["flask"] Hans) as [Hc Hu].
  split; [exact Hc | apply Hu; discriminate].
Defined.

(** X25. After the answer [y] the edited list is in the configuration file
    whatever the commands do afterwards: it is saved before any command is
    run. An item with a second [>=] ends the script with [ValueError]
    before anything is saved or run. *)
Theorem X25_edit_is_saved_first w euid order config answer line lines :
  euid <> 0 ->
  PyStr.lower answer = "y" ->
  match edit_packages (PyStr.split "," (PyStr.strip line)) (loaded config) with
  | Some packages' =>
      config_file (main w euid order (start config (answer :: line :: lines))).2 =
        Some packages'
  | None =>
      main w euid order (start config (answer :: line :: lines)) =
        (inl (Uncaught ValueError), start config lines)
  end.
Proof.
  intros Hne Hans.
  destruct (edit_packages _ (loaded config)) as [packages'|] eqn:Hedit.
  - destruct (main_config w euid order
                (start config (answer :: line :: lines)) Hne) as [-> _].
    rewrite customize_spec. cbn [unread start config_file].
    rewrite Hans, Hedit. reflexivity.
  - rewrite (main_not_root w euid order _ Hne), customize_spec.
    cbn [unread start config_file log]. rewrite Hans, Hedit. reflexivity.
Qed.

Lemma X25_edit_is_saved_first_witness :
  config_file
    (main w_slow_mirror 1000 [] (start (Some [("flask", "")]) ["Y"; "rich>=13.0"])).2 =
  Some [("flask", ""); ("rich", ">=13.0")].
Proof.
  assert (Hne : 1000 <> 0) by discriminate.
  exact (X25_edit_is_saved_first w_slow_mirror 1000 [] (Some [("flask", "")])
           "Y" "rich>=13.0" [] Hne eq_refl).
Defined.

(** X26. A failed upgrade of pip does not stop the script: when
    [pkg install] succeeds in time and the upgrade of pip ends in time,
    with any exit code, the script goes on to the batch and the closing
    notification, with the packages of the configuration file, or the
    default packages when there is no file. *)
Theorem X26_failed_pip_upgrade_is_tolerated w euid order config answer lines
    out err secs code' out' err' secs' :
  euid <> 0 ->
  PyStr.lower answer <> "y" ->
  w pkg_install 0 = Exits 0 out err secs -> secs <= 300 ->
  w pip_upgrade 0 = Exits code' out' err' secs' -> secs' <= 120 ->
  main w euid order (start config (answer :: lines)) =
    in_thread (install_and_notify w (loaded config) order)
      (mkSession [Run pkg_install (Some 300); Run pip_upgrade (Some 120)]
         config lines).
Proof.
  intros Hne Hans Hpkg Hsecs Hpip Hsecs'.
  rewrite (main_not_root w euid order _ Hne), customize_spec.
  cbn [unread start config_file log].
  rewrite (proj2 (String.eqb_neq _ _) Hans).
  cbn [log config_file unread].
  rewrite system_dependencies_spec. cbv zeta.
  change (runs_of pkg_install []) with 0. rewrite Hpkg.
  rewrite (proj2 (Nat.ltb_ge 300 secs) Hsecs). cbn [Z.eqb app].
  rewrite upgrade_pip_spec. cbv zeta.
  change (runs_of pip_upgrade [Run pkg_install (Some 300)]) with 0.
  rewrite Hpip, (proj2 (Nat.ltb_ge 120 secs') Hsecs'). reflexivity.
Qed.

Lemma X26_failed_pip_upgrade_is_tolerated_witness :
  (main w_old_pip 1000 [0] (start (Some [("flask", ">=2.0")]) [""])).1 = inr tt /\
  log (main w_old_pip 1000 [0] (start (Some [("flask", ">=2.0")]) [""])).2 =
    [Run pkg_install (Some 300); Run pip_upgrade (Some 120);
     Status true 1 1 "flask" "Already installed";
     Run notifier_probe None].
Proof.
  assert (Hne : 1000 <> 0) by discriminate.
  assert (Hans : PyStr.lower "" <> "y") by discriminate.
  rewrite (X26_failed_pip_upgrade_is_tolerated w_old_pip 1000 [0]
             (Some [("flask", ">=2.0")]) "" [] "" "" 1 1 "" "ERROR: externally-managed-environment" 1
             Hne Hans eq_refl ltac:(lia) eq_refl ltac:(lia)).
  split; vm_compute; reflexivity.
Defined.

Lemma parallel_install_failed w packages order tr failed :
  (parallel_install w packages order tr).1 = Ret failed ->
  failed = failed_in_request_order w packages.
Proof.
  unfold parallel_install. intros Hret. apply shutdown_returns in Hret.
  apply collect_failed in Hret. rewrite Hret, request_order. reflexivity.
Qed.

Lemma install_and_notify_eq w packages order tr :
  install_and_notify w packages order tr =
  match parallel_install w packages order tr with
  | (Ret failed_packages, tr1) =>
      send_notification w "Installation Complete"
        (closing_message failed_packages) tr1
  | (Raise e, tr1) => (Raise e, tr1)
  | (Blocks, tr1) => (Blocks, tr1)
  end.
Proof.
  unfold install_and_notify, bind.
  destruct (parallel_install w packages order tr) as [[[|p failed]|e|] tr1];
    reflexivity.
Qed.

(** X27. When the notifier answers and the batch is through, the last
    thing the script does is to send the closing notification, with a
    timeout of 5 seconds: it tells the number of failed packages, or that
    all packages were installed when none failed. *)
Theorem X27_closing_notification w packages order tr tr' :
  notifier_answers w ->
  install_and_notify w packages order tr = (Ret tt, tr') ->
  last tr' =
    Some (Run (notify_command "Installation Complete"
                 (closing_message (failed_in_request_order w packages)))
            (Some 5)).
Proof.
  intros Hnot. rewrite install_and_notify_eq.
  destruct (parallel_install w packages order tr) as [[failed|e|] tr1] eqn:Hp;
    try discriminate.
  rewrite (parallel_install_failed w packages order tr failed)
    by (rewrite Hp; reflexivity).
  rewrite send_notification_spec. cbv zeta.
  destruct (Hnot (runs_of notifier_probe tr1)) as (c & o & e & s & ->).
  destruct (w (notify_command _ _) _); try discriminate;
    intros [= <-]; rewrite last_snoc; reflexivity.
Qed.

Lemma X27_closing_notification_witness :
  last (install_and_notify w_no_distribution two_requests [1; 0] []).2 =
    Some (Run (notify_command "Installation Complete" "2 packages failed")
            (Some 5)).
Proof.
  assert (Hnot : notifier_answers w_no_distribution)
    by (intros n; do 4 eexists; reflexivity).
  exact (X27_closing_notification w_no_distribution two_requests [1; 0] [] _
           Hnot eq_refl).
Defined.
